(** * NCAA tournament tracker: the aggregation and rendering pipeline

    A shallow embedding of [services/sportService.js] (statistics, mock
    data, fetch with fallback), [services/canvasService.js] (game line,
    statistics text, the blocks of the page), the second copy of the canvas
    service that the repository carries, and the controller [index.js]
    (refresh cycle, message and mention handlers, canvas bootstrap,
    scheduled callback, start-up sequence), followed by the properties the
    specification states about them and by further properties of the code.

    Numbers.  Scores, seeds, margins and counts are integers ([Z], [nat]).
    The two averages are JavaScript Numbers obtained from integers by one
    division, one multiplication by ten, [Math.round] and one division by
    ten; they are modelled by exact rationals ([Q]).

    Dates.  [new Date(s)] has a time value or is an Invalid Date; the
    difference of two Dates is a Number or [NaN].

    Effects.  Functions that call the provider, the document store, the
    chat client, the console, the clock or the module-level variable
    [tournamentData] are programs over those effects ([prog]); [run] runs
    one program to completion against a world that answers every call, and
    [step] interleaves several handlers at their [await] points.  An error
    is identified by its message. *)

From Stdlib Require Import List ZArith QArith Qround Lqa String Ascii Bool Lia.
From Stdlib Require Import DecimalString Permutation Sorted.
Import ListNotations.

Open Scope string_scope.
Open Scope Z_scope.

(* ================================================================== *)
(** ** JavaScript built-ins used by the program *)

Module JS.

(** [Math.round]: the nearest integer, halves towards +infinity. *)
Definition Math_round (x : Q) : Z := Qfloor (x + (1 # 2)).

Definition Math_abs (x : Z) : Z := Z.abs x.

(** Template-literal conversion of an integer Number. *)
Definition Number_toString (z : Z) : string :=
  NilZero.string_of_int (Z.to_int z).

Definition digit_toString (d : Z) : string := Number_toString d.

(** Template-literal conversion of a Number with at most one decimal
    (the only fractional Numbers the program prints): [130], [66.5],
    [-0.5]. *)
Definition Number_toString_1dp (q : Q) : string :=
  let n := Qfloor (q * 10) in
  if n mod 10 =? 0 then Number_toString (n / 10)
  else (if n <? 0 then "-" else "")
         ++ Number_toString (Z.abs n / 10) ++ "."
         ++ digit_toString (Z.abs n mod 10).

(** [Array.prototype.sort(compare)] with a consistent comparator: a stable
    sort.  [gt a b] stands for [compare(a, b) > 0], that is, [a] has to
    come after [b].  For a consistent comparator the result of a stable
    sort is unique (lemma [sort_unique] below); it is computed here by
    insertion from the right.  With a comparator that is not consistent
    the order is left to the engine (see [Array_sort_by_date]). *)
Section Sort.
Context {A : Type} (gt : A -> A -> bool).

Fixpoint insert (x : A) (l : list A) : list A :=
  match l with
  | [] => [x]
  | y :: l' => if gt x y then y :: insert x l' else x :: y :: l'
  end.

Fixpoint sort (l : list A) : list A :=
  match l with
  | [] => []
  | x :: l' => insert x (sort l')
  end.

(** [a] need not come after [b]. *)
Definition not_after (a b : A) : Prop := gt a b = false.
End Sort.

(** [d1 - d2] for two Dates, each given by its time value ([None] for an
    Invalid Date): a Number, [NaN] ([None]) when either date is invalid. *)
Definition Date_minus (d1 d2 : option Z) : option Z :=
  match d1, d2 with
  | Some t1, Some t2 => Some (t1 - t2)
  | _, _ => None
  end.

(** A [toLocale...String] method: on an Invalid Date each of them returns
    the text [Invalid Date]. *)
Definition Date_print (print : Z -> string) (d : option Z) : string :=
  match d with
  | Some t => print t
  | None => "Invalid Date"
  end.

(** [v > 0] for the Number a comparator returned; the sort reads [NaN] as
    [+0]. *)
Definition positive (v : option Z) : bool :=
  match v with
  | Some z => z >? 0
  | None => false
  end.

(** [arr.slice(0, n)] *)
Definition slice0 {A} (n : nat) (l : list A) : list A := firstn n l.

(** [arr.join(sep)] on strings *)
Fixpoint join (sep : string) (l : list string) : string :=
  match l with
  | [] => ""
  | [x] => x
  | x :: l' => x ++ sep ++ join sep l'
  end.

(** [String(x).padStart(2, '0')] *)
Definition padStart2 (s : string) : string :=
  match String.length s with
  | O => "00"
  | S O => "0" ++ s
  | _ => s
  end.

End JS.

(* ================================================================== *)
(** ** Game records, as delivered by the provider *)

Record game := mkGame {
  GameID : Z;
  Status : string;
  DateTime : string;
  AwayTeam : string;
  HomeTeam : string;
  AwayTeamSeed : Z;
  HomeTeamSeed : Z;
  AwayTeamScore : Z;
  HomeTeamScore : Z;
  TimeRemainingMinutes : option Z;   (* [null] before tip-off *)
  TimeRemainingSeconds : option Z;
  Period : option string;
  Round : Z
}.

Definition status_is (s : string) (g : game) : bool := String.eqb (Status g) s.

(** The upset test, written three times in the source (statistics,
    controller, game line) with the same text. *)
Definition upset_test (g : game) : bool :=
  ((AwayTeamSeed g >? HomeTeamSeed g) && (AwayTeamScore g >? HomeTeamScore g))
  || ((HomeTeamSeed g >? AwayTeamSeed g) && (HomeTeamScore g >? AwayTeamScore g)).

(* ================================================================== *)
(** ** Ordinary objects used as string-keyed maps *)

Module JSObject.

(** Own properties, in creation order. *)
Definition t (V : Type) : Type := list (string * V).

Fixpoint get_own {V} (k : string) (o : t V) : option V :=
  match o with
  | [] => None
  | (k', v) :: o' => if String.eqb k k' then Some v else get_own k o'
  end.

(** Assignment through an own property that exists: the slot keeps its
    place.  Without the own property the object is left as it is. *)
Fixpoint update {V} (k : string) (f : V -> V) (o : t V) : t V :=
  match o with
  | [] => []
  | (k', v) :: o' =>
      if String.eqb k k' then (k', f v) :: o' else (k', v) :: update k f o'
  end.

(** Creation of a new own property: it is the last one created. *)
Definition define {V} (k : string) (v : V) (o : t V) : t V := (o ++ [(k, v)])%list.

Definition keys {V} (o : t V) : list string := map fst o.

(** The property names every object literal inherits from
    [Object.prototype]; reading one of them on an object without such an
    own property yields a function (or, for [__proto__], the prototype). *)
Definition Object_prototype_keys : list string :=
  [ "constructor"; "__defineGetter__"; "__defineSetter__"; "hasOwnProperty";
    "__lookupGetter__"; "__lookupSetter__"; "isPrototypeOf";
    "propertyIsEnumerable"; "toString"; "valueOf"; "__proto__";
    "toLocaleString" ].

Definition inherited (k : string) : bool :=
  existsb (String.eqb k) Object_prototype_keys.

(** Array indices: canonical decimal numerals below 2^32 - 1. *)
Definition digit_value (c : ascii) : option N :=
  let n := N_of_ascii c in
  if ((48 <=? n) && (n <=? 57))%N then Some (n - 48)%N else None.

Fixpoint digits_value (s : string) (acc : N) : option N :=
  match s with
  | EmptyString => Some acc
  | String c s' =>
      match digit_value c with
      | Some d => digits_value s' (10 * acc + d)%N
      | None => None
      end
  end.

Definition array_index (s : string) : option N :=
  match s with
  | EmptyString => None
  | String c s' =>
      if (Ascii.eqb c "0" && negb (String.eqb s' ""))%bool then None
      else match digits_value s 0 with
           | Some n => if (n <? 2 ^ 32 - 1)%N then Some n else None
           | None => None
           end
  end.

Definition is_index (s : string) : bool :=
  match array_index s with Some _ => true | None => false end.

Definition index_of (s : string) : N :=
  match array_index s with Some n => n | None => 0%N end.

(** [Object.entries]: own properties whose names are array indices come
    first, by ascending index; the others follow in creation order. *)
Definition entries {V} (o : t V) : list (string * V) :=
  (JS.sort (fun a b => (index_of (fst b) <? index_of (fst a))%N)
           (filter (fun kv => is_index (fst kv)) o)
   ++ filter (fun kv => negb (is_index (fst kv))) o)%list.

End JSObject.

(* ================================================================== *)
(** ** Records of the statistics summary *)

Module Tally.
Record t := mk { points : Z; games : Z }.
End Tally.

Module TeamAvg.
Record t := mk {
  team : string;
  avgPoints : Q;
  totalPoints : Z;
  games : Z
}.
End TeamAvg.

Module Margin.
Record t := mk {
  awayTeam : string;
  homeTeam : string;
  awayScore : Z;
  homeScore : Z;
  margin : Z;
  winner : string;
  loser : string
}.
End Margin.

Module Stats.
Record t := mk {
  totalGames : nat;
  completedGames : nat;
  inProgressGames : nat;
  upcomingGames : nat;
  upsets : nat;
  avgPointsPerGame : Q;
  topScoringTeams : list TeamAvg.t;
  closestGames : list Margin.t
}.
End Stats.

(* ================================================================== *)
(** ** Host environment, snapshot, blocks and effects *)

(** The [Date] built-ins under the locale and time zone of the process,
    what the engine does where ECMAScript leaves it open, and the two
    values the controller reads from [process.env]. *)
Class Host := {
  (* [new Date(s)]: its time value, [None] for an Invalid Date *)
  Date_parse : string -> option Z;
  toISOString : Z -> string;
  toLocaleTimeString_en_US : Z -> string;   (* hour, 2-digit minute, short zone *)
  toLocaleString_en_US_medium : Z -> string;
  toLocaleString_default : Z -> string;
  (* [arr.sort(compare)] for a comparator that is not consistent: the
     elements stay the same, their order is the engine's choice *)
  engine_sort : (game -> game -> option Z) -> list game -> list game;
  engine_sort_permutes :
    forall (compare : game -> game -> option Z) (l : list game),
      Permutation l (engine_sort compare l);
  CANVAS_ID : string;
  NOTIFICATION_THRESHOLD : Z
}.

(** The object handed to [updateCanvasContent]; a field the caller does not
    set is [None]. *)
Module Data.
Record t := mk {
  games : list game;
  currentGames : option (list game);
  completedGames : option (list game);
  upcomingGames : option (list game);
  closeGames : option (list game);
  upsets : option (list game);
  stats : option Stats.t;
  lastUpdated : option string
}.
End Data.

(** The module-level variable [tournamentData] of the controller: its
    initial literal, or the object a refresh cycle assigned. *)
Inductive store :=
| InitialData
| CycleData (d : Data.t).

Inductive block :=
| HeaderBlock (text : string)
| DividerBlock
| SectionBlock (mrkdwn : string)
| ContextBlock (elements : list string).

Inductive outcome (A : Type) :=
| Resolved (a : A)
| Rejected (message : string).
Arguments Resolved {A} a.
Arguments Rejected {A} message.

(** [response.data] of a resolved provider call: the parsed JSON body, or
    the text of a body that does not parse (axios hands it over as a
    string).  An array is taken to hold game records; the program checks
    nothing. *)
Inductive response_data :=
| JsonArray (games : list game)
| JsonNull
| JsonOther (body : string).   (* a string, a number, a boolean, an object *)

(** Programs over the effects of the controller and the services.  The
    three constructors that take an [outcome] are the [await] points.
    [ConsoleError] prints a line of text; [ConsoleErrorObject] is
    [console.error(label, error)] with the error object itself, printed
    with its name and stack trace. *)
Inductive prog (A : Type) : Type :=
| Ret (a : A)
| Throw (message : string)
| NewDate (k : Z -> prog A)
| AxiosGet (k : outcome response_data -> prog A)
| CanvasUpdate (canvas_id : string) (blocks : list block)
               (k : outcome unit -> prog A)
| Say (text : string) (k : outcome unit -> prog A)
| ConsoleLog (line : string) (k : prog A)
| ConsoleError (line : string) (k : prog A)
| ConsoleErrorObject (label : string) (error : string) (k : prog A)
| GetData (k : store -> prog A)
| SetData (s : store) (k : prog A).
Arguments Ret {A} a.
Arguments Throw {A} message.
Arguments NewDate {A} k.
Arguments AxiosGet {A} k.
Arguments CanvasUpdate {A} canvas_id blocks k.
Arguments Say {A} text k.
Arguments ConsoleLog {A} line k.
Arguments ConsoleError {A} line k.
Arguments ConsoleErrorObject {A} label error k.
Arguments GetData {A} k.
Arguments SetData {A} s k.

Fixpoint bind {A B} (p : prog A) (f : A -> prog B) : prog B :=
  match p with
  | Ret a => f a
  | Throw e => Throw e
  | NewDate k => NewDate (fun t => bind (k t) f)
  | AxiosGet k => AxiosGet (fun r => bind (k r) f)
  | CanvasUpdate c b k => CanvasUpdate c b (fun r => bind (k r) f)
  | Say t k => Say t (fun r => bind (k r) f)
  | ConsoleLog l k => ConsoleLog l (bind k f)
  | ConsoleError l k => ConsoleError l (bind k f)
  | ConsoleErrorObject l e k => ConsoleErrorObject l e (bind k f)
  | GetData k => GetData (fun s => bind (k s) f)
  | SetData s k => SetData s (bind k f)
  end.

(** [try { p } catch (error) { h(error.message) }] *)
Fixpoint try_catch {A} (p : prog A) (h : string -> prog A) : prog A :=
  match p with
  | Ret a => Ret a
  | Throw e => h e
  | NewDate k => NewDate (fun t => try_catch (k t) h)
  | AxiosGet k => AxiosGet (fun r => try_catch (k r) h)
  | CanvasUpdate c b k => CanvasUpdate c b (fun r => try_catch (k r) h)
  | Say t k => Say t (fun r => try_catch (k r) h)
  | ConsoleLog l k => ConsoleLog l (try_catch k h)
  | ConsoleError l k => ConsoleError l (try_catch k h)
  | ConsoleErrorObject l e k => ConsoleErrorObject l e (try_catch k h)
  | GetData k => GetData (fun s => try_catch (k s) h)
  | SetData s k => SetData s (try_catch k h)
  end.

(** [await]: a rejected promise throws. *)
Definition await {A} (r : outcome A) : prog A :=
  match r with
  | Resolved a => Ret a
  | Rejected e => Throw e
  end.

Declare Scope prog_scope.
Delimit Scope prog_scope with prog.
Notation "x <- p ;; q" := (bind p (fun x => q))
  (at level 61, p at next level, right associativity) : prog_scope.
Notation "p ;; q" := (bind p (fun _ => q))
  (at level 61, right associativity) : prog_scope.

Definition new_Date : prog Z := NewDate Ret.
Definition axios_get : prog response_data := AxiosGet await.
Definition canvas_update (canvas_id : string) (blocks : list block) : prog unit :=
  CanvasUpdate canvas_id blocks await.
Definition say (text : string) : prog unit := Say text await.
Definition console_log (line : string) : prog unit := ConsoleLog line (Ret tt).
Definition console_error (line : string) : prog unit := ConsoleError line (Ret tt).
Definition console_error_object (label error : string) : prog unit :=
  ConsoleErrorObject label error (Ret tt).
Definition get_tournamentData : prog store := GetData Ret.
Definition set_tournamentData (s : store) : prog unit := SetData s (Ret tt).

(* ================================================================== *)
(** ** services/sportService.js *)

Module sportService.

Definition completedGames (games : list game) : list game :=
  filter (status_is "Final") games.
Definition inProgressGames (games : list game) : list game :=
  filter (status_is "InProgress") games.
Definition upcomingGames (games : list game) : list game :=
  filter (status_is "Scheduled") games.

Definition upsets (games : list game) : list game :=
  filter upset_test (completedGames games).

Definition totalPoints (games : list game) : Z :=
  fold_left (fun sum game => sum + AwayTeamScore game + HomeTeamScore game)
            (completedGames games) 0.

(** [Math.round((points / count) * 10) / 10] *)
Definition round1 (points count : Z) : Q :=
  (inject_Z (JS.Math_round ((inject_Z points / inject_Z count) * 10)) / 10)%Q.

Definition avgPointsPerGame (games : list game) : Q :=
  match List.length (completedGames games) with
  | O => 0%Q
  | S _ => round1 (totalPoints games) (Z.of_nat (List.length (completedGames games)))
  end.

(** One turn of the [forEach] that fills [teamScores]. *)
Definition init_if_missing (k : string) (o : JSObject.t Tally.t) : JSObject.t Tally.t :=
  match JSObject.get_own k o with
  | Some _ => o
  | None => if JSObject.inherited k then o
            else JSObject.define k (Tally.mk 0 0) o
  end.

Definition credit (k : string) (score : Z) (o : JSObject.t Tally.t) : JSObject.t Tally.t :=
  JSObject.update k
    (fun d => Tally.mk (Tally.points d + score) (Tally.games d + 1)) o.

Definition tally_game (o : JSObject.t Tally.t) (g : game) : JSObject.t Tally.t :=
  let o := init_if_missing (AwayTeam g) o in
  let o := init_if_missing (HomeTeam g) o in
  let o := credit (AwayTeam g) (AwayTeamScore g) o in
  credit (HomeTeam g) (HomeTeamScore g) o.

Definition teamScores (games : list game) : JSObject.t Tally.t :=
  fold_left tally_game (completedGames games) [].

Definition team_entry (kv : string * Tally.t) : TeamAvg.t :=
  let (team, data) := kv in
  TeamAvg.mk team
    (if Tally.games data =? 0 then 0%Q
     else round1 (Tally.points data) (Tally.games data))
    (Tally.points data)
    (Tally.games data).

(** [(a, b) => b.avgPoints - a.avgPoints] is positive when [a] has the
    smaller average. *)
Definition avg_after (a b : TeamAvg.t) : bool :=
  negb (Qle_bool (TeamAvg.avgPoints b) (TeamAvg.avgPoints a)).

Definition teamsWithAvg (games : list game) : list TeamAvg.t :=
  JS.sort avg_after
    (filter (fun team => TeamAvg.games team >? 0)
       (map team_entry (JSObject.entries (teamScores games)))).

Definition topScoringTeams (games : list game) : list TeamAvg.t :=
  JS.slice0 5 (teamsWithAvg games).

Definition margin_entry (g : game) : Margin.t :=
  Margin.mk (AwayTeam g) (HomeTeam g) (AwayTeamScore g) (HomeTeamScore g)
    (JS.Math_abs (AwayTeamScore g - HomeTeamScore g))
    (if AwayTeamScore g >? HomeTeamScore g then AwayTeam g else HomeTeam g)
    (if AwayTeamScore g >? HomeTeamScore g then HomeTeam g else AwayTeam g).

Definition marginOfVictory (games : list game) : list Margin.t :=
  map margin_entry (completedGames games).

(** [(a, b) => a.margin - b.margin] *)
Definition margin_after (a b : Margin.t) : bool :=
  Margin.margin a - Margin.margin b >? 0.

Definition closestGames (games : list game) : list Margin.t :=
  JS.slice0 5 (JS.sort margin_after (marginOfVictory games)).

Definition calculateTournamentStats (games : list game) : Stats.t :=
  Stats.mk
    (List.length games)
    (List.length (completedGames games))
    (List.length (inProgressGames games))
    (List.length (upcomingGames games))
    (List.length (upsets games))
    (avgPointsPerGame games)
    (topScoringTeams games)
    (closestGames games).

Definition getMockTournamentData : list game :=
  [ mkGame 1001 "Final" "2025-03-19T19:15:00" "Virginia" "Colorado"
      9 8 57 63 (Some 0) (Some 0) (Some "2H") 1;
    mkGame 1002 "Final" "2025-03-19T12:15:00" "Duquesne" "BYU"
      11 6 71 69 (Some 0) (Some 0) (Some "2H") 1;
    mkGame 1003 "InProgress" "2025-03-20T14:30:00" "NC State" "Texas Tech"
      10 7 45 42 (Some 12) (Some 34) (Some "2H") 1;
    mkGame 1004 "Scheduled" "2025-03-20T19:20:00" "Marquette" "Western Kentucky"
      2 15 0 0 None None None 1;
    mkGame 1005 "Scheduled" "2025-03-20T21:30:00" "Kentucky" "Oakland"
      3 14 0 0 None None None 1 ].

(** [fetchNcaaGames]: the provider call inside [try]; [response.data] is
    returned as it is; when the call is rejected the error is logged and
    the mock data returned. *)
Definition fetchNcaaGames : prog response_data :=
  try_catch
    (response_data <- axios_get ;; Ret response_data)%prog
    (fun message =>
       (console_error ("Error fetching NCAA games: " ++ message) ;;
        Ret (JsonArray getMockTournamentData))%prog).

End sportService.

(* ================================================================== *)
(** ** The game line and the text helpers shared by both canvas services *)

Definition nl : string := String (ascii_of_nat 10) "".

Definition show_Z (z : Z) : string := JS.Number_toString z.
Definition show_nat (n : nat) : string := JS.Number_toString (Z.of_nat n).

(** [`${x}`] for a field that may be [null]. *)
Definition show_opt_Z (x : option Z) : string :=
  match x with Some z => show_Z z | None => "null" end.
Definition show_opt_string (x : option string) : string :=
  match x with Some s => s | None => "null" end.

(** [arr.forEach((x, index) => text += f(index, x))] *)
Fixpoint forEach_indexed {A} (f : nat -> A -> string) (index : nat) (l : list A) : string :=
  match l with
  | [] => ""
  | x :: l' => f index x ++ forEach_indexed f (S index) l'
  end.

Record glyphs := mkGlyphs {
  g_final : string;
  g_inprogress : string;
  g_scheduled : string;
  g_unknown : string;
  g_upset : string;
  g_corner : string;
  g_title : string
}.

Section GameLine.
Context `{Host} (G : glyphs).

Definition statusEmoji (game : game) : string :=
  if status_is "Final" game then g_final G
  else if status_is "InProgress" game then g_inprogress G
  else if status_is "Scheduled" game then g_scheduled G
  else g_unknown G.

Definition statusText (game : game) : string :=
  if status_is "Final" game then "FINAL"
  else if status_is "InProgress" game then
    show_opt_string (Period game) ++ " "
      ++ show_opt_Z (TimeRemainingMinutes game) ++ ":"
      ++ JS.padStart2 (show_opt_Z (TimeRemainingSeconds game))
  else if status_is "Scheduled" game then
    JS.Date_print toLocaleTimeString_en_US (Date_parse (DateTime game))
  else Status game.

Definition isUpset (game : game) : bool :=
  status_is "Final" game && upset_test game.

Definition formatGameLine (game : game) (isDetailed : bool) : string :=
  let gameText := statusEmoji game ++ " " in
  let gameText := gameText ++ "(" ++ show_Z (AwayTeamSeed game) ++ ") *"
                    ++ AwayTeam game ++ "* " in
  let gameText :=
    if negb (status_is "Scheduled" game)
    then gameText ++ show_Z (AwayTeamScore game) ++ " - "
           ++ show_Z (HomeTeamScore game) ++ " "
    else gameText ++ "vs " in
  let gameText := gameText ++ "*" ++ HomeTeam game ++ "* ("
                    ++ show_Z (HomeTeamSeed game) ++ ")" in
  let gameText := if isUpset game then gameText ++ g_upset G else gameText in
  let gameText := gameText ++ nl ++ g_corner G ++ " _" ++ statusText game in
  gameText ++ " | Round " ++ show_Z (Round game) ++ "_".

(** [new Date(b.DateTime) - new Date(a.DateTime)]: most recent first *)
Definition later_first (a b : game) : option Z :=
  JS.Date_minus (Date_parse (DateTime b)) (Date_parse (DateTime a)).

(** [new Date(a.DateTime) - new Date(b.DateTime)]: soonest first *)
Definition sooner_first (a b : game) : option Z :=
  JS.Date_minus (Date_parse (DateTime a)) (Date_parse (DateTime b)).

(** [new Date(game.DateTime)] is a valid Date. *)
Definition dated (game : game) : bool :=
  match Date_parse (DateTime game) with
  | Some _ => true
  | None => false
  end.

(** [arr.sort(compare)] with one of the two comparators above.  When every
    date is valid the comparator is consistent and the array is sorted
    stably; a [NaN] among the differences makes the comparator
    inconsistent, and the order is the engine's. *)
Definition Array_sort_by_date (compare : game -> game -> option Z)
  (arr : list game) : list game :=
  if forallb dated arr
  then JS.sort (fun a b => JS.positive (compare a b)) arr
  else engine_sort compare arr.

(** The fifteen blocks of the page, given the five texts. *)
Definition page (current completed upcoming statistics footer : string)
  : list block :=
  [ HeaderBlock (g_title G);
    DividerBlock;
    HeaderBlock "Games In Progress";
    SectionBlock current;
    DividerBlock;
    HeaderBlock "Recently Completed Games";
    SectionBlock completed;
    DividerBlock;
    HeaderBlock "Upcoming Games";
    SectionBlock upcoming;
    DividerBlock;
    HeaderBlock "Tournament Statistics";
    SectionBlock statistics;
    DividerBlock;
    ContextBlock [footer] ].
End GameLine.

(** [arr.splice(start, 0, ...items)] *)
Definition splice_in {A} (start : nat) (items : list A) (l : list A) : list A :=
  (firstn start l ++ items ++ skipn start l)%list.

(** [x && x.length > 0] for an optional array *)
Definition non_empty {A} (x : option (list A)) : bool :=
  match x with
  | Some (_ :: _) => true
  | _ => false
  end.

(** [x ? f(x) : d] for an optional array (an array is always truthy) *)
Definition or_else {A B} (x : option A) (f : A -> B) (d : B) : B :=
  match x with Some a => f a | None => d end.

(** Truthiness of an optional string: [null], [undefined] and the empty
    string are falsy. *)
Definition truthy_string (x : option string) : option string :=
  match x with
  | Some EmptyString => None
  | other => other
  end.

(* ================================================================== *)
(** ** services/canvasService.js *)

Module canvasService.

Definition glyph : glyphs :=
  mkGlyphs "🏁" "🏀" "📅" "❓" " 🚨 UPSET! 🚨" "└"
           "🏀 NCAA Tournament Tracker 2025 🏀".

Section Service.
Context `{Host}.

Definition formatGameForDisplay (game : game) (isDetailed : bool) : string :=
  formatGameLine glyph game isDetailed.

Definition formatStatisticsForDisplay (stats : Stats.t) : string :=
  let statsText :=
    "*Tournament Progress*: " ++ show_nat (Stats.completedGames stats)
      ++ " completed, " ++ show_nat (Stats.inProgressGames stats)
      ++ " in progress, " ++ show_nat (Stats.upcomingGames stats)
      ++ " upcoming" ++ nl in
  let statsText :=
    if (0 <? Stats.upsets stats)%nat
    then statsText ++ "*Upsets*: " ++ show_nat (Stats.upsets stats)
           ++ " so far" ++ nl
    else statsText in
  let statsText :=
    statsText ++ "*Average Points*: "
      ++ JS.Number_toString_1dp (Stats.avgPointsPerGame stats)
      ++ " points per game" ++ nl ++ nl in
  let statsText :=
    match Stats.topScoringTeams stats with
    | [] => statsText
    | teams =>
        statsText ++ "*Top Scoring Teams (Avg)*:" ++ nl
          ++ forEach_indexed
               (fun index team =>
                  show_nat (index + 1) ++ ". " ++ TeamAvg.team team ++ ": "
                    ++ JS.Number_toString_1dp (TeamAvg.avgPoints team)
                    ++ " ppg" ++ nl) 0 teams
          ++ nl
    end in
  match Stats.closestGames stats with
  | [] => statsText
  | closest =>
      statsText ++ "*Closest Games*:" ++ nl
        ++ forEach_indexed
             (fun index game =>
                show_nat (index + 1) ++ ". " ++ Margin.winner game
                  ++ " def. " ++ Margin.loser game ++ " by "
                  ++ show_Z (Margin.margin game) ++ " ("
                  ++ show_Z (Margin.awayScore game) ++ "-"
                  ++ show_Z (Margin.homeScore game) ++ ")" ++ nl) 0 closest
  end.

Definition game_lines (l : list game) : string :=
  JS.join (nl ++ nl) (map (fun game => formatGameForDisplay game false) l).

Definition close_alert (close : list game) : list block :=
  [ SectionBlock ("🔥 *CLOSE GAME ALERT* 🔥" ++ nl ++ game_lines close);
    DividerBlock ].

(** The blocks [updateCanvasContent] hands to [web.canvas.update]. *)
Definition updatedBlocks (data : Data.t) : list block :=
  let currentGamesText :=
    if non_empty (Data.currentGames data)
    then or_else (Data.currentGames data) game_lines ""
    else "No games currently in progress." in
  let recentCompletedGames :=
    or_else (Data.completedGames data)
      (fun l => JS.slice0 5 (Array_sort_by_date later_first l)) [] in
  let completedGamesText :=
    match recentCompletedGames with
    | [] => "No completed games yet."
    | l => game_lines l
    end in
  let upcomingGames :=
    or_else (Data.upcomingGames data)
      (fun l => JS.slice0 5 (Array_sort_by_date sooner_first l)) [] in
  let upcomingGamesText :=
    match upcomingGames with
    | [] => "No upcoming games scheduled."
    | l => game_lines l
    end in
  let statsText :=
    or_else (Data.stats data) formatStatisticsForDisplay
      "Statistics not available yet." in
  let lastUpdated :=
    or_else (truthy_string (Data.lastUpdated data))
      (fun s => JS.Date_print toLocaleString_en_US_medium (Date_parse s))
      "Unknown" in
  let updatedBlocks :=
    page glyph currentGamesText completedGamesText upcomingGamesText
      statsText ("Last updated: " ++ lastUpdated) in
  if non_empty (Data.closeGames data)
  then splice_in 2 (or_else (Data.closeGames data) close_alert []) updatedBlocks
  else updatedBlocks.

Definition updateCanvasContent (canvasId : string) (data : Data.t) : prog unit :=
  try_catch
    (canvas_update canvasId (updatedBlocks data))
    (fun message =>
       (console_error ("Error updating Canvas content: " ++ message) ;;
        Throw message)%prog).
End Service.

End canvasService.

(* ================================================================== *)
(** ** The second copy of the canvas service (file name unknown) *)

Module canvasService2.

Definition glyph : glyphs :=
  mkGlyphs "üèÅ" "üèÄ" "üìÖ" "‚ùì" " üö® UPSET! üö®" "‚îî"
           "üèÄ NCAA Tournament Tracker 2025 üèÄ".

Section Service.
Context `{Host}.

Definition formatGameForDisplay (game : game) (isDetailed : bool) : string :=
  formatGameLine glyph game isDetailed.

Definition formatStatisticsForDisplay (stats : Stats.t) : string :=
  let statsText :=
    "*Tournament Progress*: " ++ show_nat (Stats.completedGames stats)
      ++ " completed, " ++ show_nat (Stats.inProgressGames stats)
      ++ " in progress, " ++ show_nat (Stats.upcomingGames stats)
      ++ " upcoming" ++ nl in
  let statsText :=
    if (0 <? Stats.upsets stats)%nat
    then statsText ++ "*Upsets*: " ++ show_nat (Stats.upsets stats)
           ++ " so far" ++ nl
    else statsText in
  let statsText :=
    statsText ++ "*Average Points Per Game*: "
      ++ JS.Number_toString_1dp (Stats.avgPointsPerGame stats) ++ nl ++ nl in
  let statsText :=
    match Stats.topScoringTeams stats with
    | [] => statsText
    | teams =>
        statsText ++ "*Top Scoring Teams*:" ++ nl
          ++ forEach_indexed
               (fun index team =>
                  show_nat (index + 1) ++ ". " ++ TeamAvg.team team ++ " - "
                    ++ JS.Number_toString_1dp (TeamAvg.avgPoints team)
                    ++ " ppg" ++ nl) 0 teams
          ++ nl
    end in
  match Stats.closestGames stats with
  | [] => statsText
  | closest =>
      statsText ++ "*Closest Games*:" ++ nl
        ++ forEach_indexed
             (fun index game =>
                show_nat (index + 1) ++ ". " ++ Margin.winner game
                  ++ " def. " ++ Margin.loser game ++ " by "
                  ++ show_Z (Margin.margin game) ++ " ("
                  ++ show_Z (Margin.awayScore game) ++ "-"
                  ++ show_Z (Margin.homeScore game) ++ ")" ++ nl) 0 closest
  end.

Definition gamesInProgressContent (data : Data.t) : string :=
  match Data.currentGames data with
  | Some ((_ :: _) as currentGames) =>
      match Data.closeGames data with
      | Some ((_ :: _) as closeGames) =>
          let closeGameIds := map GameID closeGames in
          JS.join (nl ++ nl)
            (map (fun game =>
                    let isClose := existsb (Z.eqb (GameID game)) closeGameIds in
                    formatGameForDisplay game true
                      ++ (if isClose then " üî• CLOSE GAME!" else ""))
                 currentGames)
      | _ =>
          JS.join (nl ++ nl)
            (map (fun game => formatGameForDisplay game true) currentGames)
      end
  | _ => "No games in progress."
  end.

Definition completedGamesContent (data : Data.t) : string :=
  match Data.completedGames data with
  | Some ((_ :: _) as completedGames) =>
      JS.join (nl ++ nl)
        (map (fun game => formatGameForDisplay game false)
             (JS.slice0 10 (Array_sort_by_date later_first completedGames)))
  | _ => "No completed games."
  end.

Definition upcomingGamesContent (data : Data.t) : string :=
  match Data.upcomingGames data with
  | Some ((_ :: _) as upcomingGames) =>
      JS.join (nl ++ nl)
        (map (fun game => formatGameForDisplay game false)
             (JS.slice0 10 (Array_sort_by_date sooner_first upcomingGames)))
  | _ => "No upcoming games."
  end.

Definition statisticsContent (data : Data.t) : string :=
  or_else (Data.stats data) formatStatisticsForDisplay
    "Statistics not available.".

(** The blocks, given the reading of the clock taken on entry. *)
Definition blocks (now : Z) (data : Data.t) : list block :=
  let lastUpdatedText := "Last updated: " ++ toLocaleString_default now in
  page glyph (gamesInProgressContent data) (completedGamesContent data)
    (upcomingGamesContent data) (statisticsContent data) lastUpdatedText.

Definition updateCanvasContent (canvasId : string) (data : Data.t) : prog unit :=
  try_catch
    (now <- new_Date ;;
     canvas_update canvasId (blocks now data))%prog
    (fun message =>
       (console_error ("Error updating Canvas content: " ++ message) ;;
        Throw message)%prog).
End Service.

End canvasService2.

(* ================================================================== *)
(** ** The controller (index.js) *)

Module controller.

(** [s.toLowerCase()], on the ASCII letters *)
Definition lower_ascii (c : ascii) : ascii :=
  let n := nat_of_ascii c in
  if ((65 <=? n) && (n <=? 90))%nat then ascii_of_nat (n + 32) else c.

Fixpoint toLowerCase (s : string) : string :=
  match s with
  | EmptyString => EmptyString
  | String c s' => String (lower_ascii c) (toLowerCase s')
  end.

(** [s.includes(sub)] *)
Fixpoint includes (s sub : string) : bool :=
  if String.prefix sub s then true
  else match s with
       | EmptyString => false
       | String _ s' => includes s' sub
       end.

(** A message event; events of some subtypes carry no [text]. *)
Record message := mkMessage {
  channel_type : string;
  text : option string
}.

(** [TypeError]s of V8: a method call on a value that has no such method,
    a property read on [null] or [undefined]. *)
Definition filter_is_not_a_function : string :=
  "gameData.filter is not a function".
Definition cannot_read_filter_of_null : string :=
  "Cannot read properties of null (reading 'filter')".
Definition cannot_read_toLowerCase : string :=
  "Cannot read properties of undefined (reading 'toLowerCase')".

(** [gameData.filter(...)], the first use of the fetched value: only an
    array has the method. *)
Definition filter_receiver (gameData : response_data) : prog (list game) :=
  match gameData with
  | JsonArray games => Ret games
  | JsonNull => Throw cannot_read_filter_of_null
  | JsonOther _ => Throw filter_is_not_a_function
  end.

(** [tournamentData.currentGames || []] and its two siblings; the initial
    literal has [upsets: []] and neither of the other two fields. *)
Definition read_currentGames (s : store) : list game :=
  match s with
  | InitialData => []
  | CycleData d => or_else (Data.currentGames d) (fun l => l) []
  end.

Definition read_closeGames (s : store) : list game :=
  match s with
  | InitialData => []
  | CycleData d => or_else (Data.closeGames d) (fun l => l) []
  end.

Definition read_upsets (s : store) : list game :=
  match s with
  | InitialData => []
  | CycleData d => or_else (Data.upsets d) (fun l => l) []
  end.

Section Controller.
Context `{Host}.

Definition close_test (game : game) : bool :=
  JS.Math_abs (AwayTeamScore game - HomeTeamScore game) <=? NOTIFICATION_THRESHOLD.

(** The object literal assigned to [tournamentData] in a cycle. *)
Definition build_tournamentData (gameData : list game) (now : Z) : Data.t :=
  let currentGames := filter (status_is "InProgress") gameData in
  let completedGames := filter (status_is "Final") gameData in
  let upcomingGames := filter (status_is "Scheduled") gameData in
  let closeGames := filter close_test currentGames in
  let upsets := filter upset_test completedGames in
  let stats := sportService.calculateTournamentStats gameData in
  Data.mk gameData (Some currentGames) (Some completedGames)
    (Some upcomingGames) (Some closeGames) (Some upsets) (Some stats)
    (Some (toISOString now)).

Definition updated_line (d : Data.t) : string :=
  "Tournament data updated successfully. "
    ++ show_nat (List.length (or_else (Data.currentGames d) (fun l => l) []))
    ++ " in progress, "
    ++ show_nat (List.length (or_else (Data.completedGames d) (fun l => l) []))
    ++ " completed, "
    ++ show_nat (List.length (or_else (Data.upcomingGames d) (fun l => l) []))
    ++ " upcoming.".

Definition updateTournamentData : prog unit :=
  try_catch
    (console_log "Fetching NCAA tournament data..." ;;
     gameData <- sportService.fetchNcaaGames ;;
     gameData <- filter_receiver gameData ;;
     now <- new_Date ;;
     let tournamentData := build_tournamentData gameData now in
     set_tournamentData (CycleData tournamentData) ;;
     canvasService.updateCanvasContent CANVAS_ID tournamentData ;;
     console_log (updated_line tournamentData))%prog
    (fun message =>
       console_error ("Failed to update tournament data: " ++ message)).

Definition help_text : string :=
  "Hi there! I'm tracking the NCAA tournament. Here's what you can ask me:".

(** The handler registered with [app.message].  [message.text.toLowerCase()]
    stands before the [try]: without a text the handler throws. *)
Definition on_message (message : message) : prog unit :=
  if negb (String.eqb (channel_type message) "im") then Ret tt
  else
    match text message with
    | None => Throw cannot_read_toLowerCase
    | Some text =>
        let text := toLowerCase text in
        try_catch
          (if includes text "current" || includes text "in progress" then
             (s <- get_tournamentData ;;
              say ("There are " ++ show_nat (List.length (read_currentGames s))
                     ++ " games in progress right now."))%prog
           else if includes text "close" then
             (s <- get_tournamentData ;;
              say ("There are " ++ show_nat (List.length (read_closeGames s))
                     ++ " close games right now."))%prog
           else if includes text "upset" then
             (s <- get_tournamentData ;;
              say ("There have been " ++ show_nat (List.length (read_upsets s))
                     ++ " upsets in the tournament so far."))%prog
           else if includes text "refresh" || includes text "update" then
             (say "Fetching the latest tournament data..." ;;
              updateTournamentData ;;
              say "Tournament data has been refreshed! Check the Canvas for updates.")%prog
           else say help_text)
          (fun error =>
             (console_error_object "Error handling message:" error ;;
              say "Sorry, I encountered an error processing your request.")%prog)
    end.

(** The callback registered with [cron.schedule] by [scheduleUpdates]. *)
Definition scheduled_update : prog unit :=
  (console_log "Running scheduled update..." ;;
   updateTournamentData)%prog.

End Controller.
End controller.

(* ================================================================== *)
(** ** Running programs *)

Inductive effect :=
| Requested                                   (* the provider was called *)
| Published (canvas_id : string) (blocks : list block)
| Said (text : string)
| Logged (line : string)
| LoggedError (line : string)
| LoggedErrorObject (label : string) (error : string).

(** *** One program run to completion.  The world answers each [await]. *)
Record world := mkWorld {
  clock : Z;
  provider : outcome response_data;
  canvas : string -> list block -> outcome unit;
  slack : string -> outcome unit
}.

Fixpoint run {A} (w : world) (p : prog A) (s : store)
  : (A + string) * store * list effect :=
  match p with
  | Ret a => (inl a, s, [])
  | Throw e => (inr e, s, [])
  | NewDate k => run w (k (clock w)) s
  | AxiosGet k =>
      let '(r, s', t) := run w (k (provider w)) s in (r, s', Requested :: t)
  | CanvasUpdate c b k =>
      let '(r, s', t) := run w (k (canvas w c b)) s in (r, s', Published c b :: t)
  | Say x k =>
      let '(r, s', t) := run w (k (slack w x)) s in (r, s', Said x :: t)
  | ConsoleLog l k =>
      let '(r, s', t) := run w k s in (r, s', Logged l :: t)
  | ConsoleError l k =>
      let '(r, s', t) := run w k s in (r, s', LoggedError l :: t)
  | ConsoleErrorObject l e k =>
      let '(r, s', t) := run w k s in (r, s', LoggedErrorObject l e :: t)
  | GetData k => run w (k s) s
  | SetData s' k => run w k s'
  end.

Definition result_of {A} (x : (A + string) * store * list effect) : A + string :=
  fst (fst x).
Definition store_of {A} (x : (A + string) * store * list effect) : store :=
  snd (fst x).
Definition effects_of {A} (x : (A + string) * store * list effect) : list effect :=
  snd x.

Fixpoint published (t : list effect) : list (list block) :=
  match t with
  | [] => []
  | Published _ b :: t' => b :: published t'
  | _ :: t' => published t'
  end.

(** *** Several handlers in flight.  A handler runs without interruption
    up to its next [await]; there it stays in the pool until the awaited
    call is settled. *)
Inductive answer :=
| FromProvider (r : outcome response_data)
| FromSlack (r : outcome unit).

Record config := mkConfig {
  tournamentData : store;
  pool : list (prog unit);
  journal : list effect
}.

(** Run up to the next [await] (or to the end). *)
Fixpoint settle (now : Z) (p : prog unit) (s : store) (log : list effect)
  : prog unit * store * list effect :=
  match p with
  | NewDate k => settle now (k now) s log
  | ConsoleLog l k => settle now k s (log ++ [Logged l])%list
  | ConsoleError l k => settle now k s (log ++ [LoggedError l])%list
  | ConsoleErrorObject l e k =>
      settle now k s (log ++ [LoggedErrorObject l e])%list
  | GetData k => settle now (k s) s log
  | SetData s' k => settle now k s' log
  | AxiosGet _ => (p, s, (log ++ [Requested])%list)
  | CanvasUpdate c b _ => (p, s, (log ++ [Published c b])%list)
  | Say x _ => (p, s, (log ++ [Said x])%list)
  | Ret _ | Throw _ => (p, s, log)
  end.

Definition resume (p : prog unit) (a : answer) : option (prog unit) :=
  match p, a with
  | AxiosGet k, FromProvider r => Some (k r)
  | CanvasUpdate _ _ k, FromSlack r => Some (k r)
  | Say _ k, FromSlack r => Some (k r)
  | _, _ => None
  end.

Fixpoint replace_nth {A} (i : nat) (x : A) (l : list A) : list A :=
  match l, i with
  | [], _ => []
  | _ :: l', O => x :: l'
  | y :: l', S i' => y :: replace_nth i' x l'
  end.

Inductive event :=
| CronTick (now : Z)
| Incoming (now : Z) (m : controller.message)
| Settled (now : Z) (task : nat) (a : answer).

Section Scheduler.
Context `{Host}.

Definition spawn (now : Z) (p : prog unit) (c : config) : config :=
  let '(p', s', log') := settle now p (tournamentData c) (journal c) in
  mkConfig s' (pool c ++ [p'])%list log'.

Definition step (c : config) (e : event) : config :=
  match e with
  | CronTick now => spawn now controller.scheduled_update c
  | Incoming now m => spawn now (controller.on_message m) c
  | Settled now i a =>
      match nth_error (pool c) i with
      | Some p =>
          match resume p a with
          | Some p' =>
              let '(p'', s', log') := settle now p' (tournamentData c) (journal c) in
              mkConfig s' (replace_nth i p'' (pool c)) log'
          | None => c
          end
      | None => c
      end
  end.

Definition exec (c : config) (es : list event) : config := fold_left step es c.

Definition startup : config := mkConfig InitialData [] [].

Definition is_publishing (p : prog unit) : bool :=
  match p with
  | CanvasUpdate _ _ _ => true
  | _ => false
  end.

(** The number of publish calls issued and not yet settled. *)
Definition publishing (c : config) : nat :=
  List.length (filter is_publishing (pool c)).

End Scheduler.

(** A concrete host for closed examples: a time value is the digits of its
    timestamp read as one number (order-preserving on timestamps of one
    format), a text without digits is no date, every formatter prints the
    time value in decimal, and an array whose comparator is inconsistent
    is left as it is. *)
Fixpoint digits_of (s : string) (acc : Z) : Z :=
  match s with
  | EmptyString => acc
  | String c s' =>
      match JSObject.digit_value c with
      | Some d => digits_of s' (10 * acc + Z.of_N d)
      | None => digits_of s' acc
      end
  end.

Fixpoint has_digit (s : string) : bool :=
  match s with
  | EmptyString => false
  | String c s' =>
      match JSObject.digit_value c with
      | Some _ => true
      | None => has_digit s'
      end
  end.

Definition demo_host : Host := {|
  Date_parse := fun s => if has_digit s then Some (digits_of s 0) else None;
  toISOString := JS.Number_toString;
  toLocaleTimeString_en_US := JS.Number_toString;
  toLocaleString_en_US_medium := JS.Number_toString;
  toLocaleString_default := JS.Number_toString;
  engine_sort := fun _ l => l;
  engine_sort_permutes := fun _ l => Permutation_refl l;
  CANVAS_ID := "F0TRACKER";
  NOTIFICATION_THRESHOLD := 5
|}.

(* ================================================================== *)
(** ** Vocabulary of the properties *)

(** *** Statistics *)

(** The sum of both scores over a list of games. *)
Fixpoint sum_scores (l : list game) : Z :=
  match l with
  | [] => 0
  | g :: l' => AwayTeamScore g + HomeTeamScore g + sum_scores l'
  end.

(** The two participants of a game. *)
Inductive side := Away | Home.

Definition other (s : side) : side :=
  match s with Away => Home | Home => Away end.

Definition seed_of (s : side) (g : game) : Z :=
  match s with Away => AwayTeamSeed g | Home => HomeTeamSeed g end.

Definition score_of (s : side) (g : game) : Z :=
  match s with Away => AwayTeamScore g | Home => HomeTeamScore g end.

(** The team with the numerically larger seed has the strictly higher
    score. *)
Definition weaker_seed_won (g : game) : Prop :=
  exists s : side,
    seed_of s g > seed_of (other s) g /\ score_of s g > score_of (other s) g.

(** Ascending by margin; the entries of one margin. *)
Definition margin_le (a b : Margin.t) : Prop := Margin.margin a <= Margin.margin b.

Definition has_margin (m : Z) (e : Margin.t) : bool := Margin.margin e =? m.

(** What a scan of the completed games meets: away team, then home team,
    game after game, each with the points it scored. *)
Definition appearances (l : list game) : list (string * Z) :=
  flat_map (fun g => [(AwayTeam g, AwayTeamScore g);
                      (HomeTeam g, HomeTeamScore g)]) l.

(** Points scored by, and games played by, a team over a scan. *)
Fixpoint points_of (t : string) (apps : list (string * Z)) : Z :=
  match apps with
  | [] => 0
  | (k, s) :: r => (if String.eqb t k then s else 0) + points_of t r
  end.

Fixpoint games_of (t : string) (apps : list (string * Z)) : Z :=
  match apps with
  | [] => 0
  | (k, _) :: r => (if String.eqb t k then 1 else 0) + games_of t r
  end.

(** The distinct names of a list, in the order of their first occurrence. *)
Fixpoint first_seen (l : list string) : list string :=
  match l with
  | [] => []
  | x :: r => x :: filter (fun y => negb (String.eqb y x)) (first_seen r)
  end.

(** The aggregate of one team, as the specification words it. *)
Definition team_row (apps : list (string * Z)) (t : string) : TeamAvg.t :=
  TeamAvg.mk t (sportService.round1 (points_of t apps) (games_of t apps))
    (points_of t apps) (games_of t apps).

(** One row per team, in first-encounter order: the list the
    specification has sorted. *)
Definition per_team (finals : list game) : list TeamAvg.t :=
  map (team_row (appearances finals)) (first_seen (map fst (appearances finals))).

(** The order in which [Object.entries] lists keys created in the order
    [names]: array indices first, ascending, then the other names in
    creation order. *)
Definition key_order (names : list string) : list string :=
  (JS.sort (fun a b => (JSObject.index_of b <? JSObject.index_of a)%N)
           (filter JSObject.is_index names)
   ++ filter (fun t => negb (JSObject.is_index t)) names)%list.

(** The teams the tally records: the teams met in a completed game, but
    for names every object inherits, in first-encounter order. *)
Definition recorded (finals : list game) : list string :=
  filter (fun t => negb (JSObject.inherited t))
         (first_seen (map fst (appearances finals))).

(** The recorded teams in key order, and their rows: the list that is
    sorted by average. *)
Definition listed_teams (finals : list game) : list string :=
  key_order (recorded finals).

Definition listed_rows (finals : list game) : list TeamAvg.t :=
  map (team_row (appearances finals)) (listed_teams finals).

(** Team names that behave as plain keys of an object literal. *)
Definition ordinary_key (k : string) : bool :=
  negb (JSObject.is_index k) && negb (JSObject.inherited k).

Definition ordinary_teams (games : list game) : bool :=
  forallb (fun g => ordinary_key (AwayTeam g) && ordinary_key (HomeTeam g))
          (filter (status_is "Final") games).

(** One appearance handled on its own: create the slot if it is missing,
    then credit it. *)
Definition tally_app (o : JSObject.t Tally.t) (a : string * Z) : JSObject.t Tally.t :=
  sportService.credit (fst a) (snd a) (sportService.init_if_missing (fst a) o).

(** The slot of a team after the scan. *)
Definition tally_row (apps : list (string * Z)) (t : string) : string * Tally.t :=
  (t, Tally.mk (points_of t apps) (games_of t apps)).



(** *** Sample batches *)

Definition sample_game (status away home : string)
  (awaySeed homeSeed awayScore homeScore : Z) : game :=
  mkGame 1 status "2025-03-19T19:15:00" away home awaySeed homeSeed
    awayScore homeScore None None None 1.



(** A completed game without a winner, and a batch without such games. *)
Definition tied_final (g : game) : bool :=
  status_is "Final" g && (AwayTeamScore g =? HomeTeamScore g).

Definition without_ties (games : list game) : list game :=
  filter (fun g => negb (tied_final g)) games.

(** One completed game, 70 to 70. *)
Definition tied_batch : list game :=
  [ sample_game "Final" "A" "B" 1 16 70 70 ].

(** The games and the points one record gives a team. *)
Definition games_in (g : game) (t : string) : Z :=
  (if String.eqb t (AwayTeam g) then 1 else 0)
  + (if String.eqb t (HomeTeam g) then 1 else 0).

Definition points_in (g : game) (t : string) : Z :=
  (if String.eqb t (AwayTeam g) then AwayTeamScore g else 0)
  + (if String.eqb t (HomeTeam g) then HomeTeamScore g else 0).

(** Crediting one game with [s] points; the tally of a team not met yet. *)
Definition bump (s : Z) (d : Tally.t) : Tally.t :=
  Tally.mk (Tally.points d + s) (Tally.games d + 1).

Definition or_zero (d : option Tally.t) : Tally.t :=
  match d with Some d => d | None => Tally.mk 0 0 end.

(** *** Refresh cycles *)

(** The batch a cycle works on: the array the provider delivered, or the
    mock data when the call was rejected; none when the provider delivered
    something else. *)
Definition batch_of (r : outcome response_data) : option (list game) :=
  match r with
  | Resolved (JsonArray data) => Some data
  | Resolved _ => None
  | Rejected _ => Some sportService.getMockTournamentData
  end.

(** What a cycle logs about the fetch and about the publish call. *)
Definition fetch_log (r : outcome response_data) : list effect :=
  match r with
  | Resolved _ => []
  | Rejected message => [LoggedError ("Error fetching NCAA games: " ++ message)]
  end.

Definition publish_log (d : Data.t) (r : outcome unit) : list effect :=
  match r with
  | Resolved _ => [Logged (controller.updated_line d)]
  | Rejected message =>
      [ LoggedError ("Error updating Canvas content: " ++ message);
        LoggedError ("Failed to update tournament data: " ++ message) ]
  end.

(** The value [fetchNcaaGames] returns. *)
Definition fetched (r : outcome response_data) : response_data :=
  match r with
  | Resolved data => data
  | Rejected _ => JsonArray sportService.getMockTournamentData
  end.

(** The [TypeError] of a cycle at its first [filter], and the trace of such
    a cycle. *)
Definition filter_error (data : response_data) : string :=
  match data with
  | JsonNull => controller.cannot_read_filter_of_null
  | _ => controller.filter_is_not_a_function
  end.

Definition aborted_cycle (data : response_data) : list effect :=
  [ Logged "Fetching NCAA tournament data..."; Requested;
    LoggedError ("Failed to update tournament data: " ++ filter_error data) ].

(** Sample worlds: the provider is down; the provider answers with a page
    of text; the document store rejects every update; all is well at a
    given clock reading. *)
Definition unparsed_body_world : world :=
  mkWorld 20250320150000 (Resolved (JsonOther "<html>Bad Gateway</html>"))
    (fun _ _ => Resolved tt) (fun _ => Resolved tt).

Definition failing_provider_world : world :=
  mkWorld 20250320150000 (Rejected "Network Error")
    (fun _ _ => Resolved tt) (fun _ => Resolved tt).

Definition failing_canvas_world : world :=
  mkWorld 20250320150000 (Resolved (JsonArray sportService.getMockTournamentData))
    (fun _ _ => Rejected "canvas_not_found") (fun _ => Resolved tt).

(** A direct message asking for the upset count. *)
Definition upsets_query : controller.message :=
  controller.mkMessage "im" (Some "Any upsets?").

(** The texts of the header blocks, in order. *)
Fixpoint headings (blocks : list block) : list string :=
  match blocks with
  | [] => []
  | HeaderBlock text :: rest => text :: headings rest
  | _ :: rest => headings rest
  end.

Definition world_at (now : Z) : world :=
  mkWorld now (Resolved (JsonArray sportService.getMockTournamentData))
    (fun _ _ => Resolved tt) (fun _ => Resolved tt).

(** The snapshot a cycle builds from the mock data. *)
Definition mock_snapshot : Data.t :=
  @controller.build_tournamentData demo_host
    sportService.getMockTournamentData 20250320150000.

(** The message reaches the refresh branch of the handler. *)
Definition asks_refresh (m : controller.message) : bool :=
  match controller.text m with
  | None => false
  | Some text =>
      let text := controller.toLowerCase text in
      String.eqb (controller.channel_type m) "im"
      && negb (controller.includes text "current"
               || controller.includes text "in progress")
      && negb (controller.includes text "close")
      && negb (controller.includes text "upset")
      && (controller.includes text "refresh" || controller.includes text "update")
  end.

(** [n] rounds, each a scheduled trigger followed by the provider's
    failure for the cycle that trigger started; no publish call is ever
    settled. *)
Fixpoint overlapping (first n : nat) : list event :=
  match n with
  | O => []
  | S n' =>
      CronTick 0 :: Settled 0 first (FromProvider (Rejected "unavailable"))
        :: overlapping (S first) n'
  end.

(** A direct message without a text. *)
Definition textless_message : controller.message :=
  controller.mkMessage "im" None.

(** A direct message asking for a refresh. *)
Definition refresh_request : controller.message :=
  controller.mkMessage "im" (Some "Refresh please").

(** A scheduled trigger and an on-demand refresh in one window: both
    cycles reach their publish call before either call is settled. *)
Definition two_triggers : list event :=
  [ CronTick 0;
    Incoming 1 refresh_request;
    Settled 2 1 (FromSlack (Resolved tt));
    Settled 3 0 (FromProvider
                   (Resolved (JsonArray sportService.getMockTournamentData)));
    Settled 4 1 (FromProvider
                   (Resolved (JsonArray sportService.getMockTournamentData))) ].

Section Vocabulary.
Context `{Host}.

(** What is left of a cycle once the provider has answered: given a
    batch, it assigns the snapshot built from the batch and stops at its
    publish call. *)
Definition reaches_publish (k : outcome response_data -> prog unit) : Prop :=
  forall (t : Z) (r : outcome response_data) (games : list game) (s : store)
         (log : list effect),
  batch_of r = Some games ->
  exists (k' : outcome unit -> prog unit) (log' : list effect),
    settle t (k r) s log
    = (CanvasUpdate CANVAS_ID
         (canvasService.updatedBlocks
            (controller.build_tournamentData games t)) k',
       CycleData (controller.build_tournamentData games t), log').

(** Given no batch, what is left of a cycle assigns nothing and stops
    without a publish call. *)
Definition skips_publish (k : outcome response_data -> prog unit) : Prop :=
  forall (t : Z) (r : outcome response_data) (s : store) (log : list effect),
  batch_of r = None ->
  exists (p : prog unit) (log' : list effect),
    settle t (k r) s log = (p, s, log') /\ is_publishing p = false.

(** What a cycle leaves behind once the provider has answered: with a
    batch, one more pending publish call and its snapshot; without, no
    publish call and the data as it was. *)
Definition cycle_outcome (r : outcome response_data) (t : Z)
  (before : nat) (s : store) (after : nat) (s' : store) : Prop :=
  match batch_of r with
  | Some games =>
      after = S before
      /\ s' = CycleData (controller.build_tournamentData games t)
  | None => after = before /\ s' = s
  end.

(** The data a cycle leaves behind: its snapshot, or the data as it was
    when the cycle had no batch. *)
Definition after_cycle (w : world) (s : store) : store :=
  match batch_of (provider w) with
  | Some games => CycleData (controller.build_tournamentData games (clock w))
  | None => s
  end.

End Vocabulary.

(* ================================================================== *)
(** ** Vocabulary of the further properties *)

(** A status outside the three the program knows. *)
Definition other_status (g : game) : bool :=
  negb (status_is "Final" g || status_is "InProgress" g || status_is "Scheduled" g).

(** Points and games summed over team rows. *)
Definition sum_totalPoints (rows : list TeamAvg.t) : Z :=
  fold_right (fun r acc => TeamAvg.totalPoints r + acc) 0 rows.

Definition sum_games (rows : list TeamAvg.t) : Z :=
  fold_right (fun r acc => TeamAvg.games r + acc) 0 rows.

(* ================================================================== *)
(** ** The canvas bootstrap, the greeting and the start-up sequence *)

(** Two more values read from [process.env]: the channel of a new canvas
    and the update frequency as it prints. *)
Class Deployment := {
  CHANNEL_ID : string;
  UPDATE_FREQUENCY : string
}.

(** Programs of the bootstrap: the programs above ([Core]; what such a
    program throws is thrown on), and the calls only the bootstrap makes.
    [CanvasGet] answers whether the result carries a canvas, [CanvasCreate]
    answers with the id of the result's canvas, if it has one,
    [CronSchedule] is rejected when the library throws at the
    expression. *)
Inductive boot (A : Type) : Type :=
| Done (a : A)
| Fail (message : string)
| Core {X : Type} (p : prog X) (k : X -> boot A)
| CanvasGet (canvas_id : string) (k : outcome bool -> boot A)
| CanvasCreate (channel_id title : string) (initial_blocks : list block)
               (k : outcome (option string) -> boot A)
| AppStart (k : outcome unit -> boot A)
| CronSchedule (expression : string) (k : outcome unit -> boot A).
Arguments Done {A} a.
Arguments Fail {A} message.
Arguments Core {A X} p k.
Arguments CanvasGet {A} canvas_id k.
Arguments CanvasCreate {A} channel_id title initial_blocks k.
Arguments AppStart {A} k.
Arguments CronSchedule {A} expression k.

Fixpoint boot_bind {A B} (p : boot A) (f : A -> boot B) : boot B :=
  match p with
  | Done a => f a
  | Fail e => Fail e
  | Core q k => Core q (fun x => boot_bind (k x) f)
  | CanvasGet c k => CanvasGet c (fun r => boot_bind (k r) f)
  | CanvasCreate c t b k => CanvasCreate c t b (fun r => boot_bind (k r) f)
  | AppStart k => AppStart (fun r => boot_bind (k r) f)
  | CronSchedule e k => CronSchedule e (fun r => boot_bind (k r) f)
  end.

(** A program with its exception turned into a value. *)
Definition attempt {X} (p : prog X) : prog (X + string) :=
  try_catch (bind p (fun x => Ret (inl x))) (fun message => Ret (inr message)).

(** [try { p } catch (error) { h(error.message) }] for the bootstrap *)
Fixpoint boot_try {A} (p : boot A) (h : string -> boot A) : boot A :=
  match p with
  | Done a => Done a
  | Fail e => h e
  | Core q k =>
      Core (attempt q)
           (fun r => match r with
                     | inl x => boot_try (k x) h
                     | inr e => h e
                     end)
  | CanvasGet c k => CanvasGet c (fun r => boot_try (k r) h)
  | CanvasCreate c t b k => CanvasCreate c t b (fun r => boot_try (k r) h)
  | AppStart k => AppStart (fun r => boot_try (k r) h)
  | CronSchedule e k => CronSchedule e (fun r => boot_try (k r) h)
  end.

Definition boot_await {A} (r : outcome A) : boot A :=
  match r with
  | Resolved a => Done a
  | Rejected e => Fail e
  end.

Definition core {X} (p : prog X) : boot X := Core p Done.

Declare Scope boot_scope.
Delimit Scope boot_scope with boot.
Notation "x <- p ;; q" := (boot_bind p (fun x => q))
  (at level 61, p at next level, right associativity) : boot_scope.
Notation "p ;; q" := (boot_bind p (fun _ => q))
  (at level 61, right associativity) : boot_scope.

(** [TypeError] of V8 for [newCanvas.canvas.id] on a result without a
    canvas. *)
Definition no_canvas_in_result : string :=
  "Cannot read properties of undefined (reading 'id')".

Module bootstrap.
Section Bootstrap.
Context `{Host} `{Deployment}.

(** [checkCanvas]; an unset [canvasId] is the empty string. *)
Definition checkCanvas (canvasId : string) : boot bool :=
  boot_try
    (if String.eqb canvasId "" then Done false
     else CanvasGet canvasId boot_await)
    (fun message =>
       (core (console_error ("Error checking Canvas: " ++ message)) ;;
        Done false)%boot).

Definition initial_blocks : list block :=
  [ HeaderBlock (g_title canvasService.glyph);
    SectionBlock "Loading tournament data..." ].

(** [createTournamentCanvas] *)
Definition createTournamentCanvas (channelId : string) : boot (option string) :=
  boot_try
    (CanvasCreate channelId "NCAA Tournament Tracker 2025" initial_blocks
       boot_await)
    (fun message =>
       (core (console_error ("Error creating Canvas: " ++ message)) ;;
        Fail message)%boot).

Definition structure_blocks : list block :=
  page canvasService.glyph "Loading games..." "Loading completed games..."
    "Loading upcoming games..." "Loading statistics..."
    "Last updated: Loading...".

(** [updateCanvasStructure] *)
Definition updateCanvasStructure (canvasId : string) : prog unit :=
  try_catch
    (canvas_update canvasId structure_blocks)
    (fun message =>
       (console_error ("Error updating Canvas structure: " ++ message) ;;
        Throw message)%prog).

(** The object [initializeCanvas] hands to [updateCanvasContent]; its
    [status] and [message] fields are read by nobody. *)
Definition loading_data (now : Z) : Data.t :=
  Data.mk [] None None None None None None (Some (toISOString now)).

(** [initializeCanvas] *)
Definition initializeCanvas : boot unit :=
  boot_try
    (core (console_log "Initializing Canvas...") ;;
     canvasExists <- checkCanvas CANVAS_ID ;;
     (if negb canvasExists then
        (core (console_log "Canvas not found, creating a new one...") ;;
         newCanvas <- createTournamentCanvas CHANNEL_ID ;;
         match newCanvas with
         | None => Fail no_canvas_in_result
         | Some id =>
             (core (console_log ("Created new Canvas with ID: " ++ id)) ;;
              core (console_log
                      ("Please update your .env file with: SLACK_CANVAS_ID="
                         ++ id)))
         end)
      else
        (core (console_log "Canvas found, updating with initial content...") ;;
         core (updateCanvasStructure CANVAS_ID))) ;;
     now <- core new_Date ;;
     core (canvasService.updateCanvasContent CANVAS_ID (loading_data now)) ;;
     core (console_log "Canvas initialized successfully"))%boot
    (fun message =>
       core (console_error ("Failed to initialize Canvas: " ++ message))).

(** [scheduleUpdates]: the callback registered is
    [controller.scheduled_update]. *)
Definition scheduleUpdates : boot unit :=
  (core (console_log ("Scheduling updates every " ++ UPDATE_FREQUENCY
                        ++ " minutes")) ;;
   CronSchedule ("*/" ++ UPDATE_FREQUENCY ++ " * * * *") boot_await)%boot.

(** The start-up sequence at the end of [index.js]. *)
Definition main : boot unit :=
  (AppStart boot_await ;;
   core (console_log "⚡️ NCAA Tournament Canvas App is running!") ;;
   initializeCanvas ;;
   core controller.updateTournamentData ;;
   scheduleUpdates)%boot.

(** The handler registered for [app_mention]. *)
Definition on_app_mention (user : string) : prog unit :=
  try_catch
    (say ("Hi <@" ++ user
            ++ ">! I'm tracking the NCAA tournament. Check out our Canvas for the latest updates!"))
    (fun error => console_error_object "Error handling app_mention:" error).

End Bootstrap.
End bootstrap.

(** *** Running the bootstrap *)

Inductive boot_effect :=
| OfCore (e : effect)
| Got (canvas_id : string)
| Created (channel_id title : string) (initial_blocks : list block)
| Started
| Registered (expression : string).   (* [cron.schedule] was called *)

Record boot_world := mkBootWorld {
  core_world : world;
  canvas_get : string -> outcome bool;
  canvas_create : string -> string -> list block -> outcome (option string);
  app_start : outcome unit;
  cron_schedule : string -> outcome unit
}.

Fixpoint run_boot {A} (w : boot_world) (p : boot A) (s : store)
  : (A + string) * store * list boot_effect :=
  match p with
  | Done a => (inl a, s, [])
  | Fail e => (inr e, s, [])
  | Core q k =>
      match run (core_world w) q s with
      | (inl x, s', t) =>
          let '(r, s'', t') := run_boot w (k x) s' in
          (r, s'', (map OfCore t ++ t')%list)
      | (inr e, s', t) => (inr e, s', map OfCore t)
      end
  | CanvasGet c k =>
      let '(r, s', t) := run_boot w (k (canvas_get w c)) s in (r, s', Got c :: t)
  | CanvasCreate c title b k =>
      let '(r, s', t) := run_boot w (k (canvas_create w c title b)) s in
      (r, s', Created c title b :: t)
  | AppStart k =>
      let '(r, s', t) := run_boot w (k (app_start w)) s in (r, s', Started :: t)
  | CronSchedule e k =>
      let '(r, s', t) := run_boot w (k (cron_schedule w e)) s in
      (r, s', Registered e :: t)
  end.

(** The canvases written to, and the calls that create one. *)
Fixpoint published_to (t : list boot_effect) : list string :=
  match t with
  | [] => []
  | OfCore (Published id _) :: t' => id :: published_to t'
  | _ :: t' => published_to t'
  end.

Fixpoint created_in (t : list boot_effect) : list string :=
  match t with
  | [] => []
  | Created c _ _ :: t' => c :: created_in t'
  | _ :: t' => created_in t'
  end.

(* ================================================================== *)
(** ** Vocabulary of the further properties: rendering and handlers *)

(** The same game with other scores. *)
Definition with_scores (g : game) (away home : Z) : game :=
  mkGame (GameID g) (Status g) (DateTime g) (AwayTeam g) (HomeTeam g)
    (AwayTeamSeed g) (HomeTeamSeed g) away home
    (TimeRemainingMinutes g) (TimeRemainingSeconds g) (Period g) (Round g).

(** An optional array that is missing or empty. *)
Definition blank {A} (x : option (list A)) : bool := negb (non_empty x).

(** The marker the second copy appends to the line of a close game. *)
Definition close_marker : string := " üî• CLOSE GAME!".

Section LineVocabulary.
Context `{Host}.

(** The parts of a game line before and after the place of the upset
    marker. *)
Definition line_front (G : glyphs) (g : game) : string :=
  statusEmoji G g ++ " (" ++ show_Z (AwayTeamSeed g) ++ ") *" ++ AwayTeam g ++ "* "
    ++ (if negb (status_is "Scheduled" g)
        then show_Z (AwayTeamScore g) ++ " - " ++ show_Z (HomeTeamScore g) ++ " "
        else "vs ")
    ++ "*" ++ HomeTeam g ++ "* (" ++ show_Z (HomeTeamSeed g) ++ ")".

Definition line_back (G : glyphs) (g : game) : string :=
  nl ++ g_corner G ++ " _" ++ statusText g ++ " | Round " ++ show_Z (Round g) ++ "_".

(** The time value of a game with a valid date. *)
Definition time_of (g : game) : Z :=
  match Date_parse (DateTime g) with
  | Some t => t
  | None => 0
  end.

(** Both games have valid dates, and [a] starts no sooner than [b]; no
    later than [b]. *)
Definition not_sooner (a b : game) : Prop :=
  exists ta tb : Z,
    Date_parse (DateTime a) = Some ta /\ Date_parse (DateTime b) = Some tb
    /\ tb <= ta.

Definition not_later (a b : game) : Prop :=
  exists ta tb : Z,
    Date_parse (DateTime a) = Some ta /\ Date_parse (DateTime b) = Some tb
    /\ ta <= tb.

End LineVocabulary.

(** The configured canvas exists: the id is set and the lookup resolves
    with a canvas. *)
Definition canvas_found (w : boot_world) (id : string) : bool :=
  negb (String.eqb id "")
  && match canvas_get w id with
     | Resolved true => true
     | _ => false
     end.

(** The cron expressions registered, and the number of provider calls. *)
Fixpoint registered (t : list boot_effect) : list string :=
  match t with
  | [] => []
  | Registered e :: t' => e :: registered t'
  | _ :: t' => registered t'
  end.

Fixpoint requested (t : list effect) : nat :=
  match t with
  | [] => O
  | Requested :: t' => S (requested t')
  | _ :: t' => requested t'
  end.

(** Sample deployment and worlds: the chat client rejects every message;
    a scheduled game; the object of the bootstrap's first content
    update. *)
Definition demo_deployment : Deployment := {|
  CHANNEL_ID := "C12345678";
  UPDATE_FREQUENCY := "5"
|}.

Definition silent_slack_world : world :=
  mkWorld 0 (Resolved (JsonArray [])) (fun _ _ => Resolved tt)
    (fun _ => Rejected "channel_not_found").

Definition scheduled_game : game :=
  sample_game "Scheduled" "Marquette" "Western Kentucky" 2 15 0 0.

Definition demo_loading_data : Data.t := @bootstrap.loading_data demo_host 0.

(* ================================================================== *)
(** * Properties *)

(** ** Sorting: general facts about [JS.sort] *)

Section SortFacts.
Context {A : Type} (gt : A -> A -> bool).

Lemma insert_perm (x : A) (l : list A) : Permutation (x :: l) (JS.insert gt x l).
Proof.
  induction l as [|y l IH]; simpl; [reflexivity|].
  destruct (gt x y); [|reflexivity].
  rewrite perm_swap. now constructor.
Qed.

Lemma sort_perm (l : list A) : Permutation l (JS.sort gt l).
Proof.
  induction l as [|x l IH]; simpl; [constructor|].
  rewrite <- insert_perm. now constructor.
Qed.

Lemma sort_length (l : list A) : List.length (JS.sort gt l) = List.length l.
Proof. symmetry. apply Permutation_length, sort_perm. Qed.

(** Stability: elements that the comparator never orders among themselves
    keep their relative order. *)
Lemma insert_filter (p : A -> bool) (x : A) (l : list A) :
  (forall y, In y l -> p x = true -> p y = true -> gt x y = false) ->
  filter p (JS.insert gt x l) = filter p (x :: l).
Proof.
  induction l as [|y l IH]; intros Hties; simpl; [reflexivity|].
  destruct (gt x y) eqn:Hxy; [|reflexivity].
  simpl. rewrite IH by (intros z Hz; apply Hties; now right).
  simpl. destruct (p x) eqn:Hpx, (p y) eqn:Hpy; try reflexivity.
  rewrite (Hties y (or_introl eq_refl) eq_refl Hpy) in Hxy. discriminate.
Qed.

Lemma sort_stable (p : A -> bool) (l : list A) :
  (forall x y, p x = true -> p y = true -> gt x y = false) ->
  filter p (JS.sort gt l) = filter p l.
Proof.
  intros Hties. induction l as [|x l IH]; simpl; [reflexivity|].
  rewrite insert_filter by (intros; now apply Hties).
  simpl. now rewrite IH.
Qed.

Hypothesis gt_total : forall a b, gt a b = true -> gt b a = false.
Hypothesis gt_trans : forall a b c, gt a b = false -> gt b c = false -> gt a c = false.

Lemma insert_sorted (x : A) (l : list A) :
  StronglySorted (JS.not_after gt) l -> StronglySorted (JS.not_after gt) (JS.insert gt x l).
Proof.
  induction 1 as [|y l Hs IH Hall]; simpl.
  - repeat constructor.
  - destruct (gt x y) eqn:Hxy.
    + constructor; [assumption|].
      rewrite Forall_forall in *. intros z Hz.
      apply (Permutation_in _ (Permutation_sym (insert_perm x l))) in Hz.
      destruct Hz as [<-|Hz]; [now apply gt_total | now apply Hall].
    + constructor; [now constructor|].
      constructor; [exact Hxy|].
      rewrite Forall_forall in *. intros z Hz.
      apply gt_trans with y; [exact Hxy | now apply Hall].
Qed.

Lemma sort_sorted (l : list A) : StronglySorted (JS.not_after gt) (JS.sort gt l).
Proof.
  induction l as [|x l IH]; simpl; [constructor | now apply insert_sorted].
Qed.

Lemma gt_irrefl (x : A) : gt x x = false.
Proof.
  destruct (gt x x) eqn:E; [|reflexivity].
  pose proof (gt_total _ _ E). congruence.
Qed.

(** The result of a stable sort is determined: two sorted arrangements of
    the same elements that agree on the order within every class of ties
    are equal.  So any stable implementation of [sort] returns what
    [JS.sort] returns. *)
Lemma stable_sorted_unique (l1 l2 : list A) :
  Permutation l1 l2 ->
  StronglySorted (JS.not_after gt) l1 -> StronglySorted (JS.not_after gt) l2 ->
  (forall p : A -> bool,
      (forall a b, p a = true -> p b = true -> gt a b = false) ->
      filter p l1 = filter p l2) ->
  l1 = l2.
Proof.
  revert l2. induction l1 as [|x l1 IH]; intros l2 Hperm Hs1 Hs2 Hstable.
  - apply Permutation_nil in Hperm. now subst.
  - destruct l2 as [|y l2];
      [apply Permutation_sym, Permutation_nil in Hperm; discriminate|].
    apply StronglySorted_inv in Hs1. destruct Hs1 as [Hs1 Hall1].
    apply StronglySorted_inv in Hs2. destruct Hs2 as [Hs2 Hall2].
    rewrite Forall_forall in Hall1, Hall2.
    assert (Hxy : gt x y = false).
    { assert (Hin : In y (x :: l1))
        by (apply (Permutation_in _ (Permutation_sym Hperm)); now left).
      destruct Hin as [<-|Hin]; [apply gt_irrefl | now apply Hall1]. }
    assert (Hyx : gt y x = false).
    { assert (Hin : In x (y :: l2)) by (apply (Permutation_in _ Hperm); now left).
      destruct Hin as [<-|Hin]; [apply gt_irrefl | now apply Hall2]. }
    set (tied := fun z => negb (gt z x) && negb (gt x z)).
    assert (Hties : forall a b, tied a = true -> tied b = true -> gt a b = false).
    { unfold tied. intros a b Ha Hb.
      rewrite andb_true_iff, !negb_true_iff in Ha, Hb.
      apply gt_trans with x; tauto. }
    assert (Heq : x = y).
    { pose proof (Hstable tied Hties) as Hf. simpl in Hf.
      assert (Hx : tied x = true) by (unfold tied; now rewrite gt_irrefl).
      assert (Hy : tied y = true) by (unfold tied; now rewrite Hxy, Hyx).
      rewrite Hx, Hy in Hf. now injection Hf. }
    subst y. f_equal. apply IH; try assumption.
    + now apply Permutation_cons_inv in Hperm.
    + intros p Hp. specialize (Hstable p Hp). simpl in Hstable.
      destruct (p x); [now injection Hstable | exact Hstable].
Qed.

Lemma sort_unique (l l' : list A) :
  Permutation l l' ->
  StronglySorted (JS.not_after gt) l' ->
  (forall p : A -> bool,
      (forall a b, p a = true -> p b = true -> gt a b = false) ->
      filter p l' = filter p l) ->
  l' = JS.sort gt l.
Proof.
  intros Hperm Hsorted Hstable. apply stable_sorted_unique.
  - rewrite <- Hperm. apply sort_perm.
  - exact Hsorted.
  - apply sort_sorted.
  - intros p Hp. rewrite Hstable by exact Hp. symmetry. now apply sort_stable.
Qed.

End SortFacts.

Lemma firstn_sorted {A} (R : A -> A -> Prop) (n : nat) (l : list A) :
  StronglySorted R l -> StronglySorted R (firstn n l).
Proof.
  intros Hs. revert n. induction Hs as [|x l Hs IH Hall]; intros [|n]; simpl;
    try constructor; auto.
  rewrite Forall_forall in *. intros y Hy. apply Hall.
  rewrite <- (firstn_skipn n l). apply in_or_app. now left.
Qed.

(** ** Statistics: the average (C1) *)

Lemma fold_scores (l : list game) (acc : Z) :
  fold_left (fun sum game => sum + AwayTeamScore game + HomeTeamScore game) l acc
  = acc + sum_scores l.
Proof.
  revert acc. induction l as [|g l IH]; intros acc; simpl; [lia|].
  rewrite IH. lia.
Qed.

Lemma totalPoints_sum (games : list game) :
  sportService.totalPoints games = sum_scores (filter (status_is "Final") games).
Proof. unfold sportService.totalPoints. now rewrite fold_scores. Qed.

Lemma round1_tenths (p c : Z) :
  (inject_Z p / inject_Z c - (1 # 20) < sportService.round1 p c
   /\ sportService.round1 p c <= inject_Z p / inject_Z c + (1 # 20))%Q.
Proof.
  unfold sportService.round1, JS.Math_round.
  set (x := (inject_Z p / inject_Z c)%Q).
  pose proof (Qfloor_le (x * 10 + (1 # 2))) as Hle.
  pose proof (Qlt_floor (x * 10 + (1 # 2))) as Hlt.
  set (t := Qfloor (x * 10 + (1 # 2))) in *.
  rewrite inject_Z_plus in Hlt.
  change (inject_Z 1) with 1%Q in Hlt.
  split.
  - apply Qlt_shift_div_l; [reflexivity|]. lra.
  - apply Qle_shift_div_r; [reflexivity|]. lra.
Qed.

(** C1.  The average of a batch is [0] when the batch has no [Final]
    record; otherwise it is a whole number of tenths, and it is the sum of
    both scores over the [Final] records divided by their count, rounded
    to the nearest tenth (a half rounds up). *)
Theorem C1_avgPointsPerGame (games : list game) :
  let finals := filter (status_is "Final") games in
  let avg := Stats.avgPointsPerGame (sportService.calculateTournamentStats games) in
  let mean := (inject_Z (sum_scores finals) / inject_Z (Z.of_nat (List.length finals)))%Q in
  match finals with
  | [] => avg = 0%Q
  | _ :: _ =>
      (exists tenths : Z, avg = (inject_Z tenths / 10)%Q)
      /\ (mean - (1 # 20) < avg)%Q /\ (avg <= mean + (1 # 20))%Q
  end.
Proof.
  intros finals avg mean.
  subst avg. cbn [Stats.avgPointsPerGame sportService.calculateTournamentStats].
  unfold sportService.avgPointsPerGame.
  rewrite totalPoints_sum.
  unfold sportService.completedGames. fold finals.
  subst mean. destruct finals as [|g l] eqn:E; [reflexivity|].
  cbn [List.length]. split.
  - eexists. reflexivity.
  - apply round1_tenths.
Qed.

Example mock_average :
  (Stats.avgPointsPerGame
     (sportService.calculateTournamentStats sportService.getMockTournamentData)
   == 130)%Q.
Proof. reflexivity. Qed.

(** ** Upsets (C2) *)

Lemma upset_test_spec (g : game) : upset_test g = true <-> weaker_seed_won g.
Proof.
  unfold upset_test, weaker_seed_won. split.
  - intros Hu. apply orb_true_iff in Hu.
    destruct Hu as [Hu|Hu]; apply andb_true_iff in Hu; destruct Hu as [H1 H2];
      [exists Away | exists Home]; simpl; lia.
  - intros [[|] [H1 H2]]; simpl in *; apply orb_true_iff; [left|right];
      apply andb_true_iff; lia.
Qed.

Lemma status_is_spec (s : string) (g : game) : status_is s g = true <-> Status g = s.
Proof. unfold status_is. apply String.eqb_eq. Qed.

(** C2.  A record is in the upset subset exactly when it is a [Final]
    record of the batch in which the team with the larger seed has the
    strictly higher score; a record with equal seeds is never in it.  The
    controller's subset is the same list, and the statistics report its
    length. *)
Theorem C2_upsets_membership `{Host} (games : list game) (now : Z) :
  (forall g : game,
      In g (sportService.upsets games)
      <-> In g games /\ Status g = "Final" /\ weaker_seed_won g)
  /\ (forall g : game,
         In g (sportService.upsets games) -> AwayTeamSeed g <> HomeTeamSeed g)
  /\ Data.upsets (controller.build_tournamentData games now)
     = Some (sportService.upsets games)
  /\ Stats.upsets (sportService.calculateTournamentStats games)
     = List.length (sportService.upsets games).
Proof.
  assert (Hmem : forall g, In g (sportService.upsets games)
                 <-> In g games /\ Status g = "Final" /\ weaker_seed_won g).
  { intros g. unfold sportService.upsets, sportService.completedGames.
    rewrite !filter_In, status_is_spec, upset_test_spec. tauto. }
  split; [exact Hmem|]. split; [|split; reflexivity].
  intros g Hin Heq. apply Hmem in Hin. destruct Hin as (_ & _ & [s [Hs _]]).
  destruct s; simpl in Hs; lia.
Qed.

(** ** Closest games (C6) *)

Lemma margin_after_total (a b : Margin.t) :
  sportService.margin_after a b = true -> sportService.margin_after b a = false.
Proof. unfold sportService.margin_after. lia. Qed.

Lemma margin_after_trans (a b c : Margin.t) :
  sportService.margin_after a b = false -> sportService.margin_after b c = false ->
  sportService.margin_after a c = false.
Proof. unfold sportService.margin_after. lia. Qed.

Lemma StronglySorted_impl {A} (R R' : A -> A -> Prop) (l : list A) :
  (forall a b, R a b -> R' a b) -> StronglySorted R l -> StronglySorted R' l.
Proof.
  intros Himp. induction 1 as [|x l Hs IH Hall]; constructor; auto.
  eapply Forall_impl; [|exact Hall]. auto.
Qed.

(** C6.  [closestGames] is the first five entries of a list [ranked] that
    holds one entry per [Final] record (a permutation of the entries in
    encounter order), ascending by margin, with the entries of any one
    margin in encounter order; each entry names winner and loser by the
    higher away score and has margin |away - home|. *)
Theorem C6_closestGames (games : list game) :
  let finals := filter (status_is "Final") games in
  let entries := map sportService.margin_entry finals in
  let closest := Stats.closestGames (sportService.calculateTournamentStats games) in
  (exists ranked : list Margin.t,
      closest = firstn 5 ranked
      /\ Permutation entries ranked
      /\ StronglySorted margin_le ranked
      /\ forall m : Z, filter (has_margin m) ranked = filter (has_margin m) entries)
  /\ StronglySorted margin_le closest
  /\ (List.length closest <= 5)%nat
  /\ Forall (fun e =>
               Margin.margin e = Z.abs (Margin.awayScore e - Margin.homeScore e)
               /\ ((Margin.awayScore e > Margin.homeScore e
                    /\ Margin.winner e = Margin.awayTeam e
                    /\ Margin.loser e = Margin.homeTeam e)
                   \/ (Margin.awayScore e <= Margin.homeScore e
                       /\ Margin.winner e = Margin.homeTeam e
                       /\ Margin.loser e = Margin.awayTeam e)))
            entries
  /\ Forall2 (fun g e =>
                Margin.awayTeam e = AwayTeam g /\ Margin.homeTeam e = HomeTeam g
                /\ Margin.awayScore e = AwayTeamScore g
                /\ Margin.homeScore e = HomeTeamScore g)
             finals entries.
Proof.
  intros finals entries closest.
  assert (Hsorted : StronglySorted margin_le
                      (JS.sort sportService.margin_after entries)).
  { eapply StronglySorted_impl;
      [|apply (sort_sorted sportService.margin_after
                 margin_after_total margin_after_trans)].
    unfold JS.not_after, sportService.margin_after, margin_le. intros a b. lia. }
  split; [|split; [|split; [|split]]].
  - exists (JS.sort sportService.margin_after entries).
    split; [reflexivity|]. split; [apply sort_perm|]. split; [exact Hsorted|].
    intros m. apply sort_stable.
    unfold has_margin, sportService.margin_after. intros x y Hx Hy. lia.
  - apply firstn_sorted. exact Hsorted.
  - apply firstn_le_length.
  - subst entries. apply Forall_forall. intros e He.
    apply in_map_iff in He. destruct He as (g & <- & _).
    unfold sportService.margin_entry, JS.Math_abs. simpl.
    split; [reflexivity|].
    destruct (AwayTeamScore g >? HomeTeamScore g) eqn:E; [left|right];
      repeat split; lia.
  - subst entries. clear. induction finals as [|g l IH]; simpl; constructor;
      [repeat split | exact IH].
Qed.

(** ** Per-team aggregates (C7) *)

Lemma first_seen_In (t : string) (l : list string) : In t (first_seen l) <-> In t l.
Proof.
  induction l as [|x r IH]; simpl; [tauto|].
  rewrite filter_In, IH, negb_true_iff, String.eqb_neq.
  destruct (string_dec x t) as [->|Hne]; [tauto|].
  split; [tauto|]. intros [Heq|Hin]; [tauto|]. right. split; congruence.
Qed.

Lemma first_seen_NoDup (l : list string) : NoDup (first_seen l).
Proof.
  induction l as [|x r IH]; simpl; constructor.
  - rewrite filter_In, negb_true_iff, String.eqb_neq. tauto.
  - now apply NoDup_filter.
Qed.

Lemma first_seen_snoc (l : list string) (k : string) :
  first_seen (l ++ [k]) = if in_dec string_dec k l then first_seen l
                          else (first_seen l ++ [k])%list.
Proof.
  induction l as [|x r IH]; simpl; [reflexivity|].
  rewrite IH. destruct (in_dec string_dec k r) as [Hin|Hnin].
  - destruct (string_dec x k); reflexivity.
  - rewrite filter_app. simpl.
    destruct (string_dec x k) as [->|Hne].
    + rewrite String.eqb_refl. simpl. now rewrite app_nil_r.
    + destruct (String.eqb_spec k x) as [->|_]; [congruence|reflexivity].
Qed.

Lemma points_of_snoc (t k : string) (s : Z) (apps : list (string * Z)) :
  points_of t (apps ++ [(k, s)]) = points_of t apps + (if String.eqb t k then s else 0).
Proof. induction apps as [|[k' s'] r IH]; simpl; [lia|]. rewrite IH. lia. Qed.

Lemma games_of_snoc (t k : string) (s : Z) (apps : list (string * Z)) :
  games_of t (apps ++ [(k, s)]) = games_of t apps + (if String.eqb t k then 1 else 0).
Proof. induction apps as [|[k' s'] r IH]; simpl; [lia|]. rewrite IH. lia. Qed.

Lemma points_of_absent (t : string) (apps : list (string * Z)) :
  ~ In t (map fst apps) -> points_of t apps = 0 /\ games_of t apps = 0.
Proof.
  induction apps as [|[k s] r IH]; simpl; [auto|]. intros Hnin.
  destruct (String.eqb_spec t k) as [->|_]; [tauto|].
  destruct IH as [-> ->]; [tauto|]. auto.
Qed.

Lemma games_of_present (t : string) (apps : list (string * Z)) :
  In t (map fst apps) -> games_of t apps >= 1.
Proof.
  assert (Hnn : forall l, games_of t l >= 0).
  { induction l as [|[k s] r IH]; simpl; [lia|].
    destruct (String.eqb t k); lia. }
  induction apps as [|[k s] r IH]; simpl; [tauto|]. intros [->|Hin].
  - rewrite String.eqb_refl. specialize (Hnn r). lia.
  - specialize (IH Hin). destruct (String.eqb t k); lia.
Qed.

(** *** Facts about object updates *)

Section ObjectFacts.
Context {V : Type}.

Lemma get_own_In (k : string) (o : JSObject.t V) :
  JSObject.get_own k o = None <-> ~ In k (JSObject.keys o).
Proof.
  induction o as [|[k' v] o IH]; simpl; [tauto|].
  destruct (String.eqb_spec k k') as [->|Hne].
  - split; [discriminate | tauto].
  - rewrite IH. split; [intros Hn [Heq|Hin]; congruence | tauto].
Qed.

Lemma update_keys (k : string) (f : V -> V) (o : JSObject.t V) :
  JSObject.keys (JSObject.update k f o) = JSObject.keys o.
Proof.
  induction o as [|[k' v] o IH]; simpl; [reflexivity|].
  destruct (String.eqb k k'); simpl; [reflexivity | now rewrite IH].
Qed.

Lemma update_absent (k : string) (f : V -> V) (o : JSObject.t V) :
  JSObject.get_own k o = None -> JSObject.update k f o = o.
Proof.
  induction o as [|[k' v] o IH]; simpl; [reflexivity|].
  destruct (String.eqb k k'); [discriminate|]. intros Hn. now rewrite IH.
Qed.

Lemma update_app_absent (k : string) (f : V -> V) (o o2 : JSObject.t V) :
  JSObject.get_own k o = None ->
  JSObject.update k f (o ++ o2)%list = (o ++ JSObject.update k f o2)%list.
Proof.
  induction o as [|[k' v] o IH]; simpl; [reflexivity|].
  destruct (String.eqb k k'); [discriminate|]. intros Hn. now rewrite IH.
Qed.

Lemma update_app_present (k : string) (f : V -> V) (o o2 : JSObject.t V) :
  JSObject.get_own k o <> None ->
  JSObject.update k f (o ++ o2)%list = (JSObject.update k f o ++ o2)%list.
Proof.
  induction o as [|[k' v] o IH]; simpl; [congruence|].
  destruct (String.eqb k k'); [reflexivity|]. intros Hn. now rewrite IH.
Qed.

Lemma update_map (k : string) (f : V -> V) (v : string -> V) (ts : list string) :
  NoDup ts ->
  JSObject.update k f (map (fun t => (t, v t)) ts)
  = map (fun t => (t, if String.eqb t k then f (v t) else v t)) ts.
Proof.
  induction 1 as [|x ts Hnin Hnd IH]; simpl; [reflexivity|].
  destruct (String.eqb_spec k x) as [->|Hne].
  - rewrite String.eqb_refl. f_equal.
    apply map_ext_in. intros t Ht.
    destruct (String.eqb_spec t x) as [->|_]; [tauto|reflexivity].
  - destruct (String.eqb_spec x k) as [->|_]; [congruence|]. now rewrite IH.
Qed.

End ObjectFacts.

(** *** The tally loop, one appearance at a time *)

Lemma get_own_credit_none (h a : string) (s : Z) (o : JSObject.t Tally.t) :
  JSObject.get_own h (sportService.credit a s o) = None
  <-> JSObject.get_own h o = None.
Proof.
  unfold sportService.credit. now rewrite !get_own_In, update_keys.
Qed.

Lemma init_if_missing_cases (k : string) (o : JSObject.t Tally.t) :
  JSObject.get_own k (sportService.init_if_missing k o) <> None
  \/ JSObject.inherited k = true.
Proof.
  unfold sportService.init_if_missing.
  destruct (JSObject.get_own k o) eqn:E; [left; congruence|].
  destruct (JSObject.inherited k); [now right|left].
  rewrite get_own_In. unfold JSObject.define, JSObject.keys.
  rewrite map_app, in_app_iff. simpl. tauto.
Qed.

Lemma credit_init_comm (a h : string) (s : Z) (o : JSObject.t Tally.t) :
  a <> h \/ JSObject.get_own a o <> None \/ JSObject.inherited h = true ->
  sportService.credit a s (sportService.init_if_missing h o)
  = sportService.init_if_missing h (sportService.credit a s o).
Proof.
  intros Hside. unfold sportService.init_if_missing.
  destruct (JSObject.get_own h o) eqn:Eh.
  - destruct (JSObject.get_own h (sportService.credit a s o)) eqn:Ec;
      [reflexivity|].
    apply get_own_credit_none in Ec. congruence.
  - apply (proj2 (get_own_credit_none h a s o)) in Eh as Ec. rewrite Ec.
    destruct (JSObject.inherited h) eqn:Ei; [reflexivity|].
    unfold JSObject.define, sportService.credit.
    destruct (JSObject.get_own a o) eqn:Ea.
    + apply update_app_present. congruence.
    + rewrite update_app_absent by exact Ea.
      rewrite (update_absent a _ o Ea). simpl.
      destruct (String.eqb_spec a h) as [->|_]; [|reflexivity].
      destruct Hside as [Hne|[Hown|Hinh]]; congruence.
Qed.

Lemma tally_game_apps (o : JSObject.t Tally.t) (g : game) :
  sportService.tally_game o g
  = tally_app (tally_app o (AwayTeam g, AwayTeamScore g))
              (HomeTeam g, HomeTeamScore g).
Proof.
  unfold sportService.tally_game, tally_app. simpl.
  rewrite credit_init_comm; [reflexivity|].
  destruct (string_dec (AwayTeam g) (HomeTeam g)) as [E|Hne]; [|now left].
  right. rewrite <- E.
  destruct (init_if_missing_cases (AwayTeam g) o); [now left | now right].
Qed.

Lemma fold_tally_apps (l : list game) (o : JSObject.t Tally.t) :
  fold_left sportService.tally_game l o = fold_left tally_app (appearances l) o.
Proof.
  revert o. induction l as [|g l IH]; intros o; simpl; [reflexivity|].
  now rewrite IH, tally_game_apps.
Qed.

Lemma get_own_rows (k : string) (v : string -> Tally.t) (ts : list string) :
  JSObject.get_own k (map (fun t => (t, v t)) ts) = None <-> ~ In k ts.
Proof.
  rewrite get_own_In. unfold JSObject.keys. rewrite map_map. simpl.
  now rewrite map_id.
Qed.




Lemma appearances_names (t : string) (l : list game) :
  In t (map fst (appearances l))
  <-> exists g, In g l /\ (t = AwayTeam g \/ t = HomeTeam g).
Proof.
  induction l as [|g l IH]; simpl.
  - split; [tauto | intros (g & [] & _)].
  - rewrite IH. split.
    + intros [<-|[<-|(g' & Hin & Ht)]]; eauto 6.
    + intros (g' & [<-|Hin] & Ht); [destruct Ht as [->| ->]; auto|].
      right. right. eauto.
Qed.

Lemma ordinary_teams_names (games : list game) (t : string) :
  ordinary_teams games = true ->
  In t (map fst (appearances (filter (status_is "Final") games))) ->
  JSObject.is_index t = false /\ JSObject.inherited t = false.
Proof.
  unfold ordinary_teams. rewrite forallb_forall, appearances_names.
  intros Hall (g & Hin & Ht). specialize (Hall g Hin).
  unfold ordinary_key in Hall.
  rewrite !andb_true_iff, !negb_true_iff in Hall.
  destruct Ht as [->| ->]; tauto.
Qed.

(** *** A list split by a test *)

Lemma filter_split_perm {A} (f : A -> bool) (l : list A) :
  Permutation (filter f l ++ filter (fun x => negb (f x)) l) l.
Proof.
  induction l as [|x l IH]; simpl; [constructor|].
  destruct (f x); simpl; [now constructor|].
  rewrite <- Permutation_middle. now constructor.
Qed.

(** *** Array indices are canonical numerals *)









(** *** Sorting and filtering under a map *)

Lemma insert_map {A B} (f : A -> B) (gt : B -> B -> bool) (x : A) (l : list A) :
  JS.insert gt (f x) (map f l)
  = map f (JS.insert (fun a b => gt (f a) (f b)) x l).
Proof.
  induction l as [|y l IH]; simpl; [reflexivity|].
  destruct (gt (f x) (f y)); simpl; [now rewrite IH | reflexivity].
Qed.

Lemma sort_map {A B} (f : A -> B) (gt : B -> B -> bool) (l : list A) :
  JS.sort gt (map f l) = map f (JS.sort (fun a b => gt (f a) (f b)) l).
Proof.
  induction l as [|x l IH]; simpl; [reflexivity|].
  now rewrite IH, insert_map.
Qed.

Lemma filter_map_comm {A B} (f : A -> B) (p : B -> bool) (l : list A) :
  filter p (map f l) = map f (filter (fun x => p (f x)) l).
Proof.
  induction l as [|x l IH]; simpl; [reflexivity|].
  destruct (p (f x)); simpl; now rewrite IH.
Qed.

Lemma filter_none {A} (p : A -> bool) (l : list A) :
  (forall x, In x l -> p x = false) -> filter p l = [].
Proof.
  induction l as [|x l IH]; intros Hall; simpl; [reflexivity|].
  rewrite (Hall x) by now left. apply IH. intros y Hy. apply Hall. now right.
Qed.

Lemma filter_all {A} (p : A -> bool) (l : list A) :
  (forall x, In x l -> p x = true) -> filter p l = l.
Proof.
  induction l as [|x l IH]; intros Hall; simpl; [reflexivity|].
  rewrite (Hall x) by now left. f_equal. apply IH. intros y Hy. apply Hall. now right.
Qed.

(** *** The key order of [Object.entries] *)

Lemma entries_rows (v : string -> Tally.t) (ts : list string) :
  JSObject.entries (map (fun t => (t, v t)) ts)
  = map (fun t => (t, v t)) (key_order ts).
Proof.
  unfold JSObject.entries, key_order.
  rewrite !filter_map_comm, sort_map, map_app. reflexivity.
Qed.

Lemma key_order_perm (ts : list string) : Permutation (key_order ts) ts.
Proof.
  unfold key_order.
  eapply Permutation_trans; [|apply (filter_split_perm JSObject.is_index)].
  apply Permutation_app_tail, Permutation_sym, sort_perm.
Qed.





Lemma key_order_plain (ts : list string) :
  (forall t, In t ts -> JSObject.is_index t = false) -> key_order ts = ts.
Proof.
  intros Hplain. unfold key_order.
  rewrite (filter_none JSObject.is_index ts Hplain). simpl.
  apply filter_all. intros x Hx. apply negb_true_iff. now apply Hplain.
Qed.

(** *** The object the tally loop builds, for every batch *)

Lemma fold_tally_recorded (apps : list (string * Z)) :
  fold_left tally_app apps []
  = map (tally_row apps)
      (filter (fun t => negb (JSObject.inherited t)) (first_seen (map fst apps))).
Proof.
  induction apps as [|[k s] apps IH] using rev_ind; [reflexivity|].
  rewrite fold_left_app, IH. rewrite map_app. change (map fst [(k, s)]) with [k].
  rewrite first_seen_snoc.
  change (fold_left tally_app [(k, s)] ?o) with (tally_app o (k, s)).
  set (ninh := fun t => negb (JSObject.inherited t)).
  set (ts := filter ninh (first_seen (map fst apps))).
  assert (Hnd : NoDup ts) by (apply NoDup_filter, first_seen_NoDup).
  assert (Hin : In k ts <-> In k (map fst apps) /\ JSObject.inherited k = false).
  { subst ts ninh. rewrite filter_In, first_seen_In, negb_true_iff. tauto. }
  unfold tally_app, sportService.init_if_missing. simpl.
  destruct (JSObject.inherited k) eqn:Hk.
  - (* an inherited name: nothing happens *)
    assert (Hnone : JSObject.get_own k (map (tally_row apps) ts) = None).
    { unfold tally_row. apply get_own_rows. rewrite Hin. intros [_ Hf]. discriminate. }
    rewrite Hnone. unfold sportService.credit. rewrite update_absent by exact Hnone.
    assert (Hts : filter ninh (if in_dec string_dec k (map fst apps)
                               then first_seen (map fst apps)
                               else (first_seen (map fst apps) ++ [k])%list) = ts).
    { destruct (in_dec string_dec k (map fst apps)); [reflexivity|].
      rewrite filter_app. simpl. subst ninh. cbv beta. rewrite Hk. simpl.
      apply app_nil_r. }
    rewrite Hts. apply map_ext_in. intros t Ht. unfold tally_row.
    rewrite points_of_snoc, games_of_snoc.
    destruct (String.eqb_spec t k) as [->|_].
    + apply Hin in Ht. destruct Ht as [_ Hf]. congruence.
    + now rewrite !Z.add_0_r.
  - destruct (in_dec string_dec k (map fst apps)) as [Hmet|Hnew].
    + fold ts.
      destruct (JSObject.get_own k (map (tally_row apps) ts)) as [d|] eqn:E.
      * unfold sportService.credit, tally_row at 1.
        rewrite update_map by exact Hnd.
        apply map_ext. intros t. unfold tally_row.
        rewrite points_of_snoc, games_of_snoc. simpl.
        destruct (String.eqb t k); do 2 f_equal; lia.
      * unfold tally_row in E. apply get_own_rows in E. tauto.
    + rewrite filter_app. fold ts. simpl. replace (ninh k) with true
        by (subst ninh; cbv beta; now rewrite Hk).
      destruct (JSObject.get_own k (map (tally_row apps) ts)) as [d|] eqn:E.
      * assert (E' : JSObject.get_own k (map (tally_row apps) ts) <> None)
          by congruence.
        unfold tally_row in E'. rewrite get_own_rows in E'. tauto.
      * unfold JSObject.define, sportService.credit.
        rewrite update_app_absent by exact E. simpl. rewrite String.eqb_refl.
        rewrite map_app. simpl. f_equal.
        -- apply map_ext_in. intros t Ht. unfold tally_row.
           rewrite points_of_snoc, games_of_snoc.
           destruct (String.eqb_spec t k) as [->|_]; [tauto|].
           do 2 f_equal; lia.
        -- unfold tally_row. rewrite points_of_snoc, games_of_snoc.
           rewrite String.eqb_refl.
           destruct (points_of_absent k apps Hnew) as [-> ->]. reflexivity.
Qed.

Lemma recorded_In (finals : list game) (t : string) :
  In t (recorded finals)
  <-> (exists g, In g finals /\ (t = AwayTeam g \/ t = HomeTeam g))
      /\ JSObject.inherited t = false.
Proof.
  unfold recorded. rewrite filter_In, first_seen_In, appearances_names, negb_true_iff.
  reflexivity.
Qed.

Lemma listed_teams_In (finals : list game) (t : string) :
  In t (listed_teams finals) <-> In t (recorded finals).
Proof.
  unfold listed_teams. split; apply Permutation_in;
    [|apply Permutation_sym]; apply key_order_perm.
Qed.

(** For every batch the list handed to the sort is the list of the rows
    of the recorded teams in key order. *)
Lemma teamsWithAvg_listed (games : list game) :
  sportService.teamsWithAvg games
  = JS.sort sportService.avg_after (listed_rows (filter (status_is "Final") games)).
Proof.
  unfold sportService.teamsWithAvg, sportService.teamScores,
    sportService.completedGames, listed_rows, listed_teams.
  set (finals := filter (status_is "Final") games).
  set (apps := appearances finals).
  rewrite fold_tally_apps. fold apps. rewrite fold_tally_recorded.
  change (filter _ (first_seen (map fst apps))) with (recorded finals).
  unfold tally_row at 1. rewrite entries_rows. rewrite map_map.
  f_equal.
  assert (Hrows : map (fun t => sportService.team_entry
                                  (t, Tally.mk (points_of t apps) (games_of t apps)))
                      (key_order (recorded finals))
                  = map (team_row apps) (key_order (recorded finals))).
  { apply map_ext_in. intros t Ht.
    apply (listed_teams_In finals), recorded_In in Ht.
    destruct Ht as [Ht _]. apply appearances_names in Ht.
    unfold sportService.team_entry, team_row. simpl.
    pose proof (games_of_present t apps Ht) as Hg.
    destruct (games_of t apps =? 0) eqn:E; [lia|reflexivity]. }
  rewrite Hrows. apply filter_all.
  intros r Hr. apply in_map_iff in Hr. destruct Hr as (t & <- & Ht).
  apply (listed_teams_In finals), recorded_In in Ht.
  destruct Ht as [Ht _]. apply appearances_names in Ht. simpl.
  pose proof (games_of_present t apps Ht). lia.
Qed.

Lemma recorded_ordinary (games : list game) :
  ordinary_teams games = true ->
  listed_teams (filter (status_is "Final") games)
  = first_seen (map fst (appearances (filter (status_is "Final") games))).
Proof.
  intros Hord. unfold listed_teams, recorded.
  rewrite filter_all.
  2:{ intros t Ht. rewrite first_seen_In in Ht. apply negb_true_iff.
      exact (proj2 (ordinary_teams_names games t Hord Ht)). }
  apply key_order_plain. intros t Ht. rewrite first_seen_In in Ht.
  exact (proj1 (ordinary_teams_names games t Hord Ht)).
Qed.

(** With ordinary team names the list handed to the sort is the list of
    per-team aggregates in first-encounter order. *)
Lemma teamsWithAvg_ordinary (games : list game) :
  ordinary_teams games = true ->
  sportService.teamsWithAvg games
  = JS.sort sportService.avg_after (per_team (filter (status_is "Final") games)).
Proof.
  intros Hord. rewrite teamsWithAvg_listed. f_equal.
  unfold listed_rows, per_team. now rewrite recorded_ordinary.
Qed.



(** ** Completed games with equal scores (C5) *)

(** C5, as stated, fails: were a tied [Final] record left out of the
    statistics, the statistics of [tied_batch] would be those of the empty
    batch. *)
Lemma C5_counterexample :
  without_ties tied_batch = []
  /\ (Stats.avgPointsPerGame (sportService.calculateTournamentStats tied_batch)
      == 140)%Q
  /\ Stats.avgPointsPerGame
       (sportService.calculateTournamentStats (without_ties tied_batch)) = 0%Q
  /\ Stats.closestGames (sportService.calculateTournamentStats tied_batch)
     = [ Margin.mk "A" "B" 70 70 0 "B" "A" ]
  /\ Stats.closestGames
       (sportService.calculateTournamentStats (without_ties tied_batch)) = []
  /\ map TeamAvg.team
       (Stats.topScoringTeams (sportService.calculateTournamentStats tied_batch))
     = ["A"; "B"]
  /\ Stats.topScoringTeams
       (sportService.calculateTournamentStats (without_ties tied_batch)) = [].
Proof. repeat split; vm_compute; reflexivity. Qed.

Lemma get_own_update (t k : string) (f : Tally.t -> Tally.t) (o : JSObject.t Tally.t) :
  JSObject.get_own t (JSObject.update k f o)
  = if String.eqb t k then option_map f (JSObject.get_own t o)
    else JSObject.get_own t o.
Proof.
  induction o as [|[k' v] o IH]; simpl; [now destruct (String.eqb t k)|].
  destruct (String.eqb_spec k k') as [->|Hkk']; simpl.
  - destruct (String.eqb_spec t k') as [->|Hne]; reflexivity.
  - rewrite IH. destruct (String.eqb_spec t k') as [->|Hne]; [|reflexivity].
    destruct (String.eqb_spec k' k) as [->|_]; [congruence|reflexivity].
Qed.

Lemma get_own_app (t : string) (o o2 : JSObject.t Tally.t) :
  JSObject.get_own t (o ++ o2)%list
  = match JSObject.get_own t o with
    | Some d => Some d
    | None => JSObject.get_own t o2
    end.
Proof.
  induction o as [|[k' v] o IH]; simpl; [reflexivity|].
  destruct (String.eqb t k'); [reflexivity|exact IH].
Qed.

(** One appearance of a team whose name is not inherited. *)
Lemma tally_app_lookup (t k : string) (s : Z) (o : JSObject.t Tally.t) :
  JSObject.inherited t = false ->
  JSObject.get_own t (tally_app o (k, s))
  = if String.eqb t k then Some (bump s (or_zero (JSObject.get_own t o)))
    else JSObject.get_own t o.
Proof.
  intros Hinh. unfold tally_app, sportService.credit. simpl.
  rewrite get_own_update. fold (bump s).
  unfold sportService.init_if_missing.
  destruct (String.eqb_spec t k) as [<-|Hne].
  - destruct (JSObject.get_own t o) as [d|] eqn:E; simpl.
    + now rewrite E.
    + rewrite Hinh. unfold JSObject.define. rewrite get_own_app, E. simpl.
      now rewrite String.eqb_refl.
  - destruct (JSObject.get_own k o) as [d|] eqn:E; [reflexivity|].
    destruct (JSObject.inherited k); [reflexivity|].
    unfold JSObject.define. rewrite get_own_app. simpl.
    destruct (JSObject.get_own t o); [reflexivity|].
    destruct (String.eqb_spec t k); [congruence|reflexivity].
Qed.

(** The tally of a team whose name is not inherited, whatever the other
    names are. *)
Lemma teamScores_lookup (t : string) (apps : list (string * Z)) :
  JSObject.inherited t = false ->
  JSObject.get_own t (fold_left tally_app apps [])
  = if games_of t apps =? 0 then None
    else Some (Tally.mk (points_of t apps) (games_of t apps)).
Proof.
  intros Hinh.
  assert (Hnn : forall l, games_of t l >= 0).
  { induction l as [|[k s] r IH]; simpl; [lia|].
    destruct (String.eqb t k); lia. }
  assert (Hzero : forall l, games_of t l = 0 -> points_of t l = 0).
  { induction l as [|[k s] r IH]; simpl; [reflexivity|].
    specialize (Hnn r). destruct (String.eqb t k); [lia|]. intros E.
    rewrite IH; lia. }
  induction apps as [|[k s] apps IH] using rev_ind; [reflexivity|].
  rewrite fold_left_app. simpl.
  rewrite tally_app_lookup by exact Hinh. rewrite IH.
  rewrite points_of_snoc, games_of_snoc.
  specialize (Hnn apps). specialize (Hzero apps).
  destruct (String.eqb t k).
  - destruct (games_of t apps =? 0) eqn:E; simpl.
    + apply Z.eqb_eq in E. rewrite E, (Hzero E). reflexivity.
    + destruct (games_of t apps + 1 =? 0) eqn:E'; [lia|reflexivity].
  - now rewrite !Z.add_0_r.
Qed.

Lemma games_of_app (t : string) (a b : list (string * Z)) :
  games_of t (a ++ b) = games_of t a + games_of t b.
Proof. induction a as [|[k s] a IH]; simpl; [reflexivity|]. rewrite IH. lia. Qed.

Lemma points_of_app (t : string) (a b : list (string * Z)) :
  points_of t (a ++ b) = points_of t a + points_of t b.
Proof. induction a as [|[k s] a IH]; simpl; [reflexivity|]. rewrite IH. lia. Qed.

Lemma games_of_nonneg (t : string) (l : list (string * Z)) : 0 <= games_of t l.
Proof.
  induction l as [|[k s] r IH]; simpl; [lia|]. destruct (String.eqb t k); lia.
Qed.

Lemma points_of_unmet (t : string) (l : list (string * Z)) :
  games_of t l = 0 -> points_of t l = 0.
Proof.
  induction l as [|[k s] r IH]; simpl; [reflexivity|].
  pose proof (games_of_nonneg t r).
  destruct (String.eqb t k); [lia|]. intros E. rewrite IH; lia.
Qed.

Lemma appearances_split (before after : list game) (g : game) (t : string) :
  games_of t (appearances (before ++ g :: after))
  = games_of t (appearances (before ++ after)) + games_in g t
  /\ points_of t (appearances (before ++ g :: after))
     = points_of t (appearances (before ++ after)) + points_in g t.
Proof.
  unfold appearances, games_in, points_in. rewrite !flat_map_app.
  cbn [flat_map]. rewrite !games_of_app, !points_of_app.
  cbn [app games_of points_of]. lia.
Qed.

(** The tally of a team, met or not, whose name is not inherited; a team
    whose name is inherited has none. *)
Lemma teamScores_or_zero (games : list game) (t : string) :
  JSObject.inherited t = false ->
  or_zero (JSObject.get_own t (sportService.teamScores games))
  = Tally.mk (points_of t (appearances (sportService.completedGames games)))
             (games_of t (appearances (sportService.completedGames games))).
Proof.
  intros Hinh. unfold sportService.teamScores.
  rewrite fold_tally_apps, teamScores_lookup by exact Hinh.
  destruct (games_of t _ =? 0) eqn:E; [|reflexivity].
  apply Z.eqb_eq in E. cbn [or_zero]. now rewrite E, (points_of_unmet _ _ E).
Qed.

Lemma teamScores_inherited (games : list game) (t : string) :
  JSObject.inherited t = true ->
  JSObject.get_own t (sportService.teamScores games) = None.
Proof.
  intros Hinh. unfold sportService.teamScores.
  rewrite fold_tally_apps, fold_tally_recorded. unfold tally_row.
  apply get_own_rows. rewrite filter_In, Hinh. intros [_ Hf]. discriminate.
Qed.

(** C5 (as amended).  A [Final] record with equal scores is kept out of the
    upset subset and is kept in the statistics: it is one of the completed
    games, its two scores are part of the total that is averaged, it is a
    candidate for [closestGames] with margin 0, and each of its teams is
    credited with it: the team's tally, and its row in the list that is
    sorted for [topScoringTeams], hold what the other completed games give
    the team, plus this game and the points scored in it.  The one
    exception is a team named like a property every object inherits from
    [Object.prototype]: the tally never records such a team, for any
    game. *)
Theorem C5_tied_final_is_counted (games : list game) (g : game) :
  In g games -> Status g = "Final" -> AwayTeamScore g = HomeTeamScore g ->
  ~ In g (sportService.upsets games)
  /\ (exists before after : list game,
         sportService.completedGames games = (before ++ g :: after)%list
         /\ sportService.totalPoints games
            = sum_scores before + (AwayTeamScore g + HomeTeamScore g)
              + sum_scores after
         /\ Stats.completedGames (sportService.calculateTournamentStats games)
            = (List.length before + 1 + List.length after)%nat
         /\ forall t : string,
              t = AwayTeam g \/ t = HomeTeam g ->
              if JSObject.inherited t
              then JSObject.get_own t (sportService.teamScores games) = None
                   /\ forall row : TeamAvg.t,
                        In row (sportService.teamsWithAvg games) ->
                        TeamAvg.team row <> t
              else
                let rest :=
                  or_zero (JSObject.get_own t
                             (sportService.teamScores (before ++ after))) in
                games_in g t >= 1
                /\ JSObject.get_own t (sportService.teamScores games)
                   = Some (Tally.mk (Tally.points rest + points_in g t)
                                    (Tally.games rest + games_in g t))
                /\ exists row : TeamAvg.t,
                     In row (sportService.teamsWithAvg games)
                     /\ TeamAvg.team row = t
                     /\ TeamAvg.totalPoints row = Tally.points rest + points_in g t
                     /\ TeamAvg.games row = Tally.games rest + games_in g t)
  /\ (exists e : Margin.t,
         In e (sportService.marginOfVictory games)
         /\ Margin.awayTeam e = AwayTeam g /\ Margin.homeTeam e = HomeTeam g
         /\ Margin.awayScore e = AwayTeamScore g
         /\ Margin.homeScore e = HomeTeamScore g
         /\ Margin.margin e = 0).
Proof.
  intros Hin Hfinal Htie.
  assert (Hcompleted : In g (sportService.completedGames games)).
  { unfold sportService.completedGames. rewrite filter_In, status_is_spec. tauto. }
  split; [|split].
  - unfold sportService.upsets. rewrite filter_In. intros [_ Hu].
    apply upset_test_spec in Hu. destruct Hu as [[|] [_ Hs]]; simpl in Hs; lia.
  - destruct (in_split _ _ Hcompleted) as (before & after & Hsplit).
    exists before, after. split; [exact Hsplit|]. split; [|split].
    + rewrite totalPoints_sum. unfold sportService.completedGames in Hsplit.
      rewrite Hsplit. clear. induction before as [|x l IH]; simpl; lia.
    + cbn [Stats.completedGames sportService.calculateTournamentStats].
      rewrite Hsplit, length_app. simpl. lia.
    + intros t Ht. destruct (JSObject.inherited t) eqn:Hinh.
      { split; [now apply teamScores_inherited|].
        intros row Hrow Hteam. rewrite teamsWithAvg_listed in Hrow.
        apply (Permutation_in _ (Permutation_sym (sort_perm _ _))) in Hrow.
        unfold listed_rows in Hrow. apply in_map_iff in Hrow.
        destruct Hrow as (t' & <- & Ht'). cbn [TeamAvg.team team_row] in Hteam.
        subst t'. apply listed_teams_In, recorded_In in Ht'.
        destruct Ht' as [_ Hf]. congruence. }
      assert (Hrest : sportService.completedGames (before ++ after)
                      = (before ++ after)%list).
      { unfold sportService.completedGames. apply filter_all. intros x Hx.
        assert (Hx' : In x (sportService.completedGames games)).
        { rewrite Hsplit. apply in_app_or in Hx. apply in_or_app.
          destruct Hx; [now left | right; now right]. }
        unfold sportService.completedGames in Hx'. now apply filter_In in Hx'. }
      cbv zeta. rewrite (teamScores_or_zero (before ++ after) t Hinh), Hrest.
      cbn [Tally.points Tally.games].
      destruct (appearances_split before after g t) as [Hg Hp].
      assert (Hone : games_in g t >= 1).
      { unfold games_in.
        destruct Ht as [->| ->]; rewrite String.eqb_refl;
          [destruct (String.eqb (AwayTeam g) (HomeTeam g))
          |destruct (String.eqb (HomeTeam g) (AwayTeam g))]; lia. }
      pose proof (games_of_nonneg t (appearances (before ++ after))) as Hnn.
      assert (Hown : JSObject.get_own t (sportService.teamScores games)
                     = Some (Tally.mk
                               (points_of t (appearances (before ++ after))
                                + points_in g t)
                               (games_of t (appearances (before ++ after))
                                + games_in g t))).
      { unfold sportService.teamScores.
        rewrite fold_tally_apps, teamScores_lookup by exact Hinh.
        rewrite Hsplit, Hg, Hp.
        destruct (_ =? 0) eqn:E; [lia|reflexivity]. }
      split; [exact Hone|]. split; [exact Hown|].
      exists (team_row (appearances (sportService.completedGames games)) t).
      split.
      * rewrite teamsWithAvg_listed.
        apply (Permutation_in _ (sort_perm _ _)).
        unfold listed_rows. apply in_map. apply listed_teams_In, recorded_In.
        split; [|exact Hinh]. exists g. split; [exact Hcompleted|exact Ht].
      * unfold team_row. cbn [TeamAvg.team TeamAvg.totalPoints TeamAvg.games].
        rewrite Hsplit, Hg, Hp. repeat split.
  - exists (sportService.margin_entry g). split.
    + unfold sportService.marginOfVictory. now apply in_map.
    + unfold sportService.margin_entry, JS.Math_abs. simpl.
      rewrite Htie, Z.sub_diag. repeat split; reflexivity.
Qed.

(** The tied game of [tied_batch] satisfies the hypotheses of C5. *)
Lemma C5_tied_final_is_counted_witness :
  In (sample_game "Final" "A" "B" 1 16 70 70) tied_batch
  /\ ~ In (sample_game "Final" "A" "B" 1 16 70 70) (sportService.upsets tied_batch).
Proof.
  split; [now left|].
  exact (proj1
    (C5_tied_final_is_counted tied_batch (sample_game "Final" "A" "B" 1 16 70 70)
       (or_introl eq_refl) eq_refl eq_refl)).
Defined.

(** ** The refresh cycle run to completion (C9, C3) *)

Section Cycle.
Context `{Host}.

Lemma run_fetchNcaaGames (w : world) (s : store) :
  run w sportService.fetchNcaaGames s
  = (inl (fetched (provider w)), s, Requested :: fetch_log (provider w)).
Proof.
  unfold sportService.fetchNcaaGames, axios_get. simpl.
  destruct (provider w); reflexivity.
Qed.

(** A cycle that has a batch to work on. *)
Lemma run_updateTournamentData (w : world) (s : store) (games : list game) :
  batch_of (provider w) = Some games ->
  let d := controller.build_tournamentData games (clock w) in
  let blocks := canvasService.updatedBlocks d in
  run w controller.updateTournamentData s
  = (inl tt, CycleData d,
     (Logged "Fetching NCAA tournament data..." :: Requested
        :: fetch_log (provider w)
      ++ Published CANVAS_ID blocks
        :: publish_log d (canvas w CANVAS_ID blocks))%list).
Proof.
  intros Hbatch d blocks. subst blocks d. unfold controller.updateTournamentData.
  unfold sportService.fetchNcaaGames, axios_get,
    canvasService.updateCanvasContent, canvas_update.
  cbn [bind try_catch console_log console_error new_Date set_tournamentData run].
  destruct (provider w) as [[data| |body]|message];
    try discriminate Hbatch; injection Hbatch as <-;
    cbn [await bind try_catch console_error run fetch_log
         controller.filter_receiver];
    destruct (canvas w CANVAS_ID _) as [[]|failure];
    reflexivity.
Qed.

(** A cycle that was handed something else than an array. *)
Lemma run_updateTournamentData_aborted (w : world) (s : store) :
  batch_of (provider w) = None ->
  run w controller.updateTournamentData s
  = (inl tt, s, aborted_cycle (fetched (provider w))).
Proof.
  intros Hbatch. unfold controller.updateTournamentData,
    sportService.fetchNcaaGames, axios_get.
  cbn [bind try_catch console_log run].
  destruct (provider w) as [[data| |body]|message];
    try discriminate Hbatch; reflexivity.
Qed.

(** C9 (as amended).  The fetch operation never throws.  A rejected
    provider call is logged and answered with the mock data set, and the
    refresh cycle publishes the blocks rendered from that batch.  A call
    that resolves is handed on as it is, with nothing logged: an array
    becomes the batch of the cycle; any other value (a body that did not
    parse, [null], an object) makes the cycle fail at its first [filter],
    and the cycle logs that failure, leaves [tournamentData] as it was and
    publishes nothing. *)
Theorem C9_fetch_falls_back (w : world) (s : store) :
  run w sportService.fetchNcaaGames s
  = match provider w with
    | Rejected message =>
        (inl (JsonArray sportService.getMockTournamentData), s,
         [Requested; LoggedError ("Error fetching NCAA games: " ++ message)])
    | Resolved data => (inl data, s, [Requested])
    end
  /\ result_of (run w controller.updateTournamentData s) = inl tt
  /\ match provider w with
     | Rejected _ =>
         published (effects_of (run w controller.updateTournamentData s))
         = [ canvasService.updatedBlocks
               (controller.build_tournamentData
                  sportService.getMockTournamentData (clock w)) ]
     | Resolved (JsonArray games) =>
         published (effects_of (run w controller.updateTournamentData s))
         = [ canvasService.updatedBlocks
               (controller.build_tournamentData games (clock w)) ]
     | Resolved data =>
         run w controller.updateTournamentData s
         = (inl tt, s,
            [ Logged "Fetching NCAA tournament data..."; Requested;
              LoggedError ("Failed to update tournament data: "
                             ++ filter_error data) ])
     end.
Proof.
  assert (Hpub : forall games, batch_of (provider w) = Some games ->
            result_of (run w controller.updateTournamentData s) = inl tt
            /\ published (effects_of (run w controller.updateTournamentData s))
               = [ canvasService.updatedBlocks
                     (controller.build_tournamentData games (clock w)) ]).
  { intros games Hbatch. rewrite (run_updateTournamentData w s games Hbatch).
    split; [reflexivity|]. cbn [effects_of snd].
    destruct (provider w) as [[data| |body]|message]; cbn [fetch_log app published];
      destruct (canvas w CANVAS_ID _) as [[]|failure]; reflexivity. }
  split; [|split].
  - rewrite run_fetchNcaaGames. destruct (provider w); reflexivity.
  - destruct (batch_of (provider w)) as [games|] eqn:Hbatch.
    + exact (proj1 (Hpub games eq_refl)).
    + now rewrite run_updateTournamentData_aborted.
  - destruct (provider w) as [[data| |body]|message] eqn:Hp.
    + exact (proj2 (Hpub data eq_refl)).
    + rewrite run_updateTournamentData_aborted by (now rewrite Hp).
      now rewrite Hp.
    + rewrite run_updateTournamentData_aborted by (now rewrite Hp).
      now rewrite Hp.
    + exact (proj2 (Hpub _ eq_refl)).
Qed.

(** C3 (as amended).  A cycle that has built a snapshot assigns it to
    [tournamentData] before it calls the document store and never assigns
    again: whatever the outcome of the publish call, the cycle ends
    normally with the new snapshot as the current one, and a later upset
    query is answered from it; a failed publish is logged twice and nothing
    is restored.  (A cycle that was handed no array builds no snapshot and
    assigns nothing.) *)
Theorem C3_snapshot_committed_before_publish (w w' : world) (s : store) :
  match batch_of (provider w) with
  | Some games =>
      let d := controller.build_tournamentData games (clock w) in
      result_of (run w controller.updateTournamentData s) = inl tt
      /\ store_of (run w controller.updateTournamentData s) = CycleData d
      /\ hd_error (effects_of (run w' (controller.on_message upsets_query)
                                 (store_of (run w controller.updateTournamentData s))))
         = Some (Said ("There have been "
                         ++ show_nat (List.length (sportService.upsets games))
                         ++ " upsets in the tournament so far."))
      /\ (forall failure : string,
             canvas w CANVAS_ID (canvasService.updatedBlocks d) = Rejected failure ->
             exists before : list effect,
               effects_of (run w controller.updateTournamentData s)
               = (before
                  ++ [ Published CANVAS_ID (canvasService.updatedBlocks d);
                       LoggedError ("Error updating Canvas content: " ++ failure);
                       LoggedError ("Failed to update tournament data: " ++ failure) ])%list)
  | None =>
      result_of (run w controller.updateTournamentData s) = inl tt
      /\ store_of (run w controller.updateTournamentData s) = s
  end.
Proof.
  destruct (batch_of (provider w)) as [games|] eqn:Hbatch.
  2:{ now rewrite run_updateTournamentData_aborted. }
  intros d. rewrite (run_updateTournamentData w s games Hbatch). fold d.
  split; [reflexivity|]. split; [reflexivity|]. split.
  { cbn [store_of fst snd]. unfold controller.on_message, upsets_query.
    cbn [controller.channel_type controller.text].
    change (controller.toLowerCase "Any upsets?") with "any upsets?".
    change (negb (String.eqb "im" "im")) with false.
    cbv zeta.
    change (controller.includes "any upsets?" "current") with false.
    change (controller.includes "any upsets?" "in progress") with false.
    change (controller.includes "any upsets?" "close") with false.
    change (controller.includes "any upsets?" "upset") with true.
    cbn [orb]. unfold say, get_tournamentData.
    cbn [bind try_catch run effects_of snd controller.read_upsets].
    destruct (slack w' _) as [[]|failure]; [reflexivity|].
    unfold console_error_object.
    cbn [await bind try_catch run].
    destruct (slack w' _) as [[]|failure']; reflexivity. }
  intros failure Hfail. cbn [effects_of snd]. rewrite Hfail.
  exists (Logged "Fetching NCAA tournament data..." :: Requested
            :: fetch_log (provider w)).
  cbn [publish_log]. rewrite <- !app_comm_cons. reflexivity.
Qed.

End Cycle.

(** A world whose provider is down: the cycle works on the mock data. *)
Lemma C9_fetch_falls_back_witness :
  provider failing_provider_world = Rejected "Network Error"
  /\ result_of (run failing_provider_world
                  (@controller.updateTournamentData demo_host) InitialData)
     = inl tt.
Proof.
  split; [reflexivity|].
  exact (proj1 (proj2
    (@C9_fetch_falls_back demo_host failing_provider_world InitialData))).
Defined.

(** C9, as stated, fails for a body that does not parse: the call
    resolves, the text is returned without a log line and without the mock
    data, and the cycle has no batch: it fails at its first [filter], keeps
    the data it had and publishes nothing. *)
Lemma C9_counterexample :
  provider unparsed_body_world = Resolved (JsonOther "<html>Bad Gateway</html>")
  /\ run unparsed_body_world sportService.fetchNcaaGames InitialData
     = (inl (JsonOther "<html>Bad Gateway</html>"), InitialData, [Requested])
  /\ run unparsed_body_world (@controller.updateTournamentData demo_host)
         InitialData
     = (inl tt, InitialData,
        [ Logged "Fetching NCAA tournament data..."; Requested;
          LoggedError "Failed to update tournament data: gameData.filter is not a function" ])
  /\ published (effects_of (run unparsed_body_world
                              (@controller.updateTournamentData demo_host)
                              InitialData)) = [].
Proof. repeat split; vm_compute; reflexivity. Qed.

(** C3, as stated, fails: the publish call of the first cycle is rejected,
    and the upset query, answered with 0 from the prior (initial) data,
    is answered with 1 afterwards. *)
Lemma C3_counterexample :
  canvas failing_canvas_world (@CANVAS_ID demo_host)
    (@canvasService.updatedBlocks demo_host
       (@controller.build_tournamentData demo_host
          sportService.getMockTournamentData 20250320150000))
  = Rejected "canvas_not_found"
  /\ store_of (run failing_canvas_world
                 (@controller.updateTournamentData demo_host) InitialData)
     = CycleData (@controller.build_tournamentData demo_host
                    sportService.getMockTournamentData 20250320150000)
  /\ effects_of (run failing_canvas_world
                   (@controller.on_message demo_host upsets_query) InitialData)
     = [Said "There have been 0 upsets in the tournament so far."]
  /\ effects_of (run failing_canvas_world
                   (@controller.on_message demo_host upsets_query)
                   (store_of (run failing_canvas_world
                                (@controller.updateTournamentData demo_host)
                                InitialData)))
     = [Said "There have been 1 upsets in the tournament so far."].
Proof. repeat split; vm_compute; reflexivity. Qed.

(** ** Rendering (C4, C10) *)

Section Rendering.
Context `{Host}.

Lemma run_updateCanvasContent (w : world) (s : store) (id : string) (data : Data.t) :
  published (effects_of (run w (canvasService.updateCanvasContent id data) s))
  = [canvasService.updatedBlocks data].
Proof.
  unfold canvasService.updateCanvasContent, canvas_update. simpl.
  destruct (canvas w id _) as [[]|failure]; reflexivity.
Qed.

Lemma run_updateCanvasContent2 (w : world) (s : store) (id : string) (data : Data.t) :
  published (effects_of (run w (canvasService2.updateCanvasContent id data) s))
  = [canvasService2.blocks (clock w) data].
Proof.
  unfold canvasService2.updateCanvasContent, canvas_update, new_Date. simpl.
  destruct (canvas w id _) as [[]|failure]; reflexivity.
Qed.

(** C4.  The renderer of [services/canvasService.js] publishes the same
    blocks for the same snapshot in any two worlds; the second copy
    publishes blocks that agree up to the footer, and the footers differ
    as soon as the two clock readings print differently. *)
Theorem C4_second_copy_footer_follows_clock
  (w1 w2 : world) (s1 s2 : store) (id : string) (data : Data.t) :
  toLocaleString_default (clock w1) <> toLocaleString_default (clock w2) ->
  published (effects_of (run w1 (canvasService.updateCanvasContent id data) s1))
  = published (effects_of (run w2 (canvasService.updateCanvasContent id data) s2))
  /\ published (effects_of (run w1 (canvasService2.updateCanvasContent id data) s1))
     <> published (effects_of (run w2 (canvasService2.updateCanvasContent id data) s2))
  /\ removelast (canvasService2.blocks (clock w1) data)
     = removelast (canvasService2.blocks (clock w2) data)
  /\ last (canvasService2.blocks (clock w1) data) DividerBlock
     = ContextBlock ["Last updated: " ++ toLocaleString_default (clock w1)].
Proof.
  intros Hclock. rewrite !run_updateCanvasContent, !run_updateCanvasContent2.
  split; [reflexivity|]. split; [|split; reflexivity].
  intros Heq. apply Hclock.
  unfold canvasService2.blocks, page in Heq.
  injection Heq as Heq.
  assert (Hs : forall a b : string, "Last updated: " ++ a = "Last updated: " ++ b -> a = b).
  { intros a b E. simpl in E. now injection E. }
  now apply Hs.
Qed.

(** C10.  In [services/canvasService.js], when the close subset is
    non-empty the alert section and a divider stand
    directly after the title and its divider, and the fifteen fixed blocks
    of the page keep their order around them; otherwise the blocks are
    exactly the fixed page.  The second copy renders the fixed page for
    every snapshot, with no alert section whatever the close subset is. *)
Theorem C10_alert_section (data : Data.t) (now : Z) :
  (exists current completed upcoming statistics footer : string,
      let fixed := page canvasService.glyph current completed upcoming
                     statistics footer in
      match Data.closeGames data with
      | Some (g :: l) =>
          canvasService.updatedBlocks data
          = (firstn 2 fixed
             ++ [ SectionBlock ("🔥 *CLOSE GAME ALERT* 🔥" ++ nl
                                  ++ canvasService.game_lines (g :: l));
                  DividerBlock ]
             ++ skipn 2 fixed)%list
      | _ => canvasService.updatedBlocks data = fixed
      end)
  /\ headings (canvasService.updatedBlocks data)
     = [ g_title canvasService.glyph; "Games In Progress";
         "Recently Completed Games"; "Upcoming Games"; "Tournament Statistics" ]
  /\ (exists current completed upcoming statistics footer : string,
         canvasService2.blocks now data
         = page canvasService2.glyph current completed upcoming statistics footer).
Proof.
  split; [|split].
  - unfold canvasService.updatedBlocks.
    do 5 eexists. cbv zeta.
    destruct (Data.closeGames data) as [[|g l]|]; reflexivity.
  - unfold canvasService.updatedBlocks.
    destruct (Data.closeGames data) as [[|g l]|]; reflexivity.
  - unfold canvasService2.blocks. do 5 eexists. reflexivity.
Qed.

End Rendering.

(** Two clock readings that print differently: the hypothesis of C4. *)
Lemma C4_second_copy_footer_follows_clock_witness :
  @toLocaleString_default demo_host (clock (world_at 1000))
  <> @toLocaleString_default demo_host (clock (world_at 2000))
  /\ last (@canvasService2.blocks demo_host (clock (world_at 1000)) mock_snapshot)
          DividerBlock
     = ContextBlock ["Last updated: 1000"].
Proof.
  assert (Hclock : @toLocaleString_default demo_host (clock (world_at 1000))
                   <> @toLocaleString_default demo_host (clock (world_at 2000)))
    by (vm_compute; discriminate).
  split; [exact Hclock|].
  exact (proj2 (proj2 (proj2
    (@C4_second_copy_footer_follows_clock demo_host (world_at 1000) (world_at 2000)
       InitialData InitialData "F0TRACKER" mock_snapshot Hclock)))).
Defined.

(** The second copy on the mock snapshot: the close subset is not empty,
    and the block after the title and its divider is the games-in-progress
    heading. *)
Example second_copy_has_no_alert :
  non_empty (Data.closeGames mock_snapshot) = true
  /\ List.length (@canvasService2.blocks demo_host 0 mock_snapshot) = 15%nat
  /\ nth_error (@canvasService2.blocks demo_host 0 mock_snapshot) 2
     = Some (HeaderBlock "Games In Progress")
  /\ List.length (@canvasService.updatedBlocks demo_host mock_snapshot) = 17%nat.
Proof. repeat split; vm_compute; reflexivity. Qed.

(** ** Overlapping cycles (C8) *)

Lemma replace_nth_last {A} (l : list A) (x y : A) :
  replace_nth (List.length l) x (l ++ [y]) = (l ++ [x])%list.
Proof. induction l as [|z l IH]; simpl; [reflexivity | now rewrite IH]. Qed.

Lemma nth_error_last {A} (l : list A) (y : A) :
  nth_error (l ++ [y]) (List.length l) = Some y.
Proof. induction l as [|z l IH]; simpl; [reflexivity | exact IH]. Qed.

Lemma firstn_all_app {A} (l l' : list A) : firstn (List.length l) (l ++ l') = l.
Proof. induction l as [|z l IH]; simpl; [reflexivity | now rewrite IH]. Qed.

Section Overlap.
Context `{Host}.

Lemma publishing_snoc (s : store) (l : list (prog unit)) (log : list effect)
  (id : string) (blocks : list block) (k : outcome unit -> prog unit) :
  publishing (mkConfig s (l ++ [CanvasUpdate id blocks k]) log)
  = S (List.length (filter is_publishing l)).
Proof.
  unfold publishing. simpl. rewrite filter_app, length_app. simpl. lia.
Qed.

Lemma publishing_idle (s : store) (l : list (prog unit)) (log : list effect)
  (p : prog unit) :
  is_publishing p = false ->
  publishing (mkConfig s (l ++ [p]) log) = List.length (filter is_publishing l).
Proof.
  intros Hp. unfold publishing. simpl. rewrite filter_app, length_app. simpl.
  rewrite Hp. simpl. lia.
Qed.

Lemma cron_starts_cycle :
  exists k : outcome response_data -> prog unit,
    reaches_publish k
    /\ skips_publish k
    /\ forall (c : config) (t : Z),
         exists log' : list effect,
           step c (CronTick t)
           = mkConfig (tournamentData c) (pool c ++ [AxiosGet k]) log'.
Proof.
  eexists. split; [|split].
  3:{ intros c t. eexists.
      unfold step, spawn, controller.scheduled_update,
        controller.updateTournamentData, sportService.fetchNcaaGames, axios_get.
      cbn [bind try_catch console_log settle]. reflexivity. }
  - intros t r games s log Hbatch.
    destruct r as [[data| |body]|message];
      try discriminate Hbatch; injection Hbatch as <-;
      cbn [await bind try_catch console_error new_Date set_tournamentData
           canvasService.updateCanvasContent canvas_update settle
           controller.filter_receiver];
      do 2 eexists; reflexivity.
  - intros t r s log Hbatch.
    destruct r as [[data| |body]|message]; try discriminate Hbatch;
      cbn [await bind try_catch console_error settle controller.filter_receiver];
      do 2 eexists; split; reflexivity.
Qed.

Lemma refresh_starts_cycle (m : controller.message) :
  asks_refresh m = true ->
  exists (k1 : outcome unit -> prog unit) (k : outcome response_data -> prog unit),
    reaches_publish k
    /\ skips_publish k
    /\ (forall (t : Z) (s : store) (log : list effect),
           exists log' : list effect,
             settle t (k1 (Resolved tt)) s log = (AxiosGet k, s, log'))
    /\ forall (c : config) (t : Z),
         exists log' : list effect,
           step c (Incoming t m)
           = mkConfig (tournamentData c)
               (pool c ++ [Say "Fetching the latest tournament data..." k1]) log'.
Proof.
  intros Hm. unfold asks_refresh in Hm.
  destruct (controller.text m) as [raw|] eqn:Hraw; [|discriminate Hm].
  cbv zeta in Hm.
  rewrite !andb_true_iff, !negb_true_iff in Hm.
  destruct Hm as ((((Him & Hcur) & Hclose) & Hupset) & Hrefresh).
  do 2 eexists. split; [|split; [|split]].
  4:{ intros c t. eexists.
      unfold step, spawn, controller.on_message.
      rewrite Hraw. cbv zeta.
      rewrite Him, Hcur, Hclose, Hupset, Hrefresh.
      unfold say. cbn [negb bind try_catch settle]. reflexivity. }
  3:{ intros t s log. eexists.
      unfold controller.updateTournamentData, sportService.fetchNcaaGames,
        axios_get.
      cbn [await bind try_catch console_log settle]. reflexivity. }
  - intros t r games s log Hbatch.
    destruct r as [[data| |body]|message];
      try discriminate Hbatch; injection Hbatch as <-;
      cbn [await bind try_catch console_error new_Date set_tournamentData
           canvasService.updateCanvasContent canvas_update settle
           controller.filter_receiver];
      do 2 eexists; reflexivity.
  - intros t r s log Hbatch.
    destruct r as [[data| |body]|message]; try discriminate Hbatch;
      cbn [await bind try_catch console_error settle controller.filter_receiver];
      do 2 eexists; split; reflexivity.
Qed.

(** The provider's answer to a cycle that waits at the end of the pool. *)
Lemma provider_answers (s : store) (l : list (prog unit)) (log : list effect)
  (k : outcome response_data -> prog unit) (t : Z) (r : outcome response_data) :
  reaches_publish k ->
  skips_publish k ->
  let c' := step (mkConfig s (l ++ [AxiosGet k]) log)
                 (Settled t (List.length l) (FromProvider r)) in
  List.length (pool c') = S (List.length l)
  /\ firstn (List.length l) (pool c') = l
  /\ cycle_outcome r t (List.length (filter is_publishing l)) s
       (publishing c') (tournamentData c').
Proof.
  intros Hk Hskip c'. subst c'. unfold step. cbn [pool tournamentData journal].
  rewrite nth_error_last. cbn [resume]. unfold cycle_outcome.
  destruct (batch_of r) as [games|] eqn:Hbatch.
  - destruct (Hk t r games s log Hbatch) as (k' & log' & Hsettle). rewrite Hsettle.
    rewrite replace_nth_last. cbn [pool tournamentData].
    split; [rewrite length_app; simpl; lia|].
    split; [apply firstn_all_app|].
    split; [apply publishing_snoc | reflexivity].
  - destruct (Hskip t r s log Hbatch) as (p & log' & Hsettle & Hidle).
    rewrite Hsettle. rewrite replace_nth_last. cbn [pool tournamentData].
    split; [rewrite length_app; simpl; lia|].
    split; [apply firstn_all_app|].
    split; [now apply publishing_idle | reflexivity].
Qed.

(** A scheduled trigger followed by the provider's answer to the cycle it
    started. *)
Lemma scheduled_round (c : config) (t1 t2 : Z) (r : outcome response_data) :
  let c2 := step (step c (CronTick t1))
                 (Settled t2 (List.length (pool c)) (FromProvider r)) in
  List.length (pool c2) = S (List.length (pool c))
  /\ firstn (List.length (pool c)) (pool c2) = pool c
  /\ cycle_outcome r t2 (publishing c) (tournamentData c)
       (publishing c2) (tournamentData c2).
Proof.
  destruct cron_starts_cycle as (k & Hk & Hskip & Hstart).
  destruct (Hstart c t1) as (log' & ->).
  apply provider_answers; assumption.
Qed.

(** An on-demand refresh: the message, the acknowledgement sent, the
    provider's answer. *)
Lemma refresh_round (c : config) (t1 t2 t3 : Z) (m : controller.message)
  (r : outcome response_data) :
  asks_refresh m = true ->
  let n := List.length (pool c) in
  let c3 := step (step (step c (Incoming t1 m))
                       (Settled t2 n (FromSlack (Resolved tt))))
                 (Settled t3 n (FromProvider r)) in
  firstn n (pool c3) = pool c
  /\ cycle_outcome r t3 (publishing c) (tournamentData c)
       (publishing c3) (tournamentData c3).
Proof.
  intros Hm n.
  destruct (refresh_starts_cycle m Hm) as (k1 & k & Hk & Hskip & Hack & Hstart).
  destruct (Hstart c t1) as (log1 & ->).
  unfold step at 2. cbn [pool tournamentData journal]. subst n.
  rewrite nth_error_last. cbn [resume].
  destruct (Hack t2 (tournamentData c) log1) as (log2 & ->).
  rewrite replace_nth_last.
  apply provider_answers; assumption.
Qed.

Lemma overlapping_publishes (n : nat) (c : config) :
  publishing (exec c (overlapping (List.length (pool c)) n)) = (publishing c + n)%nat.
Proof.
  revert c. induction n as [|n IH]; intros c; [unfold exec; simpl; lia|].
  cbn [overlapping]. unfold exec. cbn [fold_left].
  pose proof (scheduled_round c 0 0 (Rejected "unavailable")) as Hround.
  cbv zeta in Hround.
  set (c2 := step (step c (CronTick 0))
                  (Settled 0 (List.length (pool c))
                     (FromProvider (Rejected "unavailable")))) in *.
  destruct Hround as (Hlen & _ & Hpub & _).
  rewrite <- Hlen. change (fold_left step ?l c2) with (exec c2 l).
  rewrite IH, Hpub. lia.
Qed.

(** C8 (as amended).  The controller has no in-flight guard.  A scheduled
    trigger and an on-demand refresh each start a cycle at once, whatever
    is in flight, and leave the handlers in flight as they are; when the
    provider answers with a batch (an array, or a rejection that makes the
    fetch fall back on the mock data), the cycle assigns its snapshot and
    issues its publish call next to the publish calls still pending.  (A
    cycle that is handed no array assigns nothing and issues no publish
    call.)  After [n] overlapping triggers [n] publish calls are
    pending. *)
Theorem C8_cycles_overlap (c : config) (t1 t2 t3 : Z) (m : controller.message)
  (r : outcome response_data) (n : nat) :
  asks_refresh m = true ->
  let k := List.length (pool c) in
  let scheduled := step (step c (CronTick t1)) (Settled t2 k (FromProvider r)) in
  let requested :=
    step (step (step c (Incoming t1 m)) (Settled t2 k (FromSlack (Resolved tt))))
         (Settled t3 k (FromProvider r)) in
  (firstn k (pool scheduled) = pool c
   /\ match batch_of r with
      | Some games =>
          publishing scheduled = S (publishing c)
          /\ tournamentData scheduled
             = CycleData (controller.build_tournamentData games t2)
      | None =>
          publishing scheduled = publishing c
          /\ tournamentData scheduled = tournamentData c
      end)
  /\ (firstn k (pool requested) = pool c
      /\ match batch_of r with
         | Some games =>
             publishing requested = S (publishing c)
             /\ tournamentData requested
                = CycleData (controller.build_tournamentData games t3)
         | None =>
             publishing requested = publishing c
             /\ tournamentData requested = tournamentData c
         end)
  /\ publishing (exec startup (overlapping 0 n)) = n.
Proof.
  intros Hm k scheduled requested. split; [|split].
  - destruct (scheduled_round c t1 t2 r) as (_ & Hpool & Hout).
    split; [exact Hpool | exact Hout].
  - apply (refresh_round c t1 t2 t3 m r Hm).
  - apply (overlapping_publishes n startup).
Qed.

End Overlap.

(** C8, as stated, fails: two publish calls are pending at once. *)
Lemma C8_counterexample :
  @publishing (@exec demo_host startup two_triggers) = 2%nat
  /\ published (journal (@exec demo_host startup two_triggers))
     = [ @canvasService.updatedBlocks demo_host
           (@controller.build_tournamentData demo_host
              sportService.getMockTournamentData 3);
         @canvasService.updatedBlocks demo_host
           (@controller.build_tournamentData demo_host
              sportService.getMockTournamentData 4) ].
Proof. split; vm_compute; reflexivity. Qed.

(** A refresh request satisfies the hypothesis of C8; three overlapping
    triggers leave three publish calls pending. *)
Lemma C8_cycles_overlap_witness :
  asks_refresh refresh_request = true
  /\ @publishing (@exec demo_host startup (overlapping 0 3)) = 3%nat.
Proof.
  split; [reflexivity|].
  exact (proj2 (proj2
    (@C8_cycles_overlap demo_host startup 0 1 2 refresh_request
       (Rejected "unavailable") 3 eq_refl))).
Defined.

(* ================================================================== *)
(** * Further properties of the statistics *)

Lemma status_exclusive (g : game) :
  (if status_is "Final" g then 1 else 0)
  + (if status_is "InProgress" g then 1 else 0)
  + (if status_is "Scheduled" g then 1 else 0)
  + (if other_status g then 1 else 0) = 1.
Proof.
  unfold other_status, status_is.
  destruct (String.eqb_spec (Status g) "Final") as [->|H1]; [reflexivity|].
  destruct (String.eqb_spec (Status g) "InProgress") as [->|H2]; [reflexivity|].
  destruct (String.eqb_spec (Status g) "Scheduled") as [E|H3]; reflexivity.
Qed.

Lemma filter_length_Z {A} (f : A -> bool) (x : A) (l : list A) :
  Z.of_nat (List.length (filter f (x :: l)))
  = (if f x then 1 else 0) + Z.of_nat (List.length (filter f l)).
Proof. simpl. destruct (f x); simpl List.length; lia. Qed.

(** X1.  The three lifecycle counts of the statistics are counts of
    disjoint parts of the batch: together with the records of any other
    status they add up to [totalGames]; the upset count is at most the
    completed count; and the counts equal the lengths of the subsets the
    controller puts into the snapshot. *)
Theorem stats_counts_partition `{Host} (games : list game) (now : Z) :
  let stats := sportService.calculateTournamentStats games in
  let d := controller.build_tournamentData games now in
  (Stats.totalGames stats
   = Stats.completedGames stats + Stats.inProgressGames stats
     + Stats.upcomingGames stats + List.length (filter other_status games))%nat
  /\ (Stats.upsets stats <= Stats.completedGames stats)%nat
  /\ Data.completedGames d
     = Some (filter (status_is "Final") games)
  /\ option_map (@List.length game) (Data.completedGames d)
     = Some (Stats.completedGames stats)
  /\ option_map (@List.length game) (Data.currentGames d)
     = Some (Stats.inProgressGames stats)
  /\ option_map (@List.length game) (Data.upcomingGames d)
     = Some (Stats.upcomingGames stats)
  /\ option_map (@List.length game) (Data.upsets d) = Some (Stats.upsets stats).
Proof.
  intros stats d. split; [|split; [|repeat split]].
  - subst stats. clear d. cbn [Stats.totalGames Stats.completedGames Stats.inProgressGames
      Stats.upcomingGames sportService.calculateTournamentStats].
    unfold sportService.completedGames, sportService.inProgressGames,
      sportService.upcomingGames.
    apply Nat2Z.inj. rewrite !Nat2Z.inj_add.
    induction games as [|g l IH]; [reflexivity|].
    rewrite !filter_length_Z. pose proof (status_exclusive g).
    cbn [List.length]. lia.
  - subst stats. cbn [Stats.upsets Stats.completedGames
      sportService.calculateTournamentStats].
    unfold sportService.upsets. apply filter_length_le.
Qed.

(** X2.  [closestGames] has five entries, or as many as there are [Final]
    records when these are fewer. *)
Theorem closestGames_length (games : list game) :
  List.length (Stats.closestGames (sportService.calculateTournamentStats games))
  = Nat.min 5 (List.length (filter (status_is "Final") games)).
Proof.
  cbn [Stats.closestGames sportService.calculateTournamentStats].
  unfold sportService.closestGames, JS.slice0, sportService.marginOfVictory,
    sportService.completedGames.
  now rewrite length_firstn, sort_length, length_map.
Qed.

(** *** Every batch: what the tally holds *)

Lemma tally_app_keys (o : JSObject.t Tally.t) (a : string * Z) :
  JSObject.keys (tally_app o a) = JSObject.keys o
  \/ (JSObject.keys (tally_app o a) = (JSObject.keys o ++ [fst a])%list
      /\ ~ In (fst a) (JSObject.keys o) /\ JSObject.inherited (fst a) = false).
Proof.
  unfold tally_app, sportService.credit. rewrite update_keys.
  unfold sportService.init_if_missing.
  destruct (JSObject.get_own (fst a) o) eqn:E; [now left|].
  destruct (JSObject.inherited (fst a)) eqn:Ei; [now left|]. right.
  split; [|split; [now apply get_own_In | reflexivity]].
  unfold JSObject.define, JSObject.keys. now rewrite map_app.
Qed.

Lemma fold_tally_keys (apps : list (string * Z)) (o : JSObject.t Tally.t) :
  NoDup (JSObject.keys o) ->
  Forall (fun k => JSObject.inherited k = false) (JSObject.keys o) ->
  NoDup (JSObject.keys (fold_left tally_app apps o))
  /\ Forall (fun k => JSObject.inherited k = false)
            (JSObject.keys (fold_left tally_app apps o)).
Proof.
  revert o. induction apps as [|a apps IH]; intros o Hnd Hinh; [now split|].
  simpl. destruct (tally_app_keys o a) as [E|(E & Hnin & Hi)];
    apply IH; rewrite E; try assumption.
  - apply NoDup_app; [assumption | repeat constructor; simpl; tauto |].
    intros x Hx [<-|[]]. contradiction.
  - apply Forall_app. split; [assumption|]. now repeat constructor.
Qed.

Lemma get_own_of_In (k : string) (v : Tally.t) (o : JSObject.t Tally.t) :
  NoDup (JSObject.keys o) -> In (k, v) o -> JSObject.get_own k o = Some v.
Proof.
  induction o as [|[k' v'] o IH]; simpl; [tauto|]. intros Hnd [E|Hin].
  - injection E as -> ->. now rewrite String.eqb_refl.
  - apply NoDup_cons_iff in Hnd. destruct Hnd as [Hnin Hnd].
    destruct (String.eqb_spec k k') as [->|_]; [|now apply IH].
    exfalso. apply Hnin. unfold JSObject.keys. apply in_map_iff.
    now exists (k', v).
Qed.

(** X3.  Reading the tally of any batch: a name every object inherits is
    never an own key; any other team has no slot when it played no
    completed game, and otherwise a slot with exactly the points it scored
    and the games it played, home and away. *)
Theorem teamScores_get (games : list game) (t : string) :
  let apps := appearances (filter (status_is "Final") games) in
  JSObject.get_own t (sportService.teamScores games)
  = if JSObject.inherited t || (games_of t apps =? 0) then None
    else Some (Tally.mk (points_of t apps) (games_of t apps)).
Proof.
  intros apps. unfold sportService.teamScores, sportService.completedGames.
  rewrite fold_tally_apps. fold apps.
  destruct (JSObject.inherited t) eqn:Ei; simpl.
  - apply get_own_In. intros Hin.
    destruct (fold_tally_keys apps [] (NoDup_nil _) (Forall_nil _)) as [_ Hall].
    rewrite Forall_forall in Hall. apply Hall in Hin. congruence.
  - now apply teamScores_lookup.
Qed.

Lemma entries_perm {V} (o : JSObject.t V) : Permutation (JSObject.entries o) o.
Proof.
  unfold JSObject.entries.
  rewrite <- (filter_split_perm (fun kv => JSObject.is_index (fst kv)) o) at 3.
  apply Permutation_app_tail. symmetry. apply sort_perm.
Qed.

Lemma firstn_incl {A} (n : nat) (l : list A) (x : A) : In x (firstn n l) -> In x l.
Proof.
  intros Hin. rewrite <- (firstn_skipn n l). apply in_or_app. now left.
Qed.

Lemma firstn_NoDup {A} (n : nat) (l : list A) : NoDup l -> NoDup (firstn n l).
Proof.
  intros Hnd. revert n. induction Hnd as [|x l Hnin Hnd IH]; intros [|n]; simpl;
    try constructor; auto.
  intros Hin. apply Hnin. now apply firstn_incl in Hin.
Qed.

Lemma map_filter_NoDup {V K} (key : V -> K) (keep : V -> bool) (rows : list V)
  (Hnd : NoDup (map key rows)) : NoDup (map key (filter keep rows)).
Proof.
  induction rows as [|r rows IH]; simpl in *; [exact Hnd|].
  apply NoDup_cons_iff in Hnd. destruct Hnd as [Hnin Hnd].
  destruct (keep r); simpl; [|now apply IH]. constructor; [|now apply IH].
  intros Hin. apply Hnin. apply in_map_iff in Hin.
  destruct Hin as (y & Hy & Hin). apply filter_In in Hin.
  apply in_map_iff. exists y. tauto.
Qed.

Lemma teamScores_keys (games : list game) :
  NoDup (JSObject.keys (sportService.teamScores games)).
Proof.
  unfold sportService.teamScores. rewrite fold_tally_apps.
  apply fold_tally_keys; constructor.
Qed.

(** The list handed to the sort, for any batch. *)
Lemma teamsWithAvg_perm (games : list game) :
  Permutation (sportService.teamsWithAvg games)
    (filter (fun team => TeamAvg.games team >? 0)
       (map sportService.team_entry
          (JSObject.entries (sportService.teamScores games)))).
Proof. unfold sportService.teamsWithAvg. symmetry. apply sort_perm. Qed.

(** X4.  For every batch, whatever the team names: no team is listed
    twice in [topScoringTeams], and every row listed belongs to a team
    that played a completed game, with exactly the points it scored, the
    games it played and their quotient rounded to a tenth. *)
Theorem topScoringTeams_rows_sound (games : list game) :
  let finals := filter (status_is "Final") games in
  let apps := appearances finals in
  let top := Stats.topScoringTeams (sportService.calculateTournamentStats games) in
  NoDup (map TeamAvg.team top)
  /\ Forall (fun r =>
               (exists g, In g finals
                          /\ (TeamAvg.team r = AwayTeam g
                              \/ TeamAvg.team r = HomeTeam g))
               /\ TeamAvg.totalPoints r = points_of (TeamAvg.team r) apps
               /\ TeamAvg.games r = games_of (TeamAvg.team r) apps
               /\ TeamAvg.games r >= 1
               /\ TeamAvg.avgPoints r
                  = sportService.round1 (TeamAvg.totalPoints r) (TeamAvg.games r))
            top.
Proof.
  intros finals apps top.
  assert (Htop : top = firstn 5 (sportService.teamsWithAvg games)) by reflexivity.
  split.
  - rewrite Htop, <- firstn_map. apply firstn_NoDup.
    apply (Permutation_NoDup
             (Permutation_map TeamAvg.team (Permutation_sym (teamsWithAvg_perm games)))).
    apply map_filter_NoDup. rewrite map_map.
    assert (Hfst : forall kv, TeamAvg.team (sportService.team_entry kv) = fst kv)
      by (intros [k v]; reflexivity).
    rewrite (map_ext _ _ Hfst).
    apply (Permutation_NoDup
             (Permutation_map fst (Permutation_sym (entries_perm _)))).
    apply teamScores_keys.
  - apply Forall_forall. intros r Hr. rewrite Htop in Hr.
    apply firstn_incl in Hr.
    apply (Permutation_in _ (teamsWithAvg_perm games)) in Hr.
    apply filter_In in Hr. destruct Hr as [Hr _].
    apply in_map_iff in Hr. destruct Hr as ([k v] & <- & Hkv).
    apply (Permutation_in _ (entries_perm _)) in Hkv.
    assert (Hkey : In k (JSObject.keys (sportService.teamScores games)))
      by (apply in_map_iff; now exists (k, v)).
    apply (get_own_of_In _ _ _ (teamScores_keys games)) in Hkv.
    unfold sportService.teamScores, sportService.completedGames in Hkv, Hkey.
    rewrite fold_tally_apps in Hkv, Hkey. fold finals in Hkv, Hkey.
    fold apps in Hkv, Hkey.
    destruct (fold_tally_keys apps [] (NoDup_nil _) (Forall_nil _)) as [_ Hall].
    rewrite Forall_forall in Hall. specialize (Hall k Hkey).
    pose proof (teamScores_lookup k apps Hall) as Hget. rewrite Hkv in Hget.
    destruct (games_of k apps =? 0) eqn:E; [discriminate|].
    injection Hget as ->. simpl. rewrite E.
    assert (Hmet : In k (map fst apps)).
    { destruct (in_dec string_dec k (map fst apps)) as [Hin|Hnin]; [exact Hin|].
      destruct (points_of_absent k apps Hnin) as [_ Hz]. lia. }
    pose proof (games_of_present k apps Hmet).
    repeat split; try assumption; try reflexivity.
    now apply appearances_names.
Qed.

Lemma sum_totalPoints_perm (l l' : list TeamAvg.t) :
  Permutation l l' ->
  sum_totalPoints l = sum_totalPoints l' /\ sum_games l = sum_games l'.
Proof.
  induction 1 as [|x l l' Hp [IH1 IH2]|x y l|l l' l'' _ [IH1 IH2] _ [IH3 IH4]];
    simpl; split; lia.
Qed.

Lemma sum_rows (apps all : list (string * Z)) (ts : list string) :
  sum_totalPoints (map (fun t => TeamAvg.mk t (sportService.round1 (points_of t all) (games_of t all))
                                   (points_of t apps) (games_of t apps)) ts)
  = fold_right (fun t acc => points_of t apps + acc) 0 ts
  /\ sum_games (map (fun t => TeamAvg.mk t (sportService.round1 (points_of t all) (games_of t all))
                                (points_of t apps) (games_of t apps)) ts)
     = fold_right (fun t acc => games_of t apps + acc) 0 ts.
Proof. induction ts as [|t ts [IH1 IH2]]; simpl; split; lia. Qed.

Lemma sum_indicator (k : string) (s : Z) (ts : list string) :
  NoDup ts ->
  fold_right (fun t acc => (if String.eqb t k then s else 0) + acc) 0 ts
  = if in_dec string_dec k ts then s else 0.
Proof.
  induction 1 as [|x ts Hnin Hnd IH]; simpl; [reflexivity|]. rewrite IH.
  destruct (String.eqb_spec x k) as [->|Hne].
  - destruct (string_dec k k); [|congruence].
    destruct (in_dec string_dec k ts); [contradiction|lia].
  - destruct (string_dec x k); [congruence|].
    destruct (in_dec string_dec k ts); lia.
Qed.

Lemma sum_over_teams (apps : list (string * Z)) (ts : list string) :
  NoDup ts -> incl (map fst apps) ts ->
  fold_right (fun t acc => points_of t apps + acc) 0 ts
  = fold_right (fun a acc => snd a + acc) 0 apps
  /\ fold_right (fun t acc => games_of t apps + acc) 0 ts
     = Z.of_nat (List.length apps).
Proof.
  intros Hnd. induction apps as [|[k s] apps IH]; intros Hincl.
  - simpl. clear. induction ts as [|t ts [IH1 IH2]]; simpl; split; lia.
  - assert (Hk : In k ts) by (apply Hincl; now left).
    destruct IH as [IH1 IH2]; [intros x Hx; apply Hincl; now right|].
    assert (Hsplit : forall (f g : string -> Z),
               fold_right (fun t acc => (f t + g t) + acc) 0 ts
               = fold_right (fun t acc => f t + acc) 0 ts
                 + fold_right (fun t acc => g t + acc) 0 ts).
    { intros f g. clear. induction ts as [|t ts IHt]; simpl; lia. }
    cbn [points_of games_of fold_right snd List.length].
    rewrite (Hsplit (fun t => if String.eqb t k then s else 0)
                    (fun t => points_of t apps)).
    rewrite (Hsplit (fun t => if String.eqb t k then 1 else 0)
                    (fun t => games_of t apps)).
    rewrite !sum_indicator, IH1, IH2 by exact Hnd.
    destruct (in_dec string_dec k ts); [split; lia | contradiction].
Qed.

Lemma appearances_total (l : list game) :
  fold_right (fun a acc => snd a + acc) 0 (appearances l) = sum_scores l
  /\ List.length (appearances l) = (2 * List.length l)%nat.
Proof. induction l as [|g l [IH1 IH2]]; simpl; split; lia. Qed.

(** X5.  With ordinary team names every point and every appearance of
    the completed games is credited to exactly one team: over the team
    rows that [topScoringTeams] is cut from, the points add up to the
    total that [avgPointsPerGame] divides, and the games to twice the
    number of completed games. *)
Theorem teamsWithAvg_conserves_points (games : list game) :
  ordinary_teams games = true ->
  sum_totalPoints (sportService.teamsWithAvg games) = sportService.totalPoints games
  /\ sum_games (sportService.teamsWithAvg games)
     = 2 * Z.of_nat (Stats.completedGames (sportService.calculateTournamentStats games)).
Proof.
  intros Hord. rewrite teamsWithAvg_ordinary by exact Hord.
  set (finals := filter (status_is "Final") games).
  destruct (sum_totalPoints_perm _ _
              (Permutation_sym (sort_perm sportService.avg_after (per_team finals))))
    as [-> ->].
  unfold per_team, team_row.
  destruct (sum_rows (appearances finals) (appearances finals)
              (first_seen (map fst (appearances finals)))) as [-> ->].
  destruct (sum_over_teams (appearances finals)
              (first_seen (map fst (appearances finals))))
    as [-> ->].
  - apply first_seen_NoDup.
  - intros x Hx. now apply first_seen_In.
  - destruct (appearances_total finals) as [-> ->].
    rewrite totalPoints_sum. split; [reflexivity|].
    cbn [Stats.completedGames sportService.calculateTournamentStats].
    unfold sportService.completedGames. fold finals. lia.
Qed.

(** The mock data satisfies the hypothesis of X5. *)
Lemma teamsWithAvg_conserves_points_witness :
  ordinary_teams sportService.getMockTournamentData = true
  /\ sum_totalPoints (sportService.teamsWithAvg sportService.getMockTournamentData)
     = sportService.totalPoints sportService.getMockTournamentData.
Proof.
  split; [reflexivity|].
  exact (proj1 (teamsWithAvg_conserves_points
                  sportService.getMockTournamentData eq_refl)).
Defined.

(* ================================================================== *)
(** * Further properties of the interpreters *)

Lemma run_bind {A B} (w : world) (p : prog A) (f : A -> prog B) (s : store) :
  run w (bind p f) s
  = match run w p s with
    | (inl a, s', t) =>
        let '(r, s'', t') := run w (f a) s' in (r, s'', (t ++ t')%list)
    | (inr e, s', t) => (inr e, s', t)
    end.
Proof.
  revert s. induction p as [a|e|k IH|k IH|c b k IH|x k IH|l k IH|l k IH|l e0 k IH|k IH|s0 k IH];
    intros s; cbn [bind run].
  - destruct (run w (f a) s) as [[r s''] t']. reflexivity.
  - reflexivity.
  - apply IH.
  - rewrite IH. destruct (run w (k (provider w)) s) as [[[a|e] s'] t]; [|reflexivity].
    destruct (run w (f a) s') as [[r s''] t']. reflexivity.
  - rewrite IH. destruct (run w (k (canvas w c b)) s) as [[[a|e] s'] t]; [|reflexivity].
    destruct (run w (f a) s') as [[r s''] t']. reflexivity.
  - rewrite IH. destruct (run w (k (slack w x)) s) as [[[a|e] s'] t]; [|reflexivity].
    destruct (run w (f a) s') as [[r s''] t']. reflexivity.
  - rewrite IH. destruct (run w k s) as [[[a|e] s'] t]; [|reflexivity].
    destruct (run w (f a) s') as [[r s''] t']. reflexivity.
  - rewrite IH. destruct (run w k s) as [[[a|e] s'] t]; [|reflexivity].
    destruct (run w (f a) s') as [[r s''] t']. reflexivity.
  - rewrite IH. destruct (run w k s) as [[[a|e] s'] t]; [|reflexivity].
    destruct (run w (f a) s') as [[r s''] t']. reflexivity.
  - apply IH.
  - apply IH.
Qed.

Lemma run_try_catch {A} (w : world) (p : prog A) (h : string -> prog A) (s : store) :
  run w (try_catch p h) s
  = match run w p s with
    | (inl a, s', t) => (inl a, s', t)
    | (inr e, s', t) =>
        let '(r, s'', t') := run w (h e) s' in (r, s'', (t ++ t')%list)
    end.
Proof.
  revert s. induction p as [a|e|k IH|k IH|c b k IH|x k IH|l k IH|l k IH|l e0 k IH|k IH|s0 k IH];
    intros s; cbn [try_catch run].
  - reflexivity.
  - destruct (run w (h e) s) as [[r s''] t']. reflexivity.
  - apply IH.
  - rewrite IH. destruct (run w (k (provider w)) s) as [[[a|e] s'] t]; [reflexivity|].
    destruct (run w (h e) s') as [[r s''] t']. reflexivity.
  - rewrite IH. destruct (run w (k (canvas w c b)) s) as [[[a|e] s'] t]; [reflexivity|].
    destruct (run w (h e) s') as [[r s''] t']. reflexivity.
  - rewrite IH. destruct (run w (k (slack w x)) s) as [[[a|e] s'] t]; [reflexivity|].
    destruct (run w (h e) s') as [[r s''] t']. reflexivity.
  - rewrite IH. destruct (run w k s) as [[[a|e] s'] t]; [reflexivity|].
    destruct (run w (h e) s') as [[r s''] t']. reflexivity.
  - rewrite IH. destruct (run w k s) as [[[a|e] s'] t]; [reflexivity|].
    destruct (run w (h e) s') as [[r s''] t']. reflexivity.
  - rewrite IH. destruct (run w k s) as [[[a|e] s'] t]; [reflexivity|].
    destruct (run w (h e) s') as [[r s''] t']. reflexivity.
  - apply IH.
  - apply IH.
Qed.

Lemma run_boot_bind {A B} (w : boot_world) (p : boot A) (f : A -> boot B) (s : store) :
  run_boot w (boot_bind p f) s
  = match run_boot w p s with
    | (inl a, s', t) =>
        let '(r, s'', t') := run_boot w (f a) s' in (r, s'', (t ++ t')%list)
    | (inr e, s', t) => (inr e, s', t)
    end.
Proof.
  revert s. induction p as [a|e|X q k IH|c k IH|c t b k IH|k IH|ex k IH];
    intros s; cbn [boot_bind run_boot].
  - destruct (run_boot w (f a) s) as [[r s''] t']. reflexivity.
  - reflexivity.
  - destruct (run (core_world w) q s) as [[[x|e0] s'] t]; [|reflexivity].
    rewrite IH. destruct (run_boot w (k x) s') as [[[a|e0] s''] t']; [|reflexivity].
    destruct (run_boot w (f a) s'') as [[r s3] t3]. now rewrite app_assoc.
  - rewrite IH. destruct (run_boot w (k (canvas_get w c)) s) as [[[a|e0] s'] t']; [|reflexivity].
    destruct (run_boot w (f a) s') as [[r s''] t'']. reflexivity.
  - rewrite IH. destruct (run_boot w (k (canvas_create w c t b)) s) as [[[a|e0] s'] t']; [|reflexivity].
    destruct (run_boot w (f a) s') as [[r s''] t'']. reflexivity.
  - rewrite IH. destruct (run_boot w (k (app_start w)) s) as [[[a|e0] s'] t']; [|reflexivity].
    destruct (run_boot w (f a) s') as [[r s''] t'']. reflexivity.
  - rewrite IH. destruct (run_boot w (k (cron_schedule w ex)) s) as [[[a|e0] s'] t'];
      [|reflexivity].
    destruct (run_boot w (f a) s') as [[r s''] t'']. reflexivity.
Qed.

(* ================================================================== *)
(** * Further properties of rendering *)

Ltac find_block :=
  repeat (rewrite in_app_iff || cbn [In]);
  repeat (first [left; reflexivity | right]).

Section RenderingFacts.
Context `{Host}.

Lemma string_app_assoc (a b c : string) : (a ++ b) ++ c = a ++ b ++ c.
Proof. induction a as [|x a IH]; simpl; [reflexivity | now rewrite IH]. Qed.

(** X7.  The line of a [Scheduled] game does not depend on its score
    fields, in either copy of the canvas service. *)
Theorem scheduled_line_ignores_scores (G : glyphs) (g : game) (away home : Z)
  (isDetailed : bool) :
  Status g = "Scheduled" ->
  formatGameLine G (with_scores g away home) isDetailed
  = formatGameLine G g isDetailed.
Proof.
  intros Hs. unfold formatGameLine, statusEmoji, statusText, isUpset, status_is,
    with_scores. cbn [Status AwayTeamSeed HomeTeamSeed AwayTeam HomeTeam
    AwayTeamScore HomeTeamScore DateTime Round Period TimeRemainingMinutes
    TimeRemainingSeconds]. rewrite Hs. reflexivity.
Qed.

(** X8.  A game line is its front part, the upset marker when the line's
    own upset test holds, and its back part; on the games of a batch that
    test holds exactly for the members of the upset subset, so the number
    of marked lines is the upset count of the statistics. *)
Theorem upset_marker_agrees (G : glyphs) (games : list game) (isDetailed : bool) :
  Forall (fun g =>
            formatGameLine G g isDetailed
            = line_front G g
                ++ (if isUpset g then g_upset G else "") ++ line_back G g)
         games
  /\ (forall g, In g games ->
                (isUpset g = true <-> In g (sportService.upsets games)))
  /\ List.length (filter isUpset games)
     = Stats.upsets (sportService.calculateTournamentStats games).
Proof.
  split; [|split].
  - apply Forall_forall. intros g _.
    unfold formatGameLine, line_front, line_back.
    destruct (negb (status_is "Scheduled" g)); destruct (isUpset g);
      repeat rewrite string_app_assoc; reflexivity.
  - intros g Hin. unfold isUpset, sportService.upsets, sportService.completedGames.
    rewrite !filter_In, andb_true_iff. tauto.
  - cbn [Stats.upsets sportService.calculateTournamentStats].
    unfold sportService.upsets, sportService.completedGames, isUpset.
    induction games as [|g l IH]; [reflexivity|]. simpl.
    destruct (status_is "Final" g); simpl; [|exact IH].
    destruct (upset_test g); simpl; now rewrite IH.
Qed.

Lemma sorted_app_cross {A} (R : A -> A -> Prop) (l1 l2 : list A) :
  StronglySorted R (l1 ++ l2) ->
  forall a b, In a l1 -> In b l2 -> R a b.
Proof.
  induction l1 as [|x l1 IH]; simpl; intros Hs a b Ha Hb; [contradiction|].
  apply StronglySorted_inv in Hs. destruct Hs as [Hs Hall].
  destruct Ha as [<-|Ha]; [|now apply IH].
  rewrite Forall_forall in Hall. apply Hall, in_or_app. now right.
Qed.

(** Two comparators that agree on the elements of a list sort it alike. *)
Lemma insert_ext_in {A} (gt gt' : A -> A -> bool) (x : A) (l : list A) :
  (forall y, In y l -> gt x y = gt' x y) -> JS.insert gt x l = JS.insert gt' x l.
Proof.
  induction l as [|y l IH]; intros Hagree; simpl; [reflexivity|].
  rewrite (Hagree y) by now left.
  destruct (gt' x y); [|reflexivity]. f_equal. apply IH.
  intros z Hz. apply Hagree. now right.
Qed.

Lemma sort_ext_in {A} (gt gt' : A -> A -> bool) (l : list A) :
  (forall x y, In x l -> In y l -> gt x y = gt' x y) -> JS.sort gt l = JS.sort gt' l.
Proof.
  induction l as [|x l IH]; intros Hagree; simpl; [reflexivity|].
  rewrite IH by (intros a b Ha Hb; apply Hagree; now right).
  apply insert_ext_in. intros y Hy. apply Hagree; [now left|right].
  exact (Permutation_in _ (Permutation_sym (sort_perm gt' l)) Hy).
Qed.

Lemma StronglySorted_impl_in {A} (R R' : A -> A -> Prop) (l : list A) :
  (forall a b, In a l -> In b l -> R a b -> R' a b) ->
  StronglySorted R l -> StronglySorted R' l.
Proof.
  intros Himp Hs. induction Hs as [|x l Hs IH Hall]; constructor.
  - apply IH. intros a b Ha Hb. apply Himp; now right.
  - rewrite Forall_forall in *. intros y Hy.
    apply Himp; [now left | now right | now apply Hall].
Qed.

(** The sort by date keeps the games; the first [n] are as many as [n] or
    all of them. *)
Lemma by_date_permutes (compare : game -> game -> option Z) (l : list game) :
  Permutation l (Array_sort_by_date compare l).
Proof.
  unfold Array_sort_by_date.
  destruct (forallb dated l); [apply sort_perm | apply engine_sort_permutes].
Qed.

Lemma by_date_all (compare : game -> game -> option Z) (n : nat) (l : list game) :
  let shown := JS.slice0 n (Array_sort_by_date compare l) in
  let hidden := skipn n (Array_sort_by_date compare l) in
  Permutation l (shown ++ hidden)
  /\ List.length shown = Nat.min n (List.length l).
Proof.
  intros shown hidden. subst shown hidden. unfold JS.slice0. split.
  - rewrite firstn_skipn. apply by_date_permutes.
  - rewrite length_firstn.
    now rewrite <- (Permutation_length (by_date_permutes compare l)).
Qed.

(** With valid dates throughout, the first [n] of the games sorted by
    date are sorted by their key, and no game left out has a smaller
    key. *)
Lemma by_date_sorted (compare : game -> game -> option Z) (key : game -> Z)
  (n : nat) (l : list game) :
  (forall a b, dated a = true -> dated b = true ->
               JS.positive (compare a b) = (key a - key b >? 0)) ->
  forallb dated l = true ->
  let shown := JS.slice0 n (Array_sort_by_date compare l) in
  let hidden := skipn n (Array_sort_by_date compare l) in
  StronglySorted (fun a b => key a <= key b) shown
  /\ forall a b, In a shown -> In b hidden -> key a <= key b.
Proof.
  intros Hkey Hdated shown hidden. subst shown hidden.
  unfold Array_sort_by_date, JS.slice0. rewrite Hdated.
  rewrite forallb_forall in Hdated.
  rewrite (sort_ext_in _ (fun a b => key a - key b >? 0))
    by (intros a b Ha Hb; apply Hkey; now apply Hdated).
  set (gt := fun a b : game => key a - key b >? 0).
  assert (Hs : StronglySorted (fun a b => key a <= key b) (JS.sort gt l)).
  { eapply StronglySorted_impl;
      [|apply (sort_sorted gt); subst gt; cbv beta; intros; lia].
    unfold JS.not_after. subst gt. cbv beta. intros a b. lia. }
  split.
  - now apply firstn_sorted.
  - apply sorted_app_cross. now rewrite firstn_skipn.
Qed.

Lemma later_first_key (a b : game) :
  dated a = true -> dated b = true ->
  JS.positive (later_first a b) = (- time_of a - - time_of b >? 0).
Proof.
  unfold dated, later_first, time_of.
  destruct (Date_parse (DateTime a)); [|discriminate].
  destruct (Date_parse (DateTime b)); [|discriminate].
  intros _ _. simpl. f_equal. lia.
Qed.

Lemma sooner_first_key (a b : game) :
  dated a = true -> dated b = true ->
  JS.positive (sooner_first a b) = (time_of a - time_of b >? 0).
Proof.
  unfold dated, sooner_first, time_of.
  destruct (Date_parse (DateTime a)); [|discriminate].
  destruct (Date_parse (DateTime b)); [|discriminate].
  reflexivity.
Qed.

Lemma not_sooner_key (a b : game) :
  dated a = true -> dated b = true -> - time_of a <= - time_of b ->
  not_sooner a b.
Proof.
  unfold dated, time_of, not_sooner.
  destruct (Date_parse (DateTime a)) as [ta|]; [|discriminate].
  destruct (Date_parse (DateTime b)) as [tb|]; [|discriminate].
  intros _ _ Hle. exists ta, tb. repeat split. lia.
Qed.

Lemma not_later_key (a b : game) :
  dated a = true -> dated b = true -> time_of a <= time_of b ->
  not_later a b.
Proof.
  unfold dated, time_of, not_later.
  destruct (Date_parse (DateTime a)) as [ta|]; [|discriminate].
  destruct (Date_parse (DateTime b)) as [tb|]; [|discriminate].
  intros _ _ Hle. exists ta, tb. repeat split. lia.
Qed.

(** The two selections of the page, for a limit of [n] games. *)
Lemma selection_facts (compare : game -> game -> option Z) (key : game -> Z)
  (R : game -> game -> Prop) (n : nat) (l : list game) :
  (forall a b, dated a = true -> dated b = true ->
               JS.positive (compare a b) = (key a - key b >? 0)) ->
  (forall a b, dated a = true -> dated b = true -> key a <= key b -> R a b) ->
  let shown := JS.slice0 n (Array_sort_by_date compare l) in
  let hidden := skipn n (Array_sort_by_date compare l) in
  (Permutation l (shown ++ hidden)
   /\ List.length shown = Nat.min n (List.length l))
  /\ (forallb dated l = true ->
      StronglySorted R shown
      /\ forall a b, In a shown -> In b hidden -> R a b).
Proof.
  intros Hkey HR shown hidden.
  pose proof (by_date_all compare n l) as Hall. cbv zeta in Hall.
  fold shown hidden in Hall. split; [exact Hall|].
  intros Hdated.
  pose proof (by_date_sorted compare key n l Hkey Hdated) as Hs. cbv zeta in Hs.
  fold shown hidden in Hs. destruct Hs as [Hs Hcross].
  assert (Hin : forall g, In g (shown ++ hidden) -> dated g = true).
  { intros g Hg. rewrite forallb_forall in Hdated. apply Hdated.
    exact (Permutation_in _ (Permutation_sym (proj1 Hall)) Hg). }
  split.
  - apply (StronglySorted_impl_in (fun a b => key a <= key b)); [|exact Hs].
    intros a b Ha Hb. apply HR; apply Hin, in_or_app; now left.
  - intros a b Ha Hb. apply HR; [| |now apply Hcross];
      apply Hin, in_or_app; [now left | now right].
Qed.

(** X9.  [services/canvasService.js]: the recently-completed section
    shows the first five completed games of the array sorted by start
    time, latest first, and the upcoming section the first five upcoming
    games, soonest first: as many as five or all of them.  When every
    game of the list has a valid date, the games shown are sorted and no
    game left out starts later (sooner) than a game shown; an invalid date
    makes the comparator return [NaN], and nothing is said about the
    order then. *)
Theorem recent_and_upcoming_selection (data : Data.t) (completed upcoming : list game) :
  Data.completedGames data = Some completed ->
  Data.upcomingGames data = Some upcoming ->
  let recent := JS.slice0 5 (Array_sort_by_date later_first completed) in
  let older := skipn 5 (Array_sort_by_date later_first completed) in
  let next := JS.slice0 5 (Array_sort_by_date sooner_first upcoming) in
  let further := skipn 5 (Array_sort_by_date sooner_first upcoming) in
  In (SectionBlock (match recent with
                    | [] => "No completed games yet."
                    | _ => canvasService.game_lines recent
                    end)) (canvasService.updatedBlocks data)
  /\ In (SectionBlock (match next with
                       | [] => "No upcoming games scheduled."
                       | _ => canvasService.game_lines next
                       end)) (canvasService.updatedBlocks data)
  /\ ((Permutation completed (recent ++ older)
       /\ List.length recent = Nat.min 5 (List.length completed))
      /\ (forallb dated completed = true ->
          StronglySorted not_sooner recent
          /\ forall a b, In a recent -> In b older -> not_sooner a b))
  /\ ((Permutation upcoming (next ++ further)
       /\ List.length next = Nat.min 5 (List.length upcoming))
      /\ (forallb dated upcoming = true ->
          StronglySorted not_later next
          /\ forall a b, In a next -> In b further -> not_later a b)).
Proof.
  intros Hc Hu recent older next further.
  split; [|split; [|split]].
  - unfold canvasService.updatedBlocks. rewrite Hc. cbn [or_else]. subst recent.
    destruct (JS.slice0 5 (Array_sort_by_date later_first completed));
      destruct (non_empty (Data.closeGames data));
      unfold splice_in, page; cbn [firstn skipn app]; find_block.
  - unfold canvasService.updatedBlocks. rewrite Hu. cbn [or_else]. subst next.
    destruct (JS.slice0 5 (Array_sort_by_date sooner_first upcoming));
      destruct (non_empty (Data.closeGames data));
      unfold splice_in, page; cbn [firstn skipn app]; find_block.
  - apply (selection_facts later_first (fun g => - time_of g) not_sooner 5
             completed later_first_key not_sooner_key).
  - apply (selection_facts sooner_first time_of not_later 5
             upcoming sooner_first_key not_later_key).
Qed.

(** X10.  The second copy makes the same two selections with ten games
    instead of five. *)
Theorem second_copy_selection (data : Data.t) (now : Z)
  (completed upcoming : list game) :
  Data.completedGames data = Some completed ->
  Data.upcomingGames data = Some upcoming ->
  let recent := JS.slice0 10 (Array_sort_by_date later_first completed) in
  let older := skipn 10 (Array_sort_by_date later_first completed) in
  let next := JS.slice0 10 (Array_sort_by_date sooner_first upcoming) in
  let further := skipn 10 (Array_sort_by_date sooner_first upcoming) in
  In (SectionBlock (match completed with
                    | [] => "No completed games."
                    | _ => JS.join (nl ++ nl)
                             (map (fun g => canvasService2.formatGameForDisplay g false)
                                  recent)
                    end)) (canvasService2.blocks now data)
  /\ In (SectionBlock (match upcoming with
                       | [] => "No upcoming games."
                       | _ => JS.join (nl ++ nl)
                                (map (fun g => canvasService2.formatGameForDisplay g false)
                                     next)
                       end)) (canvasService2.blocks now data)
  /\ ((Permutation completed (recent ++ older)
       /\ List.length recent = Nat.min 10 (List.length completed))
      /\ (forallb dated completed = true ->
          StronglySorted not_sooner recent
          /\ forall a b, In a recent -> In b older -> not_sooner a b))
  /\ ((Permutation upcoming (next ++ further)
       /\ List.length next = Nat.min 10 (List.length upcoming))
      /\ (forallb dated upcoming = true ->
          StronglySorted not_later next
          /\ forall a b, In a next -> In b further -> not_later a b)).
Proof.
  intros Hc Hu recent older next further.
  split; [|split; [|split]].
  - unfold canvasService2.blocks, canvasService2.completedGamesContent, page.
    rewrite Hc. destruct completed; find_block.
  - unfold canvasService2.blocks, canvasService2.upcomingGamesContent, page.
    rewrite Hu. destruct upcoming; find_block.
  - apply (selection_facts later_first (fun g => - time_of g) not_sooner 10
             completed later_first_key not_sooner_key).
  - apply (selection_facts sooner_first time_of not_later 10
             upcoming sooner_first_key not_later_key).
Qed.

(** X11.  [updateCanvasContent] (both copies) and [updateCanvasStructure]
    issue exactly one update call and leave [tournamentData] alone; when
    the call is rejected they log the message once and throw it on. *)
Theorem canvas_updates_log_and_rethrow (w : world) (s : store) (id : string)
  (data : Data.t) :
  run w (canvasService.updateCanvasContent id data) s
  = match canvas w id (canvasService.updatedBlocks data) with
    | Resolved _ =>
        (inl tt, s, [Published id (canvasService.updatedBlocks data)])
    | Rejected message =>
        (inr message, s,
         [ Published id (canvasService.updatedBlocks data);
           LoggedError ("Error updating Canvas content: " ++ message) ])
    end
  /\ run w (canvasService2.updateCanvasContent id data) s
     = match canvas w id (canvasService2.blocks (clock w) data) with
       | Resolved _ =>
           (inl tt, s, [Published id (canvasService2.blocks (clock w) data)])
       | Rejected message =>
           (inr message, s,
            [ Published id (canvasService2.blocks (clock w) data);
              LoggedError ("Error updating Canvas content: " ++ message) ])
       end
  /\ run w (bootstrap.updateCanvasStructure id) s
     = match canvas w id bootstrap.structure_blocks with
       | Resolved _ => (inl tt, s, [Published id bootstrap.structure_blocks])
       | Rejected message =>
           (inr message, s,
            [ Published id bootstrap.structure_blocks;
              LoggedError ("Error updating Canvas structure: " ++ message) ])
       end.
Proof.
  unfold canvasService.updateCanvasContent, canvasService2.updateCanvasContent,
    bootstrap.updateCanvasStructure, canvas_update, new_Date, console_error.
  cbn [bind try_catch run].
  repeat split; destruct (canvas w id _) as [[]|message]; reflexivity.
Qed.

(** X12.  With no games in any list (missing or empty) and no statistics,
    both copies render the fixed page with their placeholder texts; the
    footer of the first reads [Unknown] when the snapshot carries no time
    stamp. *)
Theorem placeholders_for_missing_data (data : Data.t) (now : Z) :
  blank (Data.currentGames data) = true ->
  blank (Data.completedGames data) = true ->
  blank (Data.upcomingGames data) = true ->
  blank (Data.closeGames data) = true ->
  Data.stats data = None ->
  canvasService.updatedBlocks data
  = page canvasService.glyph "No games currently in progress."
      "No completed games yet." "No upcoming games scheduled."
      "Statistics not available yet."
      ("Last updated: "
         ++ match Data.lastUpdated data with
            | None | Some EmptyString => "Unknown"
            | Some stamp =>
                match Date_parse stamp with
                | Some t => toLocaleString_en_US_medium t
                | None => "Invalid Date"
                end
            end)
  /\ canvasService2.blocks now data
     = page canvasService2.glyph "No games in progress." "No completed games."
         "No upcoming games." "Statistics not available."
         ("Last updated: " ++ toLocaleString_default now).
Proof.
  unfold blank. rewrite !negb_true_iff. intros Hcur Hdone Hup Hclose Hstats.
  unfold canvasService.updatedBlocks, canvasService2.blocks,
    canvasService2.gamesInProgressContent, canvasService2.completedGamesContent,
    canvasService2.upcomingGamesContent, canvasService2.statisticsContent.
  rewrite Hcur, Hclose, Hstats.
  destruct (Data.currentGames data) as [[|? ?]|]; try discriminate Hcur;
    destruct (Data.completedGames data) as [[|? ?]|]; try discriminate Hdone;
    destruct (Data.upcomingGames data) as [[|? ?]|]; try discriminate Hup;
    destruct (Data.lastUpdated data) as [[|? ?]|]; split; reflexivity.
Qed.

Lemma non_empty_filter {A} (p : A -> bool) (l : list A) :
  non_empty (Some (filter p l)) = existsb p l.
Proof.
  induction l as [|x l IH]; [reflexivity|]. simpl.
  destruct (p x); [reflexivity | exact IH].
Qed.

Lemma existsb_filter {A} (p q : A -> bool) (l : list A) :
  existsb q (filter p l) = existsb (fun x => p x && q x) l.
Proof.
  induction l as [|x l IH]; [reflexivity|]. simpl.
  destruct (p x); simpl; now rewrite IH.
Qed.

(** X13.  For the snapshot a cycle builds, the page has the alert section
    (17 blocks instead of 15) exactly when some in-progress game of the
    batch is within the threshold; with a negative threshold never; and
    the close subset lies within the in-progress subset. *)
Theorem alert_follows_live_margin (games : list game) (now : Z) :
  let d := controller.build_tournamentData games now in
  let close_now :=
    existsb (fun g => status_is "InProgress" g
                      && (Z.abs (AwayTeamScore g - HomeTeamScore g)
                          <=? NOTIFICATION_THRESHOLD)) games in
  List.length (canvasService.updatedBlocks d)
  = (if close_now then 17 else 15)%nat
  /\ (NOTIFICATION_THRESHOLD < 0 -> close_now = false)
  /\ (forall g, In g (controller.read_closeGames (CycleData d))
                -> In g (controller.read_currentGames (CycleData d))).
Proof.
  intros d close_now.
  assert (Hne : non_empty (Data.closeGames d) = close_now).
  { subst d close_now. cbn [Data.closeGames controller.build_tournamentData].
    now rewrite non_empty_filter, existsb_filter. }
  split; [|split].
  - unfold canvasService.updatedBlocks. rewrite Hne.
    destruct close_now; [|reflexivity].
    unfold splice_in, page. cbn [firstn skipn].
    destruct (Data.closeGames d) as [[|? ?]|]; try discriminate Hne. reflexivity.
  - intros Hneg. subst close_now.
    destruct (existsb _ games) eqn:E; [|reflexivity].
    apply existsb_exists in E. destruct E as (g & _ & Hg).
    apply andb_true_iff in Hg. lia.
  - intros g. subst d. simpl. rewrite filter_In. tauto.
Qed.

Lemma NoDup_map_inj {A B} (f : A -> B) (l : list A) (a b : A) :
  NoDup (map f l) -> In a l -> In b l -> f a = f b -> a = b.
Proof.
  induction l as [|x l IH]; simpl; [tauto|]. intros Hnd Ha Hb Hf.
  apply NoDup_cons_iff in Hnd. destruct Hnd as [Hnin Hnd].
  destruct Ha as [<-|Ha], Hb as [<-|Hb]; try reflexivity.
  - exfalso. apply Hnin. rewrite Hf. now apply in_map.
  - exfalso. apply Hnin. rewrite <- Hf. now apply in_map.
  - now apply IH.
Qed.

(** X14.  The second copy, on the snapshot a cycle builds from a batch
    whose in-progress games have distinct ids: the games-in-progress text
    lists every in-progress game in batch order and appends the close
    marker to exactly those within the threshold. *)
Theorem second_copy_flags_close_games (games : list game) (now : Z) :
  NoDup (map GameID (filter (status_is "InProgress") games)) ->
  let d := controller.build_tournamentData games now in
  canvasService2.gamesInProgressContent d
  = match filter (status_is "InProgress") games with
    | [] => "No games in progress."
    | current =>
        JS.join (nl ++ nl)
          (map (fun g => canvasService2.formatGameForDisplay g true
                           ++ (if controller.close_test g
                               then close_marker else ""))
               current)
    end.
Proof.
  intros Hnd d. subst d.
  unfold canvasService2.gamesInProgressContent.
  cbn [Data.currentGames Data.closeGames controller.build_tournamentData].
  set (current := filter (status_is "InProgress") games) in *.
  destruct current as [|g0 rest] eqn:Ecur; [reflexivity|]. rewrite <- Ecur in *.
  destruct (filter controller.close_test current) as [|c0 crest] eqn:Eclose.
  - rewrite Ecur. f_equal. rewrite <- Ecur. apply map_ext_in. intros g Hg.
    destruct (controller.close_test g) eqn:Eg.
    + assert (Hin : In g (filter controller.close_test current))
        by (apply filter_In; tauto).
      rewrite Eclose in Hin. contradiction.
    + clear. induction (canvasService2.formatGameForDisplay g true) as [|x s IH];
        simpl; [reflexivity | now f_equal].
  - rewrite <- Eclose. rewrite Ecur. f_equal. rewrite <- Ecur.
    apply map_ext_in. intros g Hg. f_equal.
    destruct (controller.close_test g) eqn:Eg.
    + assert (Hex : existsb (Z.eqb (GameID g))
                      (map GameID (filter controller.close_test current)) = true).
      { apply existsb_exists. exists (GameID g). split; [|apply Z.eqb_refl].
        apply in_map, filter_In. tauto. }
      now rewrite Hex.
    + destruct (existsb _ _) eqn:Hex; [|reflexivity].
      apply existsb_exists in Hex. destruct Hex as (i & Hi & Heq).
      apply Z.eqb_eq in Heq. subst i.
      apply in_map_iff in Hi. destruct Hi as (g' & Hid & Hg').
      apply filter_In in Hg'. destruct Hg' as [Hg' Hclose'].
      assert (g' = g) by (apply (NoDup_map_inj GameID current); auto).
      subst g'. congruence.
Qed.

(** X6.  Before any game is [Final] the statistics hold zero completed
    games, zero upsets, an average of 0 and no team or margin rows, and
    both copies print only the progress line and the average. *)
Theorem statistics_before_any_final (games : list game) :
  filter (status_is "Final") games = [] ->
  let stats := sportService.calculateTournamentStats games in
  (Stats.completedGames stats = 0%nat /\ Stats.upsets stats = 0%nat
   /\ Stats.avgPointsPerGame stats = 0%Q
   /\ Stats.topScoringTeams stats = [] /\ Stats.closestGames stats = [])
  /\ canvasService.formatStatisticsForDisplay stats
     = "*Tournament Progress*: 0 completed, "
         ++ show_nat (Stats.inProgressGames stats) ++ " in progress, "
         ++ show_nat (Stats.upcomingGames stats) ++ " upcoming" ++ nl
         ++ "*Average Points*: 0 points per game" ++ nl ++ nl
  /\ canvasService2.formatStatisticsForDisplay stats
     = "*Tournament Progress*: 0 completed, "
         ++ show_nat (Stats.inProgressGames stats) ++ " in progress, "
         ++ show_nat (Stats.upcomingGames stats) ++ " upcoming" ++ nl
         ++ "*Average Points Per Game*: 0" ++ nl ++ nl.
Proof.
  intros Hnone stats.
  assert (Hstats : stats
                   = Stats.mk (List.length games) 0
                       (List.length (sportService.inProgressGames games))
                       (List.length (sportService.upcomingGames games))
                       0 0%Q [] []).
  { subst stats. unfold sportService.calculateTournamentStats,
      sportService.upsets, sportService.avgPointsPerGame,
      sportService.topScoringTeams, sportService.teamsWithAvg,
      sportService.teamScores, sportService.closestGames,
      sportService.marginOfVictory, sportService.completedGames.
    rewrite Hnone. reflexivity. }
  rewrite Hstats. cbn [Stats.completedGames Stats.upsets Stats.avgPointsPerGame
    Stats.topScoringTeams Stats.closestGames Stats.inProgressGames
    Stats.upcomingGames].
  split; [repeat split|].
  unfold canvasService.formatStatisticsForDisplay,
    canvasService2.formatStatisticsForDisplay.
  cbn [Stats.completedGames Stats.upsets Stats.avgPointsPerGame
    Stats.topScoringTeams Stats.closestGames Stats.inProgressGames
    Stats.upcomingGames Nat.ltb Nat.leb].
  change (JS.Number_toString_1dp 0) with "0".
  change (show_nat 0) with "0".
  split; repeat rewrite string_app_assoc; reflexivity.
Qed.

End RenderingFacts.

(* ================================================================== *)
(** * Further properties of the bootstrap and the handlers *)

Ltac boot_eval :=
  cbv beta iota zeta delta
      [run_boot run boot_bind boot_try attempt bind try_catch core
       console_log console_error new_Date canvas_update await boot_await
       negb map app fst snd result_of store_of effects_of
       published_to created_in List.length].

Ltac boot_cases :=
  repeat (boot_eval;
          match goal with
          | |- context [match ?x with _ => _ end] =>
              match x with
              | canvas_get _ _ => destruct x as [[|]|?] eqn:?
              | canvas_create _ _ _ _ => destruct x as [[?|]|?] eqn:?
              | canvas _ _ _ => destruct x as [[]|?] eqn:?
              | app_start _ => destruct x as [[]|?] eqn:?
              | String.eqb _ _ => destruct x eqn:?
              end
          end).

Ltac run_eval :=
  cbv beta iota zeta delta
      [run bind try_catch say console_log console_error console_error_object
       new_Date canvas_update
       axios_get get_tournamentData set_tournamentData await
       fst snd result_of store_of effects_of published requested negb orb andb].

Section BootstrapFacts.
Context `{Host} `{Deployment}.

(** X15.  [checkCanvas] never throws and never touches [tournamentData]:
    without an id it answers [false] and calls nothing; a rejected lookup
    is logged and answered [false]; otherwise the answer says whether the
    result carries a canvas. *)
Theorem checkCanvas_never_throws (w : boot_world) (s : store) (id : string) :
  run_boot w (bootstrap.checkCanvas id) s
  = if String.eqb id "" then (inl false, s, [])
    else match canvas_get w id with
         | Resolved found => (inl found, s, [Got id])
         | Rejected message =>
             (inl false, s,
              [Got id; OfCore (LoggedError ("Error checking Canvas: " ++ message))])
         end.
Proof.
  unfold bootstrap.checkCanvas.
  destruct (String.eqb id ""); [reflexivity|].
  boot_eval. destruct (canvas_get w id) as [found|message]; reflexivity.
Qed.

(** X16.  [initializeCanvas] never throws and leaves [tournamentData]
    alone.  It writes to no canvas but the configured one, also after it
    created a new canvas: when the configured canvas is found, the
    structure update and, if that succeeded, the content update; when it
    is not found, one canvas is created in the configured channel and the
    content update goes to the configured id if the result carried a
    canvas. *)
Theorem initializeCanvas_contained (w : boot_world) (s : store) :
  let r := run_boot w bootstrap.initializeCanvas s in
  fst (fst r) = inl tt
  /\ snd (fst r) = s
  /\ Forall (fun id => id = CANVAS_ID) (published_to (snd r))
  /\ (List.length (published_to (snd r)) <= 2)%nat
  /\ published_to (snd r)
     = (if canvas_found w CANVAS_ID then
          CANVAS_ID
            :: match canvas (core_world w) CANVAS_ID bootstrap.structure_blocks with
               | Resolved _ => [CANVAS_ID]
               | Rejected _ => []
               end
        else
          match canvas_create w CHANNEL_ID "NCAA Tournament Tracker 2025"
                  bootstrap.initial_blocks with
          | Resolved (Some _) => [CANVAS_ID]
          | _ => []
          end)
  /\ created_in (snd r) = if canvas_found w CANVAS_ID then [] else [CHANNEL_ID].
Proof.
  intros r. subst r.
  unfold bootstrap.initializeCanvas, bootstrap.checkCanvas,
    bootstrap.createTournamentCanvas, bootstrap.updateCanvasStructure,
    canvasService.updateCanvasContent, canvas_found.
  boot_cases.
  all: repeat split; repeat constructor.
Qed.

Lemma registered_app (t t' : list boot_effect) :
  registered (t ++ t') = (registered t ++ registered t')%list.
Proof.
  induction t as [|e t IH]; [reflexivity|].
  destruct e; simpl; now rewrite IH.
Qed.

Lemma registered_core (t : list effect) : registered (map OfCore t) = [].
Proof. induction t as [|e t IH]; [reflexivity | exact IH]. Qed.

Lemma run_initializeCanvas (w : boot_world) (s : store) :
  exists t : list boot_effect,
    run_boot w bootstrap.initializeCanvas s = (inl tt, s, t) /\ registered t = [].
Proof.
  unfold bootstrap.initializeCanvas, bootstrap.checkCanvas,
    bootstrap.createTournamentCanvas, bootstrap.updateCanvasStructure,
    canvasService.updateCanvasContent.
  boot_cases.
  all: eexists; split; reflexivity.
Qed.

Lemma run_cycle (w : world) (s : store) :
  exists t : list effect,
    run w controller.updateTournamentData s = (inl tt, after_cycle w s, t).
Proof.
  unfold after_cycle. destruct (batch_of (provider w)) as [games|] eqn:Hbatch.
  - rewrite (run_updateTournamentData w s games Hbatch). eexists. reflexivity.
  - rewrite (run_updateTournamentData_aborted w s Hbatch). eexists. reflexivity.
Qed.

Lemma run_main (w : boot_world) (s : store) :
  app_start w = Resolved tt ->
  exists t : list boot_effect,
    run_boot w bootstrap.main s
    = (match cron_schedule w ("*/" ++ UPDATE_FREQUENCY ++ " * * * *") with
       | Resolved _ => inl tt
       | Rejected message => inr message
       end,
       after_cycle (core_world w) s,
       (t ++ [Registered ("*/" ++ UPDATE_FREQUENCY ++ " * * * *")])%list)
    /\ registered t = [].
Proof.
  intros Hstart. unfold bootstrap.main.
  rewrite run_boot_bind. cbn [run_boot]. rewrite Hstart. cbn [boot_await run_boot].
  rewrite run_boot_bind. unfold core at 1, console_log at 1. cbn [run_boot run map].
  rewrite run_boot_bind.
  destruct (run_initializeCanvas w s) as (t & -> & Ht).
  rewrite run_boot_bind. unfold core at 1. cbn [run_boot].
  destruct (run_cycle (core_world w) s) as (tc & ->). cbn [run_boot].
  unfold bootstrap.scheduleUpdates, core, console_log.
  cbn [boot_bind run_boot run map].
  exists (Started
            :: (OfCore (Logged "⚡️ NCAA Tournament Canvas App is running!") :: t)
            ++ map OfCore tc
            ++ [OfCore (Logged ("Scheduling updates every " ++ UPDATE_FREQUENCY
                                  ++ " minutes"))])%list.
  split.
  - destruct (cron_schedule w _) as [[]|message]; cbn [boot_await run_boot app];
      f_equal; cbn [app]; rewrite <- !app_assoc; reflexivity.
  - change (Started :: ?l)%list with ([Started] ++ l)%list.
    change (OfCore ?e :: t)%list with ([OfCore e] ++ t)%list.
    rewrite !registered_app, Ht, registered_core. reflexivity.
Qed.

(** X17.  The start-up sequence: when [app.start] is rejected nothing
    else happens; otherwise the bootstrap and the first cycle run and
    neither of them stops the sequence.  The first cycle's snapshot is the
    current one when the provider delivered a batch; when it delivered
    something else than an array, [tournamentData] is as it was.  The one
    call of [cron.schedule] is the last act, and the sequence fails exactly
    when that call throws. *)
Theorem main_first_cycle_then_schedule (w : boot_world) (s : store) :
  let r := run_boot w bootstrap.main s in
  let expression := "*/" ++ UPDATE_FREQUENCY ++ " * * * *" in
  match app_start w with
  | Rejected message => r = (inr message, s, [Started])
  | Resolved _ =>
      fst (fst r)
      = match cron_schedule w expression with
        | Resolved _ => inl tt
        | Rejected message => inr message
        end
      /\ snd (fst r)
         = match batch_of (provider (core_world w)) with
           | Some games =>
               CycleData (controller.build_tournamentData games
                            (clock (core_world w)))
           | None => s
           end
      /\ registered (snd r) = [expression]
      /\ last (snd r) Started = Registered expression
  end.
Proof.
  intros r expression. subst r expression.
  destruct (app_start w) as [[]|message] eqn:Hstart.
  - destruct (run_main w s Hstart) as (t & -> & Ht). cbn [fst snd].
    split; [reflexivity|]. split; [reflexivity|]. split.
    + now rewrite registered_app, Ht.
    + apply last_last.
  - unfold bootstrap.main. cbn [boot_bind run_boot]. rewrite Hstart. reflexivity.
Qed.

(** X18.  A message that does not reach the refresh branch (not a direct
    message, or one without a text, or one that mentions current, in
    progress, close or upset first, or none of the key words) leaves
    [tournamentData] alone, calls the provider never and publishes
    nothing. *)
Theorem on_message_refreshes_only_on_request
  (w : world) (s : store) (m : controller.message) :
  asks_refresh m = false ->
  store_of (run w (controller.on_message m) s) = s
  /\ requested (effects_of (run w (controller.on_message m) s)) = O
  /\ published (effects_of (run w (controller.on_message m) s)) = [].
Proof.
  unfold asks_refresh, controller.on_message.
  destruct (controller.text m) as [raw|];
    [|intros _; destruct (negb _); repeat split].
  cbv zeta.
  destruct (String.eqb (controller.channel_type m) "im");
    [|intros _; repeat split].
  destruct (controller.includes _ "current");
    destruct (controller.includes _ "in progress");
    destruct (controller.includes _ "close");
    destruct (controller.includes _ "upset");
    destruct (controller.includes _ "refresh");
    destruct (controller.includes _ "update");
    cbn [negb orb andb]; intros Hm; try discriminate Hm; clear Hm;
    run_eval;
    repeat match goal with
           | |- context [slack w ?x] => destruct (slack w x) as [[]|?]; run_eval
           end;
    repeat split.
Qed.

Lemma requested_app (t t' : list effect) :
  requested (t ++ t') = (requested t + requested t')%nat.
Proof.
  induction t as [|e t IH]; [reflexivity|].
  destruct e; simpl; now rewrite IH.
Qed.

Lemma published_app (t t' : list effect) :
  published (t ++ t') = (published t ++ published t')%list.
Proof.
  induction t as [|e t IH]; [reflexivity|].
  destruct e; simpl; now rewrite IH.
Qed.

(** One cycle: one provider call; without a batch nothing is published. *)
Lemma run_cycle_calls (w : world) (s : store) :
  exists t : list effect,
    run w controller.updateTournamentData s = (inl tt, after_cycle w s, t)
    /\ requested t = 1%nat
    /\ (batch_of (provider w) = None -> published t = []).
Proof.
  unfold after_cycle. destruct (batch_of (provider w)) as [games|] eqn:Hbatch.
  - rewrite (run_updateTournamentData w s games Hbatch). eexists.
    split; [reflexivity|]. split; [|discriminate].
    cbn [requested]. rewrite requested_app.
    destruct (provider w) as [[data| |body]|message];
      destruct (canvas w _ _) as [[]|?]; reflexivity.
  - rewrite (run_updateTournamentData_aborted w s Hbatch). eexists.
    split; [reflexivity|]. split; reflexivity.
Qed.

(** X19.  A refresh request, the chat client working: one provider call,
    and the last reply says the data has been refreshed, whatever
    happened.  When the provider delivered a batch (or its call was
    rejected and the mock data stood in), the cycle's snapshot is the
    current one, also when the document store rejected the update; when
    the provider delivered something else than an array, no snapshot was
    built, nothing was published and [tournamentData] is as it was. *)
Theorem refresh_reply_whatever_happened
  (w : world) (s : store) (m : controller.message) :
  asks_refresh m = true ->
  (forall x, slack w x = Resolved tt) ->
  let r := run w (controller.on_message m) s in
  result_of r = inl tt
  /\ store_of r
     = match batch_of (provider w) with
       | Some games =>
           CycleData (controller.build_tournamentData games (clock w))
       | None => s
       end
  /\ requested (effects_of r) = 1%nat
  /\ (batch_of (provider w) = None -> published (effects_of r) = [])
  /\ last (effects_of r) Requested
     = Said "Tournament data has been refreshed! Check the Canvas for updates.".
Proof.
  intros Hm Hslack r.
  assert (Hrun : exists t,
             r = (inl tt, after_cycle w s,
                  (t ++ [Said "Tournament data has been refreshed! Check the Canvas for updates."])%list)
             /\ requested t = 1%nat
             /\ (batch_of (provider w) = None -> published t = [])).
  { subst r. unfold asks_refresh in Hm.
    destruct (controller.text m) as [raw|] eqn:Hraw; [|discriminate Hm].
    cbv zeta in Hm.
    rewrite !andb_true_iff, !negb_true_iff in Hm.
    destruct Hm as ((((Him & Hcur) & Hclose) & Hupset) & Hrefresh).
    unfold controller.on_message. rewrite Hraw. cbv zeta.
    rewrite Him, Hcur, Hclose, Hupset, Hrefresh.
    cbn [negb]. rewrite run_try_catch, run_bind.
    unfold say at 1. cbn [run]. rewrite Hslack. cbn [await run].
    rewrite run_bind.
    destruct (run_cycle_calls w s) as (tc & -> & Hreq & Hpub).
    unfold say. cbn [run]. rewrite Hslack. cbn [await run].
    exists (Said "Fetching the latest tournament data..." :: tc).
    split; [|split].
    - reflexivity.
    - exact Hreq.
    - exact Hpub. }
  destruct Hrun as (t & -> & Hreq & Hpub).
  unfold result_of, store_of, effects_of. cbn [fst snd].
  split; [reflexivity|]. split; [reflexivity|]. split; [|split].
  - rewrite requested_app, Hreq. reflexivity.
  - intros Hnone. rewrite published_app, (Hpub Hnone). reflexivity.
  - apply last_last.
Qed.

(** X20.  The message handler fails in two cases only.  A direct message
    without a text makes it throw at [message.text.toLowerCase()], before
    its [try]: nothing is said and nothing is logged.  With a text it
    fails only when its apology cannot be sent, and then with that
    rejection.  The [app_mention] handler never fails. *)
Theorem handlers_contain_failures
  (w : world) (s : store) (m : controller.message) (user : string) :
  (controller.channel_type m = "im" -> controller.text m = None ->
   run w (controller.on_message m) s
   = (inr controller.cannot_read_toLowerCase, s, []))
  /\ (forall e : string,
         result_of (run w (controller.on_message m) s) = inr e ->
         (controller.text m = None /\ e = controller.cannot_read_toLowerCase)
         \/ (exists raw : string,
                controller.text m = Some raw
                /\ slack w "Sorry, I encountered an error processing your request."
                   = Rejected e))
  /\ result_of (run w (bootstrap.on_app_mention user) s) = inl tt.
Proof.
  split; [|split].
  - intros Him Hraw. unfold controller.on_message. rewrite Him, Hraw. reflexivity.
  - intros e Hfail. unfold controller.on_message in Hfail.
    destruct (negb (String.eqb (controller.channel_type m) "im"));
      [discriminate|].
    destruct (controller.text m) as [raw|].
    + right. exists raw. split; [reflexivity|]. cbv zeta in Hfail.
      rewrite run_try_catch in Hfail.
      destruct (run w _ s) as [[[a|e0] s'] t]; [discriminate|].
      unfold say, console_error_object in Hfail. cbn [bind run] in Hfail.
      destruct (slack w _) as [[]|e']; cbn [await run result_of fst] in Hfail;
        [discriminate|]. now injection Hfail as ->.
    + left. split; [reflexivity|]. cbn [run result_of fst] in Hfail.
      now injection Hfail as <-.
  - unfold bootstrap.on_app_mention, say, console_error_object.
    cbn [try_catch run].
    destruct (slack w _) as [[]|e']; reflexivity.
Qed.

(** X21.  A query that arrives while a cycle's publish call is still
    pending is answered from that cycle's snapshot, the snapshot built from
    the batch the provider's answer gave the cycle.  After a cycle that
    was handed no array, nothing is pending and the query is answered from
    the data as it was. *)
Theorem query_sees_snapshot_before_publish_settles
  (c : config) (t1 t2 t3 : Z) (r : outcome response_data) :
  let c2 := step (step c (CronTick t1))
                 (Settled t2 (List.length (pool c)) (FromProvider r)) in
  let c3 := step c2 (Incoming t3 upsets_query) in
  match batch_of r with
  | Some games =>
      publishing c3 = S (publishing c)
      /\ last (journal c3) Requested
         = Said ("There have been "
                   ++ show_nat (List.length (sportService.upsets games))
                   ++ " upsets in the tournament so far.")
  | None =>
      publishing c3 = publishing c
      /\ last (journal c3) Requested
         = Said ("There have been "
                   ++ show_nat (List.length
                                  (controller.read_upsets (tournamentData c)))
                   ++ " upsets in the tournament so far.")
  end.
Proof.
  intros c2 c3.
  destruct (scheduled_round c t1 t2 r) as (_ & _ & Hout).
  fold c2 in Hout. unfold cycle_outcome in Hout.
  assert (Hc3 : publishing c3 = publishing c2
                /\ last (journal c3) Requested
                   = Said ("There have been "
                             ++ show_nat (List.length
                                            (controller.read_upsets
                                               (tournamentData c2)))
                             ++ " upsets in the tournament so far.")).
  { subst c3. unfold step at 1, spawn, controller.on_message, upsets_query.
    cbn [controller.channel_type controller.text].
    change (controller.toLowerCase "Any upsets?") with "any upsets?".
    change (negb (String.eqb "im" "im")) with false.
    cbv zeta.
    change (controller.includes "any upsets?" "current") with false.
    change (controller.includes "any upsets?" "in progress") with false.
    change (controller.includes "any upsets?" "close") with false.
    change (controller.includes "any upsets?" "upset") with true.
    cbn [orb]. unfold say, get_tournamentData. cbn [bind try_catch settle].
    split.
    - unfold publishing. cbn [pool]. rewrite filter_app, length_app.
      cbn [filter is_publishing List.length]. lia.
    - cbn [journal]. apply last_last. }
  destruct Hc3 as [Hpub Hsaid].
  destruct (batch_of r) as [games|]; destruct Hout as [Hp Hd];
    rewrite Hpub, Hsaid, Hp, Hd; split; reflexivity.
Qed.

End BootstrapFacts.

(* ================================================================== *)
(** * Instances of the hypotheses *)

(** A batch with one scheduled game has no [Final] record (X6). *)
Lemma statistics_before_any_final_witness :
  filter (status_is "Final") [scheduled_game] = []
  /\ Stats.closestGames (sportService.calculateTournamentStats [scheduled_game]) = [].
Proof.
  split; [reflexivity|].
  exact (proj2 (proj2 (proj2 (proj2 (proj1
    (statistics_before_any_final [scheduled_game] eq_refl)))))).
Defined.

(** A scheduled game (X7). *)
Lemma scheduled_line_ignores_scores_witness :
  Status scheduled_game = "Scheduled"
  /\ @formatGameLine demo_host canvasService.glyph
       (with_scores scheduled_game 70 68) false
     = @formatGameLine demo_host canvasService.glyph scheduled_game false.
Proof.
  split; [reflexivity|].
  exact (@scheduled_line_ignores_scores demo_host canvasService.glyph
           scheduled_game 70 68 false eq_refl).
Defined.

(** The snapshot built from the mock data carries both lists, and every
    game of the mock data has a valid date (X9, X10). *)
Lemma recent_and_upcoming_selection_witness :
  Data.completedGames mock_snapshot
  = Some (filter (status_is "Final") sportService.getMockTournamentData)
  /\ Data.upcomingGames mock_snapshot
     = Some (filter (status_is "Scheduled") sportService.getMockTournamentData)
  /\ forallb (@dated demo_host)
       (filter (status_is "Final") sportService.getMockTournamentData) = true
  /\ StronglySorted (@not_sooner demo_host)
       (JS.slice0 5 (@Array_sort_by_date demo_host (@later_first demo_host)
                       (filter (status_is "Final")
                          sportService.getMockTournamentData))).
Proof.
  split; [reflexivity|]. split; [reflexivity|]. split; [reflexivity|].
  exact (proj1 (proj2 (proj1 (proj2 (proj2
    (@recent_and_upcoming_selection demo_host mock_snapshot _ _ eq_refl eq_refl))))
    eq_refl)).
Defined.

Lemma second_copy_selection_witness :
  Data.completedGames mock_snapshot
  = Some (filter (status_is "Final") sportService.getMockTournamentData)
  /\ Data.upcomingGames mock_snapshot
     = Some (filter (status_is "Scheduled") sportService.getMockTournamentData)
  /\ forallb (@dated demo_host)
       (filter (status_is "Scheduled") sportService.getMockTournamentData) = true
  /\ StronglySorted (@not_later demo_host)
       (JS.slice0 10 (@Array_sort_by_date demo_host (@sooner_first demo_host)
                        (filter (status_is "Scheduled")
                           sportService.getMockTournamentData))).
Proof.
  split; [reflexivity|]. split; [reflexivity|]. split; [reflexivity|].
  exact (proj1 (proj2 (proj2 (proj2 (proj2
    (@second_copy_selection demo_host mock_snapshot 0 _ _ eq_refl eq_refl))))
    eq_refl)).
Defined.

(** The object of the bootstrap's first content update has no lists and
    no statistics (X12). *)
Lemma placeholders_for_missing_data_witness :
  blank (Data.currentGames demo_loading_data) = true
  /\ Data.stats demo_loading_data = None
  /\ @canvasService2.blocks demo_host 7 demo_loading_data
     = page canvasService2.glyph "No games in progress." "No completed games."
         "No upcoming games." "Statistics not available."
         ("Last updated: " ++ @toLocaleString_default demo_host 7).
Proof.
  split; [reflexivity|]. split; [reflexivity|].
  exact (proj2 (@placeholders_for_missing_data demo_host demo_loading_data 7
                  eq_refl eq_refl eq_refl eq_refl eq_refl)).
Defined.

(** The in-progress games of the mock data have distinct ids (X14). *)
Lemma second_copy_flags_close_games_witness :
  NoDup (map GameID (filter (status_is "InProgress")
                       sportService.getMockTournamentData))
  /\ @canvasService2.gamesInProgressContent demo_host mock_snapshot
     = JS.join (nl ++ nl)
         (map (fun g => @canvasService2.formatGameForDisplay demo_host g true
                          ++ (if @controller.close_test demo_host g
                              then close_marker else ""))
              (filter (status_is "InProgress") sportService.getMockTournamentData)).
Proof.
  assert (Hnd : NoDup (map GameID (filter (status_is "InProgress")
                                     sportService.getMockTournamentData))).
  { simpl. constructor; [intros []|constructor]. }
  split; [exact Hnd|].
  exact (@second_copy_flags_close_games demo_host
           sportService.getMockTournamentData 20250320150000 Hnd).
Defined.

(** The upset query does not reach the refresh branch (X18). *)
Lemma on_message_refreshes_only_on_request_witness :
  asks_refresh upsets_query = false
  /\ store_of (run (world_at 0) (@controller.on_message demo_host upsets_query)
                 InitialData) = InitialData.
Proof.
  split; [reflexivity|].
  exact (proj1 (@on_message_refreshes_only_on_request demo_host (world_at 0)
                  InitialData upsets_query eq_refl)).
Defined.

(** A refresh request in a world whose chat client works (X19). *)
Lemma refresh_reply_whatever_happened_witness :
  asks_refresh refresh_request = true
  /\ (forall x, slack failing_canvas_world x = Resolved tt)
  /\ last (effects_of (run failing_canvas_world
                         (@controller.on_message demo_host refresh_request)
                         InitialData)) Requested
     = Said "Tournament data has been refreshed! Check the Canvas for updates.".
Proof.
  split; [reflexivity|]. split; [intros x; reflexivity|].
  exact (proj2 (proj2 (proj2 (proj2
    (@refresh_reply_whatever_happened demo_host failing_canvas_world InitialData
       refresh_request eq_refl (fun x => eq_refl)))))).
Defined.

(** A world whose chat client rejects every message: the handler fails
    with the rejection of its apology; and a direct message without a text
    (X20). *)
Lemma handlers_contain_failures_witness :
  result_of (run silent_slack_world (@controller.on_message demo_host upsets_query)
               InitialData) = inr "channel_not_found"
  /\ run (world_at 0) (@controller.on_message demo_host textless_message)
         InitialData
     = (inr controller.cannot_read_toLowerCase, InitialData, [])
  /\ ((controller.text upsets_query = None
       /\ "channel_not_found" = controller.cannot_read_toLowerCase)
      \/ (exists raw : string,
             controller.text upsets_query = Some raw
             /\ slack silent_slack_world
                  "Sorry, I encountered an error processing your request."
                = Rejected "channel_not_found")).
Proof.
  assert (Hfail : result_of (run silent_slack_world
                               (@controller.on_message demo_host upsets_query)
                               InitialData) = inr "channel_not_found")
    by reflexivity.
  split; [exact Hfail|]. split.
  - exact (proj1 (@handlers_contain_failures demo_host (world_at 0) InitialData
                    textless_message "U1") eq_refl eq_refl).
  - exact (proj1 (proj2 (@handlers_contain_failures demo_host silent_slack_world
                           InitialData upsets_query "U1"))
             "channel_not_found" Hfail).
Defined.
